(** * Resumable SAE training orchestrator: a shallow embedding

    The development follows [sae_training/config.py],
    [sae_training/train_sae_on_language_model.py] and
    [sae_training/lm_runner.py].  Python integers are [Z],
    strings are [string] (file names and labels are taken to be ASCII),
    exceptions are an explicit error type, and the process-wide mutable state
    (file system, standard output, pseudo-random generators, pending signal)
    is threaded through a small state-and-exception monad. *)

From Stdlib Require Import ZArith QArith List String Ascii Bool Lia DecimalString
  DecimalPos.
Import ListNotations.
Open Scope string_scope.
Open Scope Z_scope.

(* ===================================================================== *)
(** ** Python exceptions and results *)
(* ===================================================================== *)

(** The Python exceptions the code can meet.  [OutOfFuel] is not one of them:
    the training loop of the model runs on fuel, and [OutOfFuel] is what it
    yields when the fuel is spent; no handler catches it. *)
Inductive exn : Type :=
| ZeroDivisionError
| ValueError
| AttributeError
| TypeError
| IndexError
| FileNotFoundError
| RuntimeError
| KeyError
| AssertionError
| InterruptedException
| KeyboardInterrupt
| OutOfFuel.

(** The outcome of a call: a value or a raised exception. *)
Inductive result (A : Type) : Type :=
| Ok (a : A)
| Raise (e : exn).
Arguments Ok {A} a.
Arguments Raise {A} e.

Definition rbind {A B} (r : result A) (k : A -> result B) : result B :=
  match r with
  | Ok a => k a
  | Raise e => Raise e
  end.

Definition exn_eqb (a b : exn) : bool :=
  match a, b with
  | ZeroDivisionError, ZeroDivisionError | ValueError, ValueError
  | AttributeError, AttributeError | TypeError, TypeError
  | IndexError, IndexError | FileNotFoundError, FileNotFoundError
  | RuntimeError, RuntimeError | KeyError, KeyError
  | AssertionError, AssertionError
  | InterruptedException, InterruptedException
  | KeyboardInterrupt, KeyboardInterrupt
  | OutOfFuel, OutOfFuel => true
  | _, _ => false
  end.

Definition is_ok {A} (r : result A) : bool :=
  match r with Ok _ => true | Raise _ => false end.

(* ===================================================================== *)
(** ** Python integer and string primitives *)
(* ===================================================================== *)

Module Py.

(** [a % b]: floor modulus, [ZeroDivisionError] on a zero divisor.  [Z.modulo]
    takes the sign of the divisor, as Python's [%] does. *)
Definition mod_ (a b : Z) : result Z :=
  if b =? 0 then Raise ZeroDivisionError else Ok (a mod b).

(** [a // b]: floor division, [ZeroDivisionError] on a zero divisor. *)
Definition floordiv (a b : Z) : result Z :=
  if b =? 0 then Raise ZeroDivisionError else Ok (a / b).

(** [str(n)] / [f"{n}"] for an integer. *)
Definition str_of_int (n : Z) : string :=
  NilZero.string_of_int (Z.to_int n).

(** [s.startswith(p)] *)
Fixpoint startswith (s p : string) : bool :=
  match p, s with
  | EmptyString, _ => true
  | String _ _, EmptyString => false
  | String a p', String b s' => Ascii.eqb a b && startswith s' p'
  end.

(** [s.split(sep)] for a one-character separator: never returns the empty
    list. *)
Fixpoint split (sep : ascii) (s : string) : list string :=
  match s with
  | EmptyString => [EmptyString]
  | String c s' =>
      if Ascii.eqb c sep then EmptyString :: split sep s'
      else match split sep s' with
           | [] => [String c EmptyString]
           | p :: ps => String c p :: ps
           end
  end.

(** [pieces[0]] *)
Definition item0 (pieces : list string) : result string :=
  match pieces with
  | [] => Raise IndexError
  | p :: _ => Ok p
  end.

(** [s.replace(a, b)] for one-character [a] and [b]. *)
Fixpoint replace_char (a b : ascii) (s : string) : string :=
  match s with
  | EmptyString => EmptyString
  | String c s' => String (if Ascii.eqb c a then b else c) (replace_char a b s')
  end.

(** [s.replace(old, new)] for a non-empty [old]; [skip] counts the characters
    of a match still to be dropped. *)
Fixpoint replace_from (skip : nat) (old new s : string) : string :=
  match s with
  | EmptyString => EmptyString
  | String c s' =>
      match skip with
      | S k => replace_from k old new s'
      | O =>
          if startswith s old
          then new ++ replace_from (Nat.pred (String.length old)) old new s'
          else String c (replace_from O old new s')
      end
  end.

Definition replace (old new s : string) : string := replace_from O old new s.

(** Characters that [int()] strips: the ASCII range of [str.isspace]. *)
Definition is_space (c : ascii) : bool :=
  let n := nat_of_ascii c in
  ((9 <=? n) && (n <=? 13) || (28 <=? n) && (n <=? 32))%nat.

Definition digit_of (c : ascii) : option Z :=
  let n := nat_of_ascii c in
  if ((48 <=? n) && (n <=? 57))%nat then Some (Z.of_nat n - 48) else None.

Definition underscore : ascii := "_"%char.

Fixpoint lstrip (l : list ascii) : list ascii :=
  match l with
  | c :: l' => if is_space c then lstrip l' else l
  | [] => []
  end.

Definition strip (l : list ascii) : list ascii :=
  rev (lstrip (rev (lstrip l))).

(** Digits with single underscores allowed between digits (PEP 515).
    [after_digit] tells whether the previous character was a digit. *)
Fixpoint digits (acc : Z) (after_digit : bool) (l : list ascii) : option Z :=
  match l with
  | [] => if after_digit then Some acc else None
  | c :: l' =>
      match digit_of c with
      | Some d => digits (10 * acc + d) true l'
      | None =>
          if Ascii.eqb c underscore && after_digit
          then match l' with
               | c' :: _ => match digit_of c' with
                            | Some _ => digits acc false l'
                            | None => None
                            end
               | [] => None
               end
          else None
      end
  end.

(** [int(s)] in base ten: surrounding whitespace, an optional sign, digits.
    [None] stands for the [ValueError] Python raises. *)
Definition parse_int (s : string) : option Z :=
  match strip (list_ascii_of_string s) with
  | [] => None
  | c :: l =>
      if Ascii.eqb c "-"%char then option_map Z.opp (digits 0 false l)
      else if Ascii.eqb c "+"%char then digits 0 false l
      else digits 0 false (c :: l)
  end.

Definition int_ (s : string) : result Z :=
  match parse_int s with
  | Some z => Ok z
  | None => Raise ValueError
  end.

(** [min(l)] and [max(l)]: [ValueError] on an empty sequence. *)
Definition min_ (l : list Z) : result Z :=
  match l with
  | [] => Raise ValueError
  | x :: l' => Ok (fold_left Z.min l' x)
  end.

Definition max_ (l : list Z) : result Z :=
  match l with
  | [] => Raise ValueError
  | x :: l' => Ok (fold_left Z.max l' x)
  end.

(** [l.index(x)]: [ValueError] when [x] is absent. *)
Fixpoint index (x : Z) (l : list Z) : result Z :=
  match l with
  | [] => Raise ValueError
  | y :: l' => if x =? y then Ok 0 else rbind (index x l') (fun i => Ok (i + 1))
  end.

(** [os.path.join(a, b)] for a relative, non-empty [b]. *)
Definition ends_with_slash (a : string) : bool :=
  match rev (list_ascii_of_string a) with
  | c :: _ => Ascii.eqb c "/"%char
  | [] => false
  end.

Definition path_join (a b : string) : string :=
  if (String.length a =? 0)%nat then b
  else if ends_with_slash a then a ++ b
  else a ++ "/" ++ b.

End Py.

(* ===================================================================== *)
(** ** config.py: LanguageModelSAERunnerConfig *)
(* ===================================================================== *)

(** [hook_point_layer] and [expansion_factor] are declared [int] but the code
    tests them with [isinstance(.., list)]: either a single integer or a
    list. *)
Inductive int_or_list : Type :=
| One (z : Z)
| Many (l : list Z).

(** A checkpoint name: [_save_checkpoint] takes [int | str]. *)
Inductive label : Type :=
| LInt (z : Z)
| LStr (s : string).

(** The fields of the configuration that the orchestrator reads.  Floating
    point hyper-parameters (learning rates, coefficients) live inside the
    abstract optimizer and scheduler and are not repeated here. *)
Record LanguageModelSAERunnerConfig : Type := mkConfig {
  model_name : string;
  hook_point : string;
  hook_point_layer : int_or_list;
  d_in : Z;
  total_training_tokens : Z;
  device : string;
  resume : bool;
  b_dec_init_method : string;
  expansion_factor : int_or_list;
  d_sae : option Z;
  lr_scheduler_name : string;
  train_batch_size : Z;
  feature_sampling_window : Z;
  dead_feature_window : Z;
  log_to_wandb : bool;
  wandb_id : option string;
  wandb_log_frequency : Z;
  checkpoint_every : Z;
  checkpoint_path : string;
  max_checkpoints : option Z;
  verbose : bool
}.





(** The dataclass defaults of [RunnerConfig] and
    [LanguageModelSAERunnerConfig]. *)
Definition default_config : LanguageModelSAERunnerConfig :=
  {| model_name := "gelu-2l";
     hook_point := "blocks.{layer}.hook_mlp_out";
     hook_point_layer := One 0;
     d_in := 512;
     total_training_tokens := 2000000;
     device := "cpu";
     resume := false;
     b_dec_init_method := "geometric_median";
     expansion_factor := One 4;
     d_sae := None;
     lr_scheduler_name := "constant";
     train_batch_size := 4096;
     feature_sampling_window := 2000;
     dead_feature_window := 1000;
     log_to_wandb := true;
     wandb_id := None;
     wandb_log_frequency := 10;
     checkpoint_every := 0;
     checkpoint_path := "checkpoints";
     max_checkpoints := None;
     verbose := true |}.



Definition str_of_label (l : label) : string :=
  match l with
  | LInt z => Py.str_of_int z
  | LStr s => s
  end.

Definition str_of_optional_int (o : option Z) : string :=
  match o with
  | Some z => Py.str_of_int z
  | None => "None"
  end.

(** [hook_point.format(layer=layer_string)]: the only replacement field the
    templates of this repository use is [{layer}]. *)
Definition format_layer (template layer_string : string) : string :=
  Py.replace "{layer}" layer_string template.

(** [get_name] *)
Definition get_name (c : LanguageModelSAERunnerConfig) : result string :=
  let layers := match hook_point_layer c with
                | One z => [z]
                | Many l => l
                end in
  rbind (if (1 <? Z.of_nat (List.length layers))
         then rbind (Py.min_ layers) (fun lo =>
              rbind (Py.max_ layers) (fun hi => Ok (Py.str_of_int (lo - hi))))
         else match layers with
              | z :: _ => Ok (Py.str_of_int z)
              | [] => Raise IndexError
              end)
    (fun layer_string =>
       Ok ("sae_group_" ++ Py.replace_char "/" "_" (model_name c) ++ "_"
           ++ format_layer (hook_point c) layer_string ++ "_"
           ++ str_of_optional_int (d_sae c))).

(** [get_base_path] *)
Definition get_base_path (c : LanguageModelSAERunnerConfig)
    (checkpoint_name : label) : result string :=
  rbind (get_name c) (fun name =>
    Ok (checkpoint_path c ++ "/" ++ str_of_label checkpoint_name ++ "_" ++ name)).

(* ===================================================================== *)
(** ** Tensor division *)
(* ===================================================================== *)

(** An entry of a floating-point tensor obtained by dividing a count by a
    count: a number, an infinity or not-a-number.  Finite quotients are kept
    as exact rationals. *)
Inductive fval : Type :=
| Finite (q : Q)
| PlusInf
| MinusInf
| NaN.

(** [a / n] entry-wise as torch computes it: dividing by zero does not raise,
    it yields [nan] for [0 / 0] and a signed infinity otherwise. *)
Definition tensor_div (a n : Z) : fval :=
  if n =? 0 then
    if a =? 0 then NaN else if 0 <? a then PlusInf else MinusInf
  else Finite (Qdiv (inject_Z a) (inject_Z n)).

(* ===================================================================== *)
(** ** The state-and-exception monad *)
(* ===================================================================== *)

(** A computation over a mutable state [S]: effects made before an exception
    is raised stay in the state, as in Python. *)
Definition M (S A : Type) : Type := S -> result A * S.

Definition ret {S A} (a : A) : M S A := fun s => (Ok a, s).

Definition bind {S A B} (m : M S A) (k : A -> M S B) : M S B :=
  fun s =>
    match m s with
    | (Ok a, s') => k a s'
    | (Raise e, s') => (Raise e, s')
    end.

Definition raise {S A} (e : exn) : M S A := fun s => (Raise e, s).

Definition lift {S A} (r : result A) : M S A := fun s => (r, s).

Definition gets {S A} (f : S -> A) : M S A := fun s => (Ok (f s), s).

Definition modify {S} (f : S -> S) : M S unit := fun s => (Ok tt, f s).

(** [try: body except (..): handler] *)
Definition try_except {S A} (body : M S A) (catches : exn -> bool)
    (handler : exn -> M S A) : M S A :=
  fun s =>
    match body s with
    | (Raise e, s') => if catches e then handler e s' else (Raise e, s')
    | r => r
    end.

Declare Scope monad_scope.
Delimit Scope monad_scope with monad.
Notation "x <- c ;; k" := (bind c (fun x => k))
  (at level 61, c at next level, right associativity) : monad_scope.
Notation "c ;;; k" := (bind c (fun _ => k))
  (at level 61, right associativity) : monad_scope.
Open Scope monad_scope.

(** [for x in l: body x] *)
Fixpoint for_each {S A} (l : list A) (body : A -> M S unit) : M S unit :=
  match l with
  | [] => ret tt
  | x :: l' => body x ;;; for_each l' body
  end.

(* ===================================================================== *)
(** ** The file system and Python containers *)
(* ===================================================================== *)

Module Fs.

(** Files are (path, content) pairs; a directory exists when some file lies
    under it.  Paths are taken as written (no [.], [..] or doubled
    separators). *)
Fixpoint strip_prefix (p s : string) : option string :=
  match p, s with
  | EmptyString, _ => Some s
  | String _ _, EmptyString => None
  | String a p', String b s' =>
      if Ascii.eqb a b then strip_prefix p' s' else None
  end.

(** The name of the directory entry through which [path] lies under [dir]. *)
Definition entry_under (dir path : string) : option string :=
  match strip_prefix (dir ++ "/") path with
  | Some r => match Py.split "/" r with
              | n :: _ => if (String.length n =? 0)%nat then None else Some n
              | [] => None
              end
  | None => None
  end.

Fixpoint entries {X} (dir : string) (files : list (string * X)) : list string :=
  match files with
  | [] => []
  | (p, _) :: files' =>
      match entry_under dir p with
      | Some n => n :: entries dir files'
      | None => entries dir files'
      end
  end.

(** [os.listdir(dir)] *)
Definition listdir {X} (dir : string) (files : list (string * X))
  : result (list string) :=
  match nodup string_dec (entries dir files) with
  | [] => Raise FileNotFoundError
  | names => Ok names
  end.

(** [os.path.isfile(path)] *)
Definition isfile {X} (path : string) (files : list (string * X)) : bool :=
  existsb (fun f => String.eqb (fst f) path) files.

Fixpoint lookup {X} (path : string) (files : list (string * X)) : option X :=
  match files with
  | [] => None
  | (p, x) :: files' => if String.eqb p path then Some x else lookup path files'
  end.

(** Writing creates the file or replaces its content in place. *)
Fixpoint write {X} (path : string) (x : X) (files : list (string * X))
  : list (string * X) :=
  match files with
  | [] => [(path, x)]
  | (p, y) :: files' =>
      if String.eqb p path then (p, x) :: files'
      else (p, y) :: write path x files'
  end.

Definition remove {X} (path : string) (files : list (string * X))
  : list (string * X) :=
  filter (fun f => negb (String.eqb (fst f) path)) files.

End Fs.

Module Dict.

(** A [defaultdict(list)] keyed by integers, in insertion order. *)
Definition t : Type := list (Z * list string).

(** [d[k].append(v)] *)
Fixpoint append (k : Z) (v : string) (d : t) : t :=
  match d with
  | [] => [(k, [v])]
  | (k', vs) :: d' =>
      if k' =? k then (k', (vs ++ [v])%list) :: d'
      else (k', vs) :: append k v d'
  end.

Definition keys (d : t) : list Z := map fst d.

Fixpoint get (k : Z) (d : t) : option (list string) :=
  match d with
  | [] => None
  | (k', vs) :: d' => if k' =? k then Some vs else get k d'
  end.

End Dict.

(** [sorted(l)] on integers. *)
Fixpoint insert_sorted (x : Z) (l : list Z) : list Z :=
  match l with
  | [] => [x]
  | y :: l' => if x <=? y then x :: l else y :: insert_sorted x l'
  end.

Definition sorted (l : list Z) : list Z := fold_right insert_sorted [] l.

(** [l[:stop]] *)
Definition slice_to {A} (stop : Z) (l : list A) : list A :=
  if stop <? 0
  then firstn (Z.to_nat (Z.max 0 (Z.of_nat (List.length l) + stop))) l
  else firstn (Z.to_nat stop) l.

(** The values a variable of [remove_excess_checkpoints] can hold: the
    dictionary returned by [get_checkpoints_by_step], or one of its integer
    keys. *)
Inductive pyval : Type :=
| PInt (z : Z)
| PDict (d : Dict.t).

(** [a, b = v]: iterating a dictionary yields its keys; anything but exactly
    two items is a [ValueError]; an integer is not iterable. *)
Definition unpack2 (v : pyval) : result (pyval * pyval) :=
  match v with
  | PDict d => match Dict.keys d with
               | [k1; k2] => Ok (PInt k1, PInt k2)
               | _ => Raise ValueError
               end
  | PInt _ => Raise TypeError
  end.

(** [v.keys()] *)
Definition py_keys (v : pyval) : result (list Z) :=
  match v with
  | PDict d => Ok (Dict.keys d)
  | PInt _ => Raise AttributeError
  end.

(** [v[k]] *)
Definition py_getitem (v : pyval) (k : Z) : result (list string) :=
  match v with
  | PDict d => match Dict.get k d with
               | Some vs => Ok vs
               | None => Ok []
               end
  | PInt _ => Raise TypeError
  end.

(* ===================================================================== *)
(** ** External collaborators *)
(* ===================================================================== *)

(** Everything the orchestrator consumes but does not define: tensors and
    their entries, the autoencoder's forward pass, the optimizer and the
    scheduler, the activation store and the pseudo-random generators.  The
    training code is written once against this interface. *)
Class Collaborators : Type := {
  (** tensors *)
  Acts : Type;        (** a batch [batch, layers, d_in] from the store *)
  SaeIn : Type;       (** its slice for one layer *)
  SaeOut : Type;
  act : Type;         (** one entry of [feature_acts] *)
  Scalar : Type;      (** a loss value *)
  LogVal : Type;      (** one entry of a log-sparsity tensor *)
  act_gt0 : act -> bool;       (** [x > 0] *)
  act_abs_gt0 : act -> bool;   (** [x.abs() > 0] *)
  slice_layer : Acts -> Z -> SaeIn;
  (** the autoencoder *)
  Weights : Type;
  set_decoder_norm_to_unit_norm : Weights -> Weights;
  (** [sparse_autoencoder(sae_in, mask)]: the six results in the source's
      order.  [feature_acts] is given unit by unit: entry [j] lists the
      activation of unit [j] on every row of the batch. *)
  forward : LanguageModelSAERunnerConfig -> Weights -> SaeIn -> list bool ->
            SaeOut * list (list act) * Scalar * Scalar * Scalar * Scalar;
  (** optimizer and scheduler *)
  Optimizer : Type;
  Scheduler : Type;
  Adam : LanguageModelSAERunnerConfig -> Weights -> Optimizer;
  get_scheduler : LanguageModelSAERunnerConfig -> Optimizer -> Z ->
                  result Scheduler;
  (** [zero_grad]; [loss.backward()];
      [remove_gradient_parallel_to_decoder_directions]; [optimizer.step()] *)
  optimizer_step : Weights -> Optimizer -> SaeIn -> list bool ->
                   Weights * Optimizer;
  scheduler_step : Scheduler -> Optimizer -> Scheduler * Optimizer;
  (** pseudo-random generators: torch, one per CUDA device, numpy, [random] *)
  TorchGen : Type;
  CudaGen : Type;
  NumpyGen : Type;
  RandomGen : Type;
  Draw : Type;
  torch_draw : TorchGen -> Draw * TorchGen;
  cuda_draw : CudaGen -> Draw * CudaGen;
  numpy_draw : NumpyGen -> Draw * NumpyGen;
  random_draw : RandomGen -> Draw * RandomGen;
  (** the activation store; [next_batch] may consume randomness *)
  Store : Type;
  LayerActs : Type;
  Median : Type;
  next_batch : Store -> TorchGen * list CudaGen * NumpyGen * RandomGen ->
               Acts * Store * (TorchGen * list CudaGen * NumpyGen * RandomGen);
  storage_buffer_layer : Store -> Z -> LayerActs;
  compute_geometric_median : LayerActs -> Median;
  initialize_b_dec_with_precalculated : Weights -> Median -> Weights;
  initialize_b_dec_with_mean : Weights -> LayerActs -> Weights;
  (** [torch.log10(x + eps)] on one entry of a sparsity tensor *)
  log10_plus_eps : fval -> LogVal
}.

(* ===================================================================== *)
(** ** train_sae_on_language_model.py: data *)
(* ===================================================================== *)

Section Orchestrator.

Context {C : Collaborators}.

(** The process-wide generator states: torch, every CUDA device, numpy and
    Python's [random]. *)
Definition Rng : Type := (TorchGen * list CudaGen * NumpyGen * RandomGen)%type.

Definition rng_torch (g : Rng) : TorchGen := fst (fst (fst g)).
Definition rng_cuda (g : Rng) : list CudaGen := snd (fst (fst g)).
Definition rng_numpy (g : Rng) : NumpyGen := snd (fst g).
Definition rng_random (g : Rng) : RandomGen := snd g.

Record SparseAutoencoder : Type := mkSAE {
  cfg : LanguageModelSAERunnerConfig;
  weights : Weights
}.

(** [SAETrainContext].  The two tensors hold counts: float32 in the source,
    exact integers here (float32 is exact on the counts a run can reach,
    below 2^24). *)
Record SAETrainContext : Type := mkContext {
  act_freq_scores : list Z;
  n_forward_passes_since_fired : list Z;
  n_frac_active_tokens : Z;
  optimizer : Optimizer;
  scheduler : Scheduler
}.

Definition set_act_freq_scores (v : list Z) (x : SAETrainContext) :=
  mkContext v (n_forward_passes_since_fired x) (n_frac_active_tokens x)
    (optimizer x) (scheduler x).

Definition set_n_forward_passes_since_fired (v : list Z) (x : SAETrainContext) :=
  mkContext (act_freq_scores x) v (n_frac_active_tokens x)
    (optimizer x) (scheduler x).

Definition set_n_frac_active_tokens (v : Z) (x : SAETrainContext) :=
  mkContext (act_freq_scores x) (n_forward_passes_since_fired x) v
    (optimizer x) (scheduler x).

Definition set_optimizer (v : Optimizer) (x : SAETrainContext) :=
  mkContext (act_freq_scores x) (n_forward_passes_since_fired x)
    (n_frac_active_tokens x) v (scheduler x).

Definition set_scheduler (v : Scheduler) (x : SAETrainContext) :=
  mkContext (act_freq_scores x) (n_forward_passes_since_fired x)
    (n_frac_active_tokens x) (optimizer x) v.

(** The [feature_sparsity] property. *)
Definition feature_sparsity (ctx : SAETrainContext) : list fval :=
  map (fun a => tensor_div a (n_frac_active_tokens ctx)) (act_freq_scores ctx).

(** [SAETrainingRunState] *)
Record SAETrainingRunState : Type := mkRunState {
  rs_train_contexts : list SAETrainContext;
  rs_n_training_steps : Z;
  rs_n_training_tokens : Z;
  torch_state : option TorchGen;
  torch_cuda_state : option (list CudaGen);
  numpy_state : option NumpyGen;
  random_state : option RandomGen
}.

Record TrainStepOutput : Type := mkStepOutput {
  sae_in : SaeIn;
  sae_out : SaeOut;
  feature_acts : list (list act);
  loss : Scalar;
  mse_loss : Scalar;
  l1_loss : Scalar;
  ghost_grad_loss : Scalar;
  ghost_grad_neuron_mask : list bool
}.

Record SaveCheckpointOutput : Type := mkSaveOutput {
  path : string;
  activation_store_path : string;
  training_run_state_path : string;
  log_feature_sparsity_path : string;
  log_feature_sparsities : list (list LogVal)
}.

Record TrainSAEGroupOutput : Type := mkTrainOutput {
  out_sae_group : list SparseAutoencoder;
  out_checkpoint_paths : list string;
  out_log_feature_sparsities : list (list LogVal)
}.

(** What a file of a checkpoint bundle holds. *)
Inductive FileContent : Type :=
| FGroup (saes : list SparseAutoencoder)
| FSparsity (l : list (list LogVal))
| FStore (s : Store)
| FState (s : SAETrainingRunState).

(** Observable events, in the order they happen.  [EvReadSparsity] records
    the denominator at each read of the [feature_sparsity] property. *)
Inductive event : Type :=
| EvPrint (s : string)
| EvReadSparsity (denominator : Z)
| EvWriteFile (p : string)
| EvRemoveFile (p : string)
| EvWandbLog (key : string) (step : option Z)
| EvRunEvals (step : Z).

(** The mutable state the training function works on: the objects it is
    handed by reference (the group, the contexts, the store), its own local
    counters, and the process (files, output, generators, and the time at
    which a termination signal, if any, is delivered). *)
Record State : Type := mkState {
  sae_group_cfg : LanguageModelSAERunnerConfig;
  autoencoders : list SparseAutoencoder;
  train_contexts : list SAETrainContext;
  activation_store : Store;
  n_training_steps : Z;
  n_training_tokens : Z;
  checkpoint_paths : list string;
  files : list (string * FileContent);
  trace : list event;
  rng : Rng;
  clock : nat;
  signal_at : option nat
}.

Definition set_autoencoders v (s : State) :=
  mkState (sae_group_cfg s) v (train_contexts s) (activation_store s)
    (n_training_steps s) (n_training_tokens s) (checkpoint_paths s) (files s)
    (trace s) (rng s) (clock s) (signal_at s).

Definition set_train_contexts v (s : State) :=
  mkState (sae_group_cfg s) (autoencoders s) v (activation_store s)
    (n_training_steps s) (n_training_tokens s) (checkpoint_paths s) (files s)
    (trace s) (rng s) (clock s) (signal_at s).

Definition set_activation_store v (s : State) :=
  mkState (sae_group_cfg s) (autoencoders s) (train_contexts s) v
    (n_training_steps s) (n_training_tokens s) (checkpoint_paths s) (files s)
    (trace s) (rng s) (clock s) (signal_at s).

Definition set_n_training_steps v (s : State) :=
  mkState (sae_group_cfg s) (autoencoders s) (train_contexts s)
    (activation_store s) v (n_training_tokens s) (checkpoint_paths s) (files s)
    (trace s) (rng s) (clock s) (signal_at s).

Definition set_n_training_tokens v (s : State) :=
  mkState (sae_group_cfg s) (autoencoders s) (train_contexts s)
    (activation_store s) (n_training_steps s) v (checkpoint_paths s) (files s)
    (trace s) (rng s) (clock s) (signal_at s).

Definition set_checkpoint_paths v (s : State) :=
  mkState (sae_group_cfg s) (autoencoders s) (train_contexts s)
    (activation_store s) (n_training_steps s) (n_training_tokens s) v (files s)
    (trace s) (rng s) (clock s) (signal_at s).

Definition set_files v (s : State) :=
  mkState (sae_group_cfg s) (autoencoders s) (train_contexts s)
    (activation_store s) (n_training_steps s) (n_training_tokens s)
    (checkpoint_paths s) v (trace s) (rng s) (clock s) (signal_at s).

Definition set_trace v (s : State) :=
  mkState (sae_group_cfg s) (autoencoders s) (train_contexts s)
    (activation_store s) (n_training_steps s) (n_training_tokens s)
    (checkpoint_paths s) (files s) v (rng s) (clock s) (signal_at s).

Definition set_rng v (s : State) :=
  mkState (sae_group_cfg s) (autoencoders s) (train_contexts s)
    (activation_store s) (n_training_steps s) (n_training_tokens s)
    (checkpoint_paths s) (files s) (trace s) v (clock s) (signal_at s).

Definition set_clock v (s : State) :=
  mkState (sae_group_cfg s) (autoencoders s) (train_contexts s)
    (activation_store s) (n_training_steps s) (n_training_tokens s)
    (checkpoint_paths s) (files s) (trace s) (rng s) v (signal_at s).

Definition set_signal_at v (s : State) :=
  mkState (sae_group_cfg s) (autoencoders s) (train_contexts s)
    (activation_store s) (n_training_steps s) (n_training_tokens s)
    (checkpoint_paths s) (files s) (trace s) (rng s) (clock s) v.

(** *** Elementary actions *)

Definition emit (e : event) : M State unit :=
  modify (fun s => set_trace (trace s ++ [e])%list s).

Definition print (msg : string) : M State unit := emit (EvPrint msg).

Definition write_file (p : string) (x : FileContent) : M State unit :=
  modify (fun s => set_files (Fs.write p x (files s)) s) ;;;
  emit (EvWriteFile p).

(** [os.remove] *)
Definition os_remove (p : string) : M State unit :=
  fs <- gets files ;;
  if Fs.isfile p fs
  then modify (set_files (Fs.remove p fs)) ;;; emit (EvRemoveFile p)
  else raise FileNotFoundError.

(** A point of the loop at which a pending termination signal is delivered.
    The handler installed by [signal.signal] raises [InterruptedException];
    the signal is delivered once, when the clock reaches its time. *)
Definition signal_point : M State unit :=
  fun s =>
    match signal_at s with
    | Some t =>
        if (t =? clock s)%nat
        then (Raise InterruptedException, set_signal_at None s)
        else (Ok tt, set_clock (S (clock s)) s)
    | None => (Ok tt, set_clock (S (clock s)) s)
    end.

Fixpoint update_nth {A} (k : nat) (f : A -> A) (l : list A) : list A :=
  match l, k with
  | [], _ => []
  | x :: l', O => f x :: l'
  | x :: l', S k' => x :: update_nth k' f l'
  end.

Definition get_sae (k : nat) : M State SparseAutoencoder :=
  saes <- gets autoencoders ;;
  match nth_error saes k with
  | Some sae => ret sae
  | None => raise IndexError
  end.

Definition get_ctx (k : nat) : M State SAETrainContext :=
  ctxs <- gets train_contexts ;;
  match nth_error ctxs k with
  | Some ctx => ret ctx
  | None => raise IndexError
  end.

Definition upd_sae (k : nat) (f : SparseAutoencoder -> SparseAutoencoder)
  : M State unit :=
  modify (fun s => set_autoencoders (update_nth k f (autoencoders s)) s).

Definition upd_ctx (k : nat) (f : SAETrainContext -> SAETrainContext)
  : M State unit :=
  modify (fun s => set_train_contexts (update_nth k f (train_contexts s)) s).

(** Reading the [feature_sparsity] property of a context. *)
Definition read_feature_sparsity (ctx : SAETrainContext) : M State (list fval) :=
  emit (EvReadSparsity (n_frac_active_tokens ctx)) ;;;
  ret (feature_sparsity ctx).

(** [_log_feature_sparsity] *)
Definition _log_feature_sparsity (fs : list fval) : list LogVal :=
  map log10_plus_eps fs.

(** [torch.zeros(d)] for an optional integer size. *)
Definition torch_zeros (d : option Z) : result (list Z) :=
  match d with
  | None => Raise TypeError
  | Some n => if n <? 0 then Raise RuntimeError else Ok (repeat 0 (Z.to_nat n))
  end.

(* ===================================================================== *)
(** ** Training Run State: capture and restore of the generators *)
(* ===================================================================== *)

(** [SAETrainingRunState.__post_init__]: every generator state left at [None]
    is captured from the process. *)
Definition run_state_post_init (rs : SAETrainingRunState)
  : M State SAETrainingRunState :=
  g <- gets rng ;;
  ret (mkRunState (rs_train_contexts rs) (rs_n_training_steps rs)
         (rs_n_training_tokens rs)
         (match torch_state rs with None => Some (rng_torch g) | st => st end)
         (match torch_cuda_state rs with None => Some (rng_cuda g) | st => st end)
         (match numpy_state rs with None => Some (rng_numpy g) | st => st end)
         (match random_state rs with None => Some (rng_random g) | st => st end)).

(** [SAETrainingRunState(train_contexts=.., n_training_steps=..,
    n_training_tokens=..)] as [_save_checkpoint] builds it. *)
Definition new_run_state (ctxs : list SAETrainContext) (steps tokens : Z)
  : M State SAETrainingRunState :=
  run_state_post_init (mkRunState ctxs steps tokens None None None None).

(** [set_random_state]: the four setters in the source's order; a setter
    handed [None] raises. *)
Definition set_random_state (rs : SAETrainingRunState) : M State unit :=
  match torch_state rs with
  | None => raise TypeError
  | Some t =>
      modify (fun s =>
        set_rng (t, rng_cuda (rng s), rng_numpy (rng s), rng_random (rng s)) s)
  end ;;;
  match torch_cuda_state rs with
  | None => raise TypeError
  | Some c =>
      modify (fun s =>
        set_rng (rng_torch (rng s), c, rng_numpy (rng s), rng_random (rng s)) s)
  end ;;;
  match numpy_state rs with
  | None => raise TypeError
  | Some n =>
      modify (fun s =>
        set_rng (rng_torch (rng s), rng_cuda (rng s), n, rng_random (rng s)) s)
  end ;;;
  match random_state rs with
  | None => raise TypeError
  | Some r =>
      modify (fun s =>
        set_rng (rng_torch (rng s), rng_cuda (rng s), rng_numpy (rng s), r) s)
  end.

(** The next [k] draws of one generator. *)
Fixpoint draws {G} (step : G -> Draw * G) (k : nat) (g : G) : list Draw :=
  match k with
  | O => []
  | S k' => fst (step g) :: draws step k' (snd (step g))
  end.

(** The next [k] draws of every generator of the process. *)
Definition all_draws (k : nat) (g : Rng)
  : list Draw * list (list Draw) * list Draw * list Draw :=
  (draws torch_draw k (rng_torch g), map (draws cuda_draw k) (rng_cuda g),
   draws numpy_draw k (rng_numpy g), draws random_draw k (rng_random g)).

(* ===================================================================== *)
(** ** Checkpoint discovery and retention *)
(* ===================================================================== *)

(** [pieces = c.split("_"); steps = int(pieces[0])] *)
Definition leading_label (name : string) : result Z :=
  rbind (Py.item0 (Py.split "_" name)) Py.int_.

(** The directory [dir] of the file system [fs] holds a regular file called
    [name]. *)
Definition dir_has_file {X} (dir name : string) (fs : list (string * X)) : Prop :=
  In name (Fs.entries dir fs) /\ Fs.isfile (Py.path_join dir name) fs = true.

(** The body of the [for c in checkpoints] loop of
    [get_checkpoints_by_step]. *)
Fixpoint map_to_steps (c : LanguageModelSAERunnerConfig)
    (checkpoints : list string) (mapped_to_steps : Dict.t) : result Dict.t :=
  match checkpoints with
  | [] => Ok mapped_to_steps
  | f :: rest =>
      rbind (leading_label f) (fun steps =>
      let full_path := Py.path_join (checkpoint_path c) f in
      rbind (get_base_path c (LInt steps)) (fun base =>
      map_to_steps c rest
        (if Py.startswith full_path base
         then Dict.append steps full_path mapped_to_steps
         else mapped_to_steps)))
  end.

(** [get_checkpoints_by_step] *)
Definition get_checkpoints_by_step (c : LanguageModelSAERunnerConfig)
    (fs : list (string * FileContent)) : result Dict.t :=
  rbind (Fs.listdir (checkpoint_path c) fs) (fun names =>
  let checkpoints :=
    filter (fun f => Fs.isfile (Py.path_join (checkpoint_path c) f) fs) names in
  map_to_steps c checkpoints []).

(** [get_resume_base_path] *)
Definition get_resume_base_path (c : LanguageModelSAERunnerConfig)
  : M State string :=
  fs <- gets files ;;
  mapped_to_steps <- lift (get_checkpoints_by_step c fs) ;;
  if (List.length mapped_to_steps =? 0)%nat
  then raise FileNotFoundError
  else
    max_step <- lift (Py.max_ (Dict.keys mapped_to_steps)) ;;
    print ("resuming from step " ++ Py.str_of_int max_step) ;;;
    lift (get_base_path c (LInt max_step)).

(** [remove_excess_checkpoints].  The first statement unpacks the single
    dictionary that [get_checkpoints_by_step] returns into two names, so
    [checkpoints] is bound, if at all, to one of its integer keys. *)
Definition remove_excess_checkpoints (c : LanguageModelSAERunnerConfig)
  : M State unit :=
  fs <- gets files ;;
  returned <- lift (get_checkpoints_by_step c fs) ;;
  pair <- lift (unpack2 (PDict returned)) ;;
  let '(checkpoints, is_done) := pair in
  ks <- lift (py_keys checkpoints) ;;
  let sorted_keys := sorted ks in
  match max_checkpoints c with
  | None => ret tt
  | Some m =>
      let checkpoints_removing := slice_to (- m) sorted_keys in
      for_each checkpoints_removing (fun k =>
        fs_k <- lift (py_getitem checkpoints k) ;;
        for_each fs_k (fun f =>
          print ("removing checkpoint file " ++ Py.str_of_int k) ;;;
          os_remove f))
  end.

(* ===================================================================== *)
(** ** Contexts and decoder-bias initialisation *)
(* ===================================================================== *)

(** [_build_train_context].  The assertion on [lr_end] concerns a learning
    rate, which lives in the abstract optimizer. *)
Definition _build_train_context (sae : SparseAutoencoder)
    (total_training_steps : Z) : result SAETrainContext :=
  rbind (torch_zeros (d_sae (cfg sae))) (fun act_freq_scores =>
  rbind (torch_zeros (d_sae (cfg sae))) (fun n_forward_passes_since_fired =>
  let n_frac_active_tokens := 0 in
  let optimizer := Adam (cfg sae) (weights sae) in
  rbind (get_scheduler (cfg sae) optimizer total_training_steps)
    (fun scheduler =>
       Ok (mkContext act_freq_scores n_forward_passes_since_fired
             n_frac_active_tokens optimizer scheduler)))).

Fixpoint build_all (saes : list SparseAutoencoder) (total_training_steps : Z)
  : result (list SAETrainContext) :=
  match saes with
  | [] => Ok []
  | sae :: rest =>
      rbind (_build_train_context sae total_training_steps) (fun ctx =>
      rbind (build_all rest total_training_steps) (fun ctxs =>
      Ok (ctx :: ctxs)))
  end.

(** [all_layers.index(hyperparams.hook_point_layer)]: a list is never an
    element of a list of integers. *)
Definition index_of_layer (hpl : int_or_list) (all_layers : list Z) : result Z :=
  match hpl with
  | One z => Py.index z all_layers
  | Many _ => Raise ValueError
  end.

Fixpoint lookup_median (k : Z) (d : list (Z * Median)) : option Median :=
  match d with
  | [] => None
  | (k', m) :: d' => if k' =? k then Some m else lookup_median k d'
  end.

(** [_init_sae_group_b_decs]: [ks] are the positions of the group still to
    visit and [geometric_medians] the medians computed so far. *)
Fixpoint init_b_decs (ks : list nat) (all_layers : list Z)
    (geometric_medians : list (Z * Median)) : M State unit :=
  match ks with
  | [] => ret tt
  | k :: rest =>
      sae <- get_sae k ;;
      let hyperparams := cfg sae in
      sae_layer_id <-
        lift (index_of_layer (hook_point_layer hyperparams) all_layers) ;;
      store <- gets activation_store ;;
      let layer_acts := storage_buffer_layer store sae_layer_id in
      if String.eqb (b_dec_init_method hyperparams) "geometric_median" then
        let median := match lookup_median sae_layer_id geometric_medians with
                      | Some m => m
                      | None => compute_geometric_median layer_acts
                      end in
        upd_sae k (fun s =>
          mkSAE (cfg s) (initialize_b_dec_with_precalculated (weights s) median)) ;;;
        init_b_decs rest all_layers
          (match lookup_median sae_layer_id geometric_medians with
           | Some _ => geometric_medians
           | None => (geometric_medians ++ [(sae_layer_id, median)])%list
           end)
      else if String.eqb (b_dec_init_method hyperparams) "mean" then
        upd_sae k (fun s =>
          mkSAE (cfg s) (initialize_b_dec_with_mean (weights s) layer_acts)) ;;;
        init_b_decs rest all_layers geometric_medians
      else init_b_decs rest all_layers geometric_medians
  end.

Definition _init_sae_group_b_decs (all_layers : list Z) : M State unit :=
  saes <- gets autoencoders ;;
  init_b_decs (seq 0 (List.length saes)) all_layers [].

(* ===================================================================== *)
(** ** The training step executor *)
(* ===================================================================== *)

(** [v[mask] = 0]: the mask must have the shape of [v]. *)
Fixpoint masked_zero (mask : list bool) (v : list Z) : result (list Z) :=
  match mask, v with
  | [], [] => Ok []
  | m :: mask', x :: v' =>
      rbind (masked_zero mask' v') (fun r => Ok ((if m then 0 else x) :: r))
  | _, _ => Raise IndexError
  end.

(** [v += w] for one-dimensional tensors of the same length. *)
Fixpoint add_inplace (v w : list Z) : result (list Z) :=
  match v, w with
  | [], [] => Ok []
  | x :: v', y :: w' => rbind (add_inplace v' w') (fun r => Ok ((x + y) :: r))
  | _, _ => Raise RuntimeError
  end.

(** [(feature_acts > 0).float().sum(-2) > 0]: per unit, whether some row of
    the batch has a positive activation. *)
Definition did_fire_of (feature_acts : list (list act)) : list bool :=
  map (existsb act_gt0) feature_acts.

(** [(feature_acts.abs() > 0).float().sum(0)]: per unit, on how many rows of
    the batch it is non-zero. *)
Definition fire_counts (feature_acts : list (list act)) : list Z :=
  map (fun col => Z.of_nat (List.length (filter act_abs_gt0 col))) feature_acts.

(** [(ctx.n_forward_passes_since_fired > dead_feature_window).bool()] *)
Definition dead_mask (dead_feature_window : Z) (since_fired : list Z) : list bool :=
  map (fun c => dead_feature_window <? c) since_fired.

(** The block run at a sparsity-window boundary: read and report the
    sparsity, then reset the two accumulators of context [k]. *)
Definition sparsity_window_reset (k : nat) (sae : SparseAutoencoder)
    (use_wandb : bool) (n_training_steps : Z) (wandb_suffix : string)
  : M State unit :=
  ctx <- get_ctx k ;;
  feature_sparsity <- read_feature_sparsity ctx ;;
  let log_feature_sparsity := _log_feature_sparsity feature_sparsity in
  (if use_wandb
   then emit (EvWandbLog ("metrics/mean_log10_feature_sparsity" ++ wandb_suffix)
                (Some n_training_steps))
   else ret tt) ;;;
  zeros <- lift (torch_zeros (d_sae (cfg sae))) ;;
  upd_ctx k (set_act_freq_scores zeros) ;;;
  upd_ctx k (set_n_frac_active_tokens 0).

(** [_train_step] on the [k]-th autoencoder of the group and its context,
    both mutated in place. *)
Definition _train_step (k : nat) (layer_acts : Acts)
    (feature_sampling_window : Z) (use_wandb : bool) (n_training_steps : Z)
    (all_layers : list Z) (batch_size : Z) (wandb_suffix : string)
  : M State TrainStepOutput :=
  sparse_autoencoder <- get_sae k ;;
  match d_sae (cfg sparse_autoencoder) with
  | None => raise AssertionError
  | Some _ => ret tt
  end ;;;
  let hyperparams := cfg sparse_autoencoder in
  layer_id <- lift (index_of_layer (hook_point_layer hyperparams) all_layers) ;;
  let sae_in := slice_layer layer_acts layer_id in
  upd_sae k (fun s => mkSAE (cfg s) (set_decoder_norm_to_unit_norm (weights s))) ;;;
  r <- lift (Py.mod_ (n_training_steps + 1) feature_sampling_window) ;;
  (if r =? 0
   then sparsity_window_reset k sparse_autoencoder use_wandb n_training_steps
          wandb_suffix
   else ret tt) ;;;
  ctx <- get_ctx k ;;
  let ghost_grad_neuron_mask :=
    dead_mask (dead_feature_window (cfg sparse_autoencoder))
      (n_forward_passes_since_fired ctx) in
  signal_point ;;;
  sae <- get_sae k ;;
  let fw := forward (cfg sae) (weights sae) sae_in ghost_grad_neuron_mask in
  let sae_out := fst (fst (fst (fst (fst fw)))) in
  let feature_acts := snd (fst (fst (fst (fst fw)))) in
  let loss := snd (fst (fst (fst fw))) in
  let mse_loss := snd (fst (fst fw)) in
  let l1_loss := snd (fst fw) in
  let ghost_grad_loss := snd fw in
  let did_fire := did_fire_of feature_acts in
  upd_ctx k (fun c => set_n_forward_passes_since_fired
                        (map (Z.add 1) (n_forward_passes_since_fired c)) c) ;;;
  ctx <- get_ctx k ;;
  zeroed <- lift (masked_zero did_fire (n_forward_passes_since_fired ctx)) ;;
  upd_ctx k (set_n_forward_passes_since_fired zeroed) ;;;
  summed <- lift (add_inplace (act_freq_scores ctx) (fire_counts feature_acts)) ;;
  upd_ctx k (set_act_freq_scores summed) ;;;
  upd_ctx k (fun c => set_n_frac_active_tokens
                        (n_frac_active_tokens c + batch_size) c) ;;;
  let stepped :=
    optimizer_step (weights sae) (optimizer ctx) sae_in ghost_grad_neuron_mask in
  upd_sae k (fun s => mkSAE (cfg s) (fst stepped)) ;;;
  let scheduled := scheduler_step (scheduler ctx) (snd stepped) in
  upd_ctx k (set_optimizer (snd scheduled)) ;;;
  upd_ctx k (set_scheduler (fst scheduled)) ;;;
  ret (mkStepOutput sae_in sae_out feature_acts loss mse_loss l1_loss
         ghost_grad_loss ghost_grad_neuron_mask).

(* ===================================================================== *)
(** ** The checkpoint manager *)
(* ===================================================================== *)

Definition SAVE_POSTFIX_SAE_GROUP : string := EmptyString.
Definition SAVE_POSTFIX_LOG_FEATURE_SPARSITY : string := "_log_feature_sparsity".
Definition SAVE_POSTFIX_ACTIVATION_STORE : string := "_activation_store".
Definition SAVE_POSTFIX_TRAINING_STATE : string := "_trainining_state".

Fixpoint read_log_sparsities (ctxs : list SAETrainContext)
  : M State (list (list LogVal)) :=
  match ctxs with
  | [] => ret []
  | ctx :: rest =>
      fs <- read_feature_sparsity ctx ;;
      ls <- read_log_sparsities rest ;;
      ret (_log_feature_sparsity fs :: ls)
  end.

(** [_save_checkpoint] up to its last statement but one: the bundle is
    written and, if asked, reported.  [train_contexts] is the list the loop
    works on. *)
Definition write_bundle (n_training_steps n_training_tokens : Z)
    (checkpoint_name : label) (wandb_aliases : option (list string))
  : M State SaveCheckpointOutput :=
  c <- gets sae_group_cfg ;;
  base_path <- lift (get_base_path c checkpoint_name) ;;
  let path := base_path ++ SAVE_POSTFIX_SAE_GROUP ++ ".pt" in
  modify (fun s =>
    set_autoencoders
      (map (fun sae => mkSAE (cfg sae) (set_decoder_norm_to_unit_norm (weights sae)))
         (autoencoders s)) s) ;;;
  saes <- gets autoencoders ;;
  write_file path (FGroup saes) ;;;
  let log_feature_sparsity_path :=
    base_path ++ SAVE_POSTFIX_LOG_FEATURE_SPARSITY ++ ".pt" in
  ctxs <- gets train_contexts ;;
  log_feature_sparsities <- read_log_sparsities ctxs ;;
  write_file log_feature_sparsity_path (FSparsity log_feature_sparsities) ;;;
  let activation_store_path :=
    base_path ++ SAVE_POSTFIX_ACTIVATION_STORE ++ ".pt" in
  store <- gets activation_store ;;
  write_file activation_store_path (FStore store) ;;;
  training_run_state <- new_run_state ctxs n_training_steps n_training_tokens ;;
  let training_run_state_path :=
    base_path ++ SAVE_POSTFIX_TRAINING_STATE ++ ".pt" in
  write_file training_run_state_path (FState training_run_state) ;;;
  (if log_to_wandb c then
     (if Py.startswith (str_of_label checkpoint_name) "final"
      then emit (EvWandbLog "model_artifact" None)
      else ret tt) ;;;
     emit (EvWandbLog "log_feature_sparsity_artifact" None)
   else ret tt) ;;;
  ret (mkSaveOutput path activation_store_path training_run_state_path
         log_feature_sparsity_path log_feature_sparsities).

(** [_save_checkpoint]: the bundle, then the retention pass, then the
    locations. *)
Definition _save_checkpoint (n_training_steps n_training_tokens : Z)
    (checkpoint_name : label) (wandb_aliases : option (list string))
  : M State SaveCheckpointOutput :=
  out <- write_bundle n_training_steps n_training_tokens checkpoint_name
           wandb_aliases ;;
  c <- gets sae_group_cfg ;;
  remove_excess_checkpoints c ;;;
  ret out.

(** The part of [resume_checkpoint] that unpickles the Training Run State
    written under [base_path]: [pickle.load] gives back the value that
    [pickle.dump] was handed. *)
Definition resume_training_run_state (base_path : string)
  : M State SAETrainingRunState :=
  fs <- gets files ;;
  match Fs.lookup (base_path ++ SAVE_POSTFIX_TRAINING_STATE ++ ".pt") fs with
  | Some (FState rs) => ret rs
  | Some _ => raise RuntimeError
  | None => raise FileNotFoundError
  end.

(* ===================================================================== *)
(** ** The group training loop *)
(* ===================================================================== *)

Definition str_of_int_or_list (v : int_or_list) : string :=
  match v with
  | One z => Py.str_of_int z
  | Many l => "[" ++ String.concat ", " (map Py.str_of_int l) ++ "]"
  end.

(** [_wandb_log_suffix]: one piece per list-valued field of the group
    configuration, in field order. *)
Definition _wandb_log_suffix (c hyperparams : LanguageModelSAERunnerConfig)
  : string :=
  (match hook_point_layer c with
   | Many _ => "_layer" ++ str_of_int_or_list (hook_point_layer hyperparams)
   | One _ => EmptyString
   end)
  ++
  (match expansion_factor c with
   | Many _ =>
       "_expansion_factor" ++ str_of_int_or_list (expansion_factor hyperparams)
   | One _ => EmptyString
   end).

(** [activation_store.next_batch()] *)
Definition fetch_batch : M State Acts :=
  fun s =>
    let fetched := next_batch (activation_store s) (rng s) in
    (Ok (fst (fst fetched)),
     set_rng (snd fetched) (set_activation_store (snd (fst fetched)) s)).

(** The body of [for sparse_autoencoder, ctx in zip(sae_group,
    train_contexts)] for position [k]. *)
Definition step_one_model (k : nat) (layer_acts : Acts)
    (batch_size feature_sampling_window : Z) (use_wandb : bool)
    (wandb_log_frequency : Z) (all_layers : list Z) : M State unit :=
  c <- gets sae_group_cfg ;;
  sparse_autoencoder <- get_sae k ;;
  let wandb_suffix := _wandb_log_suffix c (cfg sparse_autoencoder) in
  steps <- gets n_training_steps ;;
  step_output <- _train_step k layer_acts feature_sampling_window use_wandb
                   steps all_layers batch_size wandb_suffix ;;
  if use_wandb then
    r <- lift (Py.mod_ (steps + 1) wandb_log_frequency) ;;
    (if r =? 0
     then emit (EvWandbLog ("losses/mse_loss" ++ wandb_suffix) (Some steps))
     else ret tt) ;;;
    evals <- (if steps =? 0 then ret true
              else r' <- lift (Py.mod_ (steps + 1) (wandb_log_frequency * 10)) ;;
                   ret (r' =? 0)) ;;
    if evals then emit (EvRunEvals steps) else ret tt
  else ret tt.

(** The [while n_training_tokens < total_training_tokens] loop, on fuel.
    A pending signal can be delivered while the batch is fetched, during a
    forward pass (inside [_train_step]) and between the steps and the
    checkpoint test. *)
Fixpoint training_loop (fuel : nat) (total_training_tokens batch_size
    feature_sampling_window : Z) (use_wandb : bool) (wandb_log_frequency : Z)
    (all_layers : list Z) : M State unit :=
  tokens <- gets n_training_tokens ;;
  if tokens <? total_training_tokens then
    match fuel with
    | O => raise OutOfFuel
    | S fuel' =>
        signal_point ;;;
        layer_acts <- fetch_batch ;;
        modify (fun s => set_n_training_tokens (n_training_tokens s + batch_size) s) ;;;
        saes <- gets autoencoders ;;
        ctxs <- gets train_contexts ;;
        let zipped := seq 0 (Nat.min (List.length saes) (List.length ctxs)) in
        for_each zipped (fun k =>
          step_one_model k layer_acts batch_size feature_sampling_window
            use_wandb wandb_log_frequency all_layers) ;;;
        signal_point ;;;
        c <- gets sae_group_cfg ;;
        steps <- gets n_training_steps ;;
        tokens <- gets n_training_tokens ;;
        r <- lift (Py.mod_ steps (checkpoint_every c)) ;;
        (if r =? 0 then
           (* the path is bound to a local that nothing reads *)
           out <- _save_checkpoint steps tokens (LInt tokens) None ;;
           let checkpoint_path := path out in
           ret tt
         else ret tt) ;;;
        modify (fun s => set_n_training_steps (n_training_steps s + 1) s) ;;;
        (* [torch.stack(mse_losses)] in the progress description *)
        match zipped with
        | [] => raise RuntimeError
        | _ :: _ => ret tt
        end ;;;
        training_loop fuel' total_training_tokens batch_size
          feature_sampling_window use_wandb wandb_log_frequency all_layers
    end
  else ret tt.

Definition is_interruption (e : exn) : bool :=
  exn_eqb e KeyboardInterrupt || exn_eqb e InterruptedException.

(** The [except (KeyboardInterrupt, InterruptedException)] clause. *)
Definition on_interrupt (e : exn) : M State unit :=
  print "interrupted, saving progress" ;;;
  steps <- gets n_training_steps ;;
  tokens <- gets n_training_tokens ;;
  let checkpoint_name := LInt tokens in
  out <- _save_checkpoint steps tokens checkpoint_name None ;;
  print "done saving" ;;;
  raise e.

(** [train_sae_group_on_language_model].  The group, the store and the
    process are in the state; [fuel] bounds the iterations of the loop. *)
Definition train_sae_group_on_language_model
    (training_run_state : option SAETrainingRunState)
    (batch_size feature_sampling_window : Z) (use_wandb : bool)
    (wandb_log_frequency : Z) (fuel : nat) : M State TrainSAEGroupOutput :=
  c <- gets sae_group_cfg ;;
  let total_training_tokens := total_training_tokens c in
  total_training_steps <- lift (Py.floordiv total_training_tokens batch_size) ;;
  modify (set_n_training_steps 0) ;;;
  modify (set_n_training_tokens 0) ;;;
  let all_layers := match hook_point_layer c with
                    | One z => [z]
                    | Many l => l
                    end in
  match training_run_state with
  | None =>
      saes <- gets autoencoders ;;
      ctxs <- lift (build_all saes total_training_steps) ;;
      modify (set_train_contexts ctxs)
  | Some rs =>
      modify (set_train_contexts (rs_train_contexts rs)) ;;;
      modify (set_n_training_tokens (rs_n_training_tokens rs)) ;;;
      modify (set_n_training_steps (rs_n_training_steps rs)) ;;;
      if negb (resume c)
      then print "warning: you are passing in training run state but resume=False, is that intended?"
      else ret tt
  end ;;;
  (if resume c then
     match training_run_state with
     | Some rs => set_random_state rs
     | None => raise AttributeError
     end
   else _init_sae_group_b_decs all_layers) ;;;
  modify (set_checkpoint_paths []) ;;;
  try_except
    (training_loop fuel total_training_tokens batch_size
       feature_sampling_window use_wandb wandb_log_frequency all_layers)
    is_interruption on_interrupt ;;;
  steps <- gets n_training_steps ;;
  tokens <- gets n_training_tokens ;;
  final_checkpoint <-
    _save_checkpoint steps tokens (LStr ("final_" ++ Py.str_of_int tokens))
      (Some ["final_model"]) ;;
  modify (fun s =>
    set_checkpoint_paths (checkpoint_paths s ++ [path final_checkpoint])%list s) ;;;
  saes <- gets autoencoders ;;
  paths <- gets checkpoint_paths ;;
  ret (mkTrainOutput saes paths (log_feature_sparsities final_checkpoint)).

End Orchestrator.

(* ===================================================================== *)
(** ** Consecutive steps of the executor on one context *)
(* ===================================================================== *)

Section Consecutive.

Context {C : Collaborators}.

(** [_train_step] applied to position [k] once per batch, the step index
    growing by one each time, as the loop does for every model of the group.
    The outputs of the steps are collected in order. *)
Fixpoint run_steps (k : nat) (batches : list Acts)
    (feature_sampling_window : Z) (use_wandb : bool) (n_training_steps : Z)
    (all_layers : list Z) (batch_size : Z) (wandb_suffix : string)
  : M State (list TrainStepOutput) :=
  match batches with
  | [] => ret []
  | layer_acts :: rest =>
      out <- _train_step k layer_acts feature_sampling_window use_wandb
               n_training_steps all_layers batch_size wandb_suffix ;;
      outs <- run_steps k rest feature_sampling_window use_wandb
                (n_training_steps + 1) all_layers batch_size wandb_suffix ;;
      ret (out :: outs)
  end.


Definition masked (j : nat) (out : TrainStepOutput) : bool :=
  nth j (ghost_grad_neuron_mask out) false.

(** The denominators of the [feature_sparsity] reads in a trace. *)
Fixpoint sparsity_reads (t : list event) : list Z :=
  match t with
  | [] => []
  | EvReadSparsity d :: t' => d :: sparsity_reads t'
  | _ :: t' => sparsity_reads t'
  end.

Fixpoint printed (t : list event) : list string :=
  match t with
  | [] => []
  | EvPrint m :: t' => m :: printed t'
  | _ :: t' => printed t'
  end.

Fixpoint written (t : list event) : list string :=
  match t with
  | [] => []
  | EvWriteFile p :: t' => p :: written t'
  | _ :: t' => written t'
  end.

(** The Training Run State a save captures in state [s]. *)
Definition captured (steps tokens : Z) (s : State) : SAETrainingRunState :=
  mkRunState (train_contexts s) steps tokens
    (Some (rng_torch (rng s))) (Some (rng_cuda (rng s)))
    (Some (rng_numpy (rng s))) (Some (rng_random (rng s))).

(** [m] leaves the step counter and the group configuration as they are,
    whether it returns or raises. *)
Definition keeps {A} (m : M State A) : Prop :=
  forall s, n_training_steps (snd (m s)) = n_training_steps s
            /\ sae_group_cfg (snd (m s)) = sae_group_cfg s.

(** The outcome [r] of a computation started in [s] is an exception, and
    the step counter is where it was in [s]. *)
Definition stuck {A} (s : State) (r : result A * State) : Prop :=
  is_ok (fst r) = false /\ n_training_steps (snd r) = n_training_steps s.

End Consecutive.

(* ===================================================================== *)
(** ** A small concrete set of collaborators *)
(* ===================================================================== *)

Module Toy.

(** Activations are integers; a batch is already the per-unit activation
    table the autoencoder will produce on it; every generator is a counter
    that hands out its state and moves to the next integer; the store is the
    list of batches still to come. *)
Definition counter (x : Z) : Z * Z := (x, Z.succ x).

Definition collaborators : Collaborators :=
  {| Acts := list (list Z);
     SaeIn := list (list Z);
     SaeOut := unit;
     act := Z;
     Scalar := unit;
     LogVal := fval;
     act_gt0 := fun x => 0 <? x;
     act_abs_gt0 := fun x => negb (x =? 0);
     slice_layer := fun a _ => a;
     Weights := unit;
     set_decoder_norm_to_unit_norm := fun w => w;
     forward := fun _ _ x _ => (tt, x, tt, tt, tt, tt);
     Optimizer := unit;
     Scheduler := unit;
     Adam := fun _ _ => tt;
     get_scheduler := fun _ _ _ => Ok tt;
     optimizer_step := fun w o _ _ => (w, o);
     scheduler_step := fun sc o => (sc, o);
     TorchGen := Z;
     CudaGen := Z;
     NumpyGen := Z;
     RandomGen := Z;
     Draw := Z;
     torch_draw := counter;
     cuda_draw := counter;
     numpy_draw := counter;
     random_draw := counter;
     Store := list (list (list Z));
     LayerActs := unit;
     Median := unit;
     next_batch := fun st g => (hd [] st, tl st, g);
     storage_buffer_layer := fun _ _ => tt;
     compute_geometric_median := fun _ => tt;
     initialize_b_dec_with_precalculated := fun w _ => w;
     initialize_b_dec_with_mean := fun w _ => w;
     log10_plus_eps := fun x => x |}.

(** A configuration as [__post_init__] leaves it: one layer, four units. *)
Definition config (total batch every window : Z) : LanguageModelSAERunnerConfig :=
  {| model_name := "gelu-2l";
     hook_point := "blocks.{layer}.hook_mlp_out";
     hook_point_layer := One 0;
     d_in := 1;
     total_training_tokens := total;
     device := "cpu";
     resume := false;
     b_dec_init_method := "zeros";
     expansion_factor := One 4;
     d_sae := Some 4;
     lr_scheduler_name := "constant";
     train_batch_size := batch;
     feature_sampling_window := window;
     dead_feature_window := 2;
     log_to_wandb := false;
     wandb_id := Some "run";
     wandb_log_frequency := 10;
     checkpoint_every := every;
     checkpoint_path := "checkpoints/run";
     max_checkpoints := None;
     verbose := false |}.

(** A batch on which units 0 and 1 are active and units 2 and 3 are not. *)
Definition batch : list (list Z) := [[1; 0]; [2; 3]; [0; 0]; [0; 0]].

(** The state in which a fresh run of one autoencoder starts: no file, no
    output, [signal] the time of the termination signal if any. *)
Definition initial (c : LanguageModelSAERunnerConfig) (signal : option nat)
  : @State collaborators :=
  {| sae_group_cfg := c;
     autoencoders := [@mkSAE collaborators c tt];
     train_contexts := [];
     activation_store := repeat batch 64;
     n_training_steps := 0;
     n_training_tokens := 0;
     checkpoint_paths := [];
     files := [];
     trace := [];
     rng := (1, [2; 3], 4, 5);
     clock := O;
     signal_at := signal |}.

(** A fresh context of four units. *)
Definition fresh_context : @SAETrainContext collaborators :=
  @mkContext collaborators [0; 0; 0; 0] [0; 0; 0; 0] 0 tt tt.

(** The four runs the properties below evaluate: a fresh run of budget 1000
    with batches of 100 and a checkpoint every 5 steps; the same with the
    default [checkpoint_every = 0]; the same with a termination signal
    delivered after the first step, before the checkpoint test; and a run
    whose budget is already exhausted when it starts. *)
Definition run (c : LanguageModelSAERunnerConfig) (signal : option nat)
    (feature_sampling_window : Z) :=
  @train_sae_group_on_language_model collaborators None 100
    feature_sampling_window false 50 20%nat (initial c signal).

Definition run_every_5 := run (config 1000 100 5 1000) None 1000.
Definition run_every_0 := run (config 1000 100 0 1000) None 1000.
Definition run_interrupted := run (config 1000 100 5 1000) (Some 2%nat) 1000.
Definition run_exhausted := run (config 0 100 5 1000) None 1000.

(** The name [_save_checkpoint] gives the group's file at label [l]. *)
Definition base (l : string) : string :=
  "checkpoints/run/" ++ l ++ "_sae_group_gelu-2l_blocks.0.hook_mlp_out_4".

Definition bundle (l : string) : list string :=
  [base l ++ ".pt"; base l ++ "_log_feature_sparsity.pt";
   base l ++ "_activation_store.pt"; base l ++ "_trainining_state.pt"].

(** A state in the middle of a run, three steps and 300 tokens in, and a
    later state of the process in which the bundle saved from it is still on
    disk while every generator has moved on. *)
Definition midway : @State collaborators :=
  @set_n_training_tokens collaborators 300
    (@set_n_training_steps collaborators 3
       (@set_train_contexts collaborators
          [@mkContext collaborators [3; 3; 0; 0] [0; 0; 3; 3] 300 tt tt]
          (initial (config 1000 100 5 1000) None))).

Definition later : @State collaborators :=
  @set_rng collaborators (77, [78; 79], 80, 81)
    (snd (@_save_checkpoint collaborators 3 300 (LInt 300) None midway)).

(** Steps of the executor on a fresh context: one step, three consecutive
    steps, and the step that follows them. *)
Definition stepping : @State collaborators :=
  @set_train_contexts collaborators [fresh_context]
    (initial (config 1000 100 5 1000) None).

Definition result_of {A} (d : A) (r : result A) : A :=
  match r with
  | Ok a => a
  | Raise _ => d
  end.



Definition three_steps :=
  @run_steps collaborators 0 [batch; batch; batch] 1000 false 0 [0] 100 EmptyString
    stepping.




Definition three_outs : list (@TrainStepOutput collaborators) :=
  Eval vm_compute in result_of [] (fst three_steps).

Definition after_three : @State collaborators :=
  Eval vm_compute in snd three_steps.





End Toy.

(* ===================================================================== *)
(** ** Vocabulary for the properties of names, labels and discovery *)
(* ===================================================================== *)

(** Every character of [s] satisfies [p]. *)
Definition string_forall (p : ascii -> bool) (s : string) : bool :=
  forallb p (list_ascii_of_string s).

(** The character [c] does not occur in [s]. *)
Definition no_char (c : ascii) (s : string) : bool :=
  string_forall (fun x => negb (Ascii.eqb x c)) s.

(** [c] is one of the ten decimal digits. *)
Definition is_digit (c : ascii) : bool :=
  match Py.digit_of c with Some _ => true | None => false end.

(** The number a digit sequence denotes when read after the digits that gave
    [acc], most significant digit first, as [int()] reads it. *)
Fixpoint uint_value (acc : Z) (u : Decimal.uint) : Z :=
  match u with
  | Decimal.Nil => acc
  | Decimal.D0 u' => uint_value (10 * acc + 0) u'
  | Decimal.D1 u' => uint_value (10 * acc + 1) u'
  | Decimal.D2 u' => uint_value (10 * acc + 2) u'
  | Decimal.D3 u' => uint_value (10 * acc + 3) u'
  | Decimal.D4 u' => uint_value (10 * acc + 4) u'
  | Decimal.D5 u' => uint_value (10 * acc + 5) u'
  | Decimal.D6 u' => uint_value (10 * acc + 6) u'
  | Decimal.D7 u' => uint_value (10 * acc + 7) u'
  | Decimal.D8 u' => uint_value (10 * acc + 8) u'
  | Decimal.D9 u' => uint_value (10 * acc + 9) u'
  end.

Definition set_hook_point_layer (v : int_or_list) (c : LanguageModelSAERunnerConfig) :=
  mkConfig (model_name c) (hook_point c) v (d_in c)
    (total_training_tokens c) (device c) (resume c) (b_dec_init_method c)
    (expansion_factor c) (d_sae c) (lr_scheduler_name c) (train_batch_size c)
    (feature_sampling_window c) (dead_feature_window c) (log_to_wandb c)
    (wandb_id c) (wandb_log_frequency c) (checkpoint_every c)
    (checkpoint_path c) (max_checkpoints c) (verbose c).

Definition set_resume (v : bool) (c : LanguageModelSAERunnerConfig) :=
  mkConfig (model_name c) (hook_point c) (hook_point_layer c) (d_in c)
    (total_training_tokens c) (device c) v (b_dec_init_method c)
    (expansion_factor c) (d_sae c) (lr_scheduler_name c) (train_batch_size c)
    (feature_sampling_window c) (dead_feature_window c) (log_to_wandb c)
    (wandb_id c) (wandb_log_frequency c) (checkpoint_every c)
    (checkpoint_path c) (max_checkpoints c) (verbose c).

(** [d[k]] for a dictionary returned by [get_checkpoints_by_step]: the empty
    list for a missing key. *)
Definition paths_at (k : Z) (d : Dict.t) : list string :=
  match Dict.get k d with
  | Some vs => vs
  | None => []
  end.

(** The regular files of the checkpoint directory, in the order
    [get_checkpoints_by_step] visits them. *)
Definition regular_files {X} (dir : string) (fs : list (string * X)) : list string :=
  filter (fun f => Fs.isfile (Py.path_join dir f) fs)
    (nodup string_dec (Fs.entries dir fs)).

(** The file [name] of the checkpoint directory is filed under the key [k]:
    its leading label reads as [k] and its full path starts with the base
    path the configuration gives to [k]. *)
Definition filed_under (c : LanguageModelSAERunnerConfig) (k : Z) (name : string)
  : bool :=
  match leading_label name, get_base_path c (LInt k) with
  | Ok k', Ok base =>
      (k' =? k) && Py.startswith (Py.path_join (checkpoint_path c) name) base
  | _, _ => false
  end.

Section Further.

Context {C : Collaborators}.

(** The files removed according to a trace. *)
Fixpoint removed (t : list event) : list string :=
  match t with
  | [] => []
  | EvRemoveFile p :: t' => p :: removed t'
  | _ :: t' => removed t'
  end.



(** The sparsity denominator of a context after [m] steps of a run that
    started from zero, for batches of [batch_size] rows and a sparsity
    window of [W] steps. *)
Definition tokens_in_window (batch_size W m : Z) : Z :=
  batch_size * (if m <? W then m else m mod W + 1).




End Further.

(* ===================================================================== *)
(** ** config.py: the configuration shared by all runners *)
(* ===================================================================== *)

(** The fields of [RunnerConfig] that its [__post_init__] reads. *)
Record RunnerConfig : Type := mkRunnerConfig {
  rc_model_name : string;
  rc_hook_point : string;
  rc_hook_point_head_index : option Z;
  rc_dataset_path : string;
  rc_use_cached_activations : bool;
  rc_cached_activations_path : option string
}.

(** [RunnerConfig.__post_init__]: the path of the cached activations is
    filled in unless the user gave one. *)
Definition RunnerConfig_post_init (c : RunnerConfig) : RunnerConfig :=
  match rc_cached_activations_path c with
  | Some _ => c
  | None =>
      let filled :=
        "activations/" ++ Py.replace_char "/" "_" (rc_dataset_path c) ++ "/"
        ++ Py.replace_char "/" "_" (rc_model_name c) ++ "/" ++ rc_hook_point c in
      mkRunnerConfig (rc_model_name c) (rc_hook_point c)
        (rc_hook_point_head_index c) (rc_dataset_path c)
        (rc_use_cached_activations c)
        (Some (match rc_hook_point_head_index c with
               | Some i => filled ++ "_" ++ Py.str_of_int i
               | None => filled
               end))
  end.

(** [CacheActivationsRunnerConfig.__post_init__] *)
Definition CacheActivationsRunnerConfig_post_init (c : RunnerConfig)
  : result RunnerConfig :=
  let c := RunnerConfig_post_init c in
  if rc_use_cached_activations c then Raise ValueError else Ok c.

(* ===================================================================== *)
(** ** The callers of the training function *)
(* ===================================================================== *)

(** What the callers consume besides the collaborators of the training
    function: the loaders of a saved group and a saved store, the setters of
    optimizer and scheduler states, the model and session loaders, and the
    formatting of a traceback. *)
Class Session {C : Collaborators} : Type := {
  (** [SAEGroup.load_from_pretrained] on the content of the group file: the
      configuration of the saved group and its autoencoders *)
  SAEGroup_load_from_pretrained :
    FileContent -> result (LanguageModelSAERunnerConfig * list SparseAutoencoder);
  (** [ActivationsStore.load_from_pretrained] on the content of the store
      file, for the configuration it is handed *)
  ActivationsStore_load_from_pretrained :
    FileContent -> LanguageModelSAERunnerConfig -> result Store;
  (** [activation_store.cfg = cfg] *)
  store_with_cfg : Store -> LanguageModelSAERunnerConfig -> Store;
  (** [fresh.load_state_dict(saved.state_dict())] *)
  optimizer_load_state_dict : Optimizer -> Optimizer -> Optimizer;
  scheduler_load_state_dict : Scheduler -> Scheduler -> Scheduler;
  (** [cfg.model_class.from_pretrained(cfg.model_name)] and [model.to] *)
  model_from_pretrained : string -> result unit;
  (** [traceback.format_exc()] *)
  format_exc : exn -> string;
  (** [LMSparseAutoencoderSessionloader(cfg).load_session()] and
      [load_session_from_pretrained(path)]: the configuration of the group,
      its autoencoders and the store *)
  load_session :
    LanguageModelSAERunnerConfig ->
    result (LanguageModelSAERunnerConfig * list SparseAutoencoder * Store);
  load_session_from_pretrained :
    string ->
    result (LanguageModelSAERunnerConfig * list SparseAutoencoder * Store)
}.

Section Callers.

Context {C : Collaborators} {Sn : Session}.

(** The values a caller of this repository binds to the parameter
    [training_run_state]: [None], a run state, or, through a positional
    call, an integer. *)
Inductive run_state_arg : Type :=
| ArgNone
| ArgRunState (rs : SAETrainingRunState)
| ArgInt (z : Z).

(** [train_sae_group_on_language_model] for any of these values.  With an
    integer the function runs up to line 132, where
    [training_run_state.train_contexts] is read. *)
Definition train_sae_group_called (training_run_state : run_state_arg)
    (batch_size feature_sampling_window : Z) (use_wandb : bool)
    (wandb_log_frequency : Z) (fuel : nat) : M State TrainSAEGroupOutput :=
  match training_run_state with
  | ArgNone =>
      train_sae_group_on_language_model None batch_size feature_sampling_window
        use_wandb wandb_log_frequency fuel
  | ArgRunState rs =>
      train_sae_group_on_language_model (Some rs) batch_size
        feature_sampling_window use_wandb wandb_log_frequency fuel
  | ArgInt _ =>
      c <- gets sae_group_cfg ;;
      total_training_steps <-
        lift (Py.floordiv (total_training_tokens c) batch_size) ;;
      modify (set_n_training_steps 0) ;;;
      modify (set_n_training_tokens 0) ;;;
      raise AttributeError
  end.

(** The deprecated [train_sae_on_language_model].  It passes its arguments
    on by position, one place to the left of where
    [train_sae_group_on_language_model] expects them: [batch_size] lands in
    [training_run_state], [feature_sampling_window] in [batch_size],
    [use_wandb] (a boolean, hence 0 or 1) in [feature_sampling_window],
    [wandb_log_frequency] (tested for truth) in [use_wandb], and
    [wandb_log_frequency] keeps its default of 50. *)
Definition train_sae_on_language_model (batch_size feature_sampling_window : Z)
    (use_wandb : bool) (wandb_log_frequency : Z) (fuel : nat)
  : M State (list SparseAutoencoder) :=
  out <- train_sae_group_called (ArgInt batch_size) feature_sampling_window
           (if use_wandb then 1 else 0) (negb (wandb_log_frequency =? 0)) 50
           fuel ;;
  ret (out_sae_group out).

(** [open(path, 'rb')] and the loaders built on it: a missing file is a
    [FileNotFoundError]. *)
Definition read_file (p : string) : M State FileContent :=
  fs <- gets files ;;
  match Fs.lookup p fs with
  | Some x => ret x
  | None => raise FileNotFoundError
  end.

(** The loop of [resume_checkpoint] over [zip(train_contexts, autoencoders)]:
    a fresh context is built for the autoencoder, the saved optimizer and
    scheduler states are loaded into its optimizer and scheduler, and these
    replace the ones of the saved context.  Contexts beyond the shorter of
    the two lists are not visited. *)
Fixpoint reattach (total_training_steps : Z) (ctxs : list SAETrainContext)
    (saes : list SparseAutoencoder) : result (list SAETrainContext) :=
  match ctxs, saes with
  | ctx :: ctxs', sae :: saes' =>
      rbind (_build_train_context sae total_training_steps)
        (fun attached_context =>
      let sch := scheduler_load_state_dict (scheduler attached_context)
                   (scheduler ctx) in
      let opt := optimizer_load_state_dict (optimizer attached_context)
                   (optimizer ctx) in
      rbind (reattach total_training_steps ctxs' saes') (fun rest =>
      Ok (set_scheduler sch (set_optimizer opt ctx) :: rest)))
  | _, _ => Ok ctxs
  end.

(** [resume_checkpoint]: the group (its configuration and autoencoders), the
    store and the run state. *)
Definition resume_checkpoint (base_path : string)
    (c : LanguageModelSAERunnerConfig) (batch_size : Z)
  : M State (LanguageModelSAERunnerConfig * list SparseAutoencoder * Store
             * SAETrainingRunState) :=
  group_file <- read_file (base_path ++ SAVE_POSTFIX_SAE_GROUP ++ ".pt") ;;
  sae_group <- lift (SAEGroup_load_from_pretrained group_file) ;;
  store_file <- read_file (base_path ++ SAVE_POSTFIX_ACTIVATION_STORE ++ ".pt") ;;
  activation_store <- lift (ActivationsStore_load_from_pretrained store_file c) ;;
  training_run_state <- resume_training_run_state base_path ;;
  let total_training_tokens := total_training_tokens (fst sae_group) in
  total_training_steps <- lift (Py.floordiv total_training_tokens batch_size) ;;
  ctxs <- lift (reattach total_training_steps
                  (rs_train_contexts training_run_state) (snd sae_group)) ;;
  ret (c, snd sae_group, store_with_cfg activation_store c,
       mkRunState ctxs (rs_n_training_steps training_run_state)
         (rs_n_training_tokens training_run_state)
         (torch_state training_run_state)
         (torch_cuda_state training_run_state)
         (numpy_state training_run_state)
         (random_state training_run_state)).

(** The group and the store the runner hands to the training function. *)
Definition install (c : LanguageModelSAERunnerConfig)
    (saes : list SparseAutoencoder) (store : Store) : M State unit :=
  modify (fun s =>
    mkState c saes (train_contexts s) store (n_training_steps s)
      (n_training_tokens s) (checkpoint_paths s) (files s) (trace s) (rng s)
      (clock s) (signal_at s)).

(** [language_model_sae_runner].  [from_pretrained_path] is the field of
    that name of the configuration.  The runner calls [resume_checkpoint]
    with [base_path], [cfg] and [model] only, so the call raises
    [TypeError] for the missing [batch_size] before the function is
    entered.  [wandb.init] and [wandb.finish] only talk to the service. *)
Definition language_model_sae_runner (c : LanguageModelSAERunnerConfig)
    (from_pretrained_path : option string) (fuel : nat)
  : M State TrainSAEGroupOutput :=
  resumed <-
    (if resume c then
       try_except
         (base_path <- get_resume_base_path c ;;
          lift (model_from_pretrained (model_name c)) ;;;
          loaded <- raise TypeError ;;
          ret (c, Some loaded))
         (fun e => exn_eqb e FileNotFoundError)
         (fun e =>
            print (format_exc e) ;;;
            print "failed to find checkpoint to resume from, setting resume to False" ;;;
            ret (set_resume false c, None))
     else ret (c, None)) ;;
  let c := fst resumed in
  session <-
    (if negb (resume c) then
       match from_pretrained_path with
       | Some p =>
           loaded <- lift (load_session_from_pretrained p) ;;
           ret (fst (fst loaded), loaded, None)
       | None =>
           loaded <- lift (load_session c) ;;
           ret (c, loaded, None)
       end
     else
       match snd resumed with
       | Some (group_cfg, saes, store, training_run_state) =>
           ret (c, (group_cfg, saes, store), Some training_run_state)
       | None =>
           (* not reached: the three names are bound whenever [resume] is
              still set at this point *)
           raise RuntimeError
       end) ;;
  let c := fst (fst session) in
  let loaded := snd (fst session) in
  install (fst (fst loaded)) (snd (fst loaded)) (snd loaded) ;;;
  train_sae_group_on_language_model (snd session) (train_batch_size c)
    (feature_sampling_window c) (log_to_wandb c) (wandb_log_frequency c) fuel.

End Callers.

(* ===================================================================== *)
(** ** A small concrete session *)
(* ===================================================================== *)

Module ToySession.

(** The loaders hand back what the files hold; a saved optimizer or
    scheduler state replaces the fresh one; a session has one autoencoder. *)
Definition session : @Session Toy.collaborators :=
  {| SAEGroup_load_from_pretrained := fun f =>
       match f with
       | FGroup saes => Ok (Toy.config 1000 100 5 1000, saes)
       | _ => Raise RuntimeError
       end;
     ActivationsStore_load_from_pretrained := fun f _ =>
       match f with
       | FStore st => Ok st
       | _ => Raise RuntimeError
       end;
     store_with_cfg := fun st _ => st;
     optimizer_load_state_dict := fun _ saved => saved;
     scheduler_load_state_dict := fun _ saved => saved;
     model_from_pretrained := fun _ => Ok tt;
     format_exc := fun _ => "Traceback (most recent call last)";
     load_session := fun c =>
       Ok (c, [@mkSAE Toy.collaborators c tt], repeat Toy.batch 64);
     load_session_from_pretrained := fun _ => Raise FileNotFoundError |}.

(** The configuration of the runs of [Toy], the name it gives the group and
    the names of the four files of the bundle saved at 300 tokens. *)
Definition run_config : LanguageModelSAERunnerConfig := Toy.config 1000 100 5 1000.

Definition group_name : string := "sae_group_gelu-2l_blocks.0.hook_mlp_out_4".

Definition names_300 : list string :=
  ["300_" ++ group_name ++ ".pt";
   "300_" ++ group_name ++ "_log_feature_sparsity.pt";
   "300_" ++ group_name ++ "_activation_store.pt";
   "300_" ++ group_name ++ "_trainining_state.pt"].

(** What [resume_checkpoint] gives back in [Toy.later] for the bundle saved
    from [Toy.midway]. *)
Definition resumed_contexts : list (@SAETrainContext Toy.collaborators) :=
  [@mkContext Toy.collaborators [3; 3; 0; 0] [0; 0; 3; 3] 300 tt tt].

Definition resumed_run_state : @SAETrainingRunState Toy.collaborators :=
  @mkRunState Toy.collaborators resumed_contexts 3 300
    (Some 1) (Some [2; 3]) (Some 4) (Some 5).

End ToySession.

(* ===================================================================== *)
(** * Properties *)
(* ===================================================================== *)

(** ** The Python primitives on examples *)

Example int_of_decimal : Py.int_ "1000" = Ok 1000.
Proof. reflexivity. Qed.

Example int_of_padded_signed : Py.int_ " -12 " = Ok (-12).
Proof. reflexivity. Qed.

Example int_of_final : Py.int_ "final" = Raise ValueError.
Proof. reflexivity. Qed.

Example int_of_empty : Py.int_ EmptyString = Raise ValueError.
Proof. reflexivity. Qed.

Example str_of_negative : Py.str_of_int (-7) = "-7".
Proof. reflexivity. Qed.

Example split_terminal_name :
  Py.split "_" "final_1000_sae" = ["final"; "1000"; "sae"].
Proof. reflexivity. Qed.

Example mod_is_floor_mod : Py.mod_ (-1) 5 = Ok 4 /\ Py.mod_ 1 (-5) = Ok (-4).
Proof. split; reflexivity. Qed.

Example slice_to_minus_zero : slice_to (- 0) [1; 2; 3] = [].
Proof. reflexivity. Qed.

Example slice_to_minus_two : slice_to (- 2) [1; 2; 3] = [1].
Proof. reflexivity. Qed.

Example base_path_of_label :
  get_base_path (Toy.config 1000 100 5 1000) (LInt 300) = Ok (Toy.base "300").
Proof. vm_compute. reflexivity. Qed.

Example unpack_of_one_key : unpack2 (PDict [(100, ["a"; "b"])]) = Raise ValueError.
Proof. reflexivity. Qed.

Example unpack_of_two_keys :
  rbind (unpack2 (PDict [(100, ["a"]); (200, ["b"])]))
    (fun p => py_keys (fst p)) = Raise AttributeError.
Proof. reflexivity. Qed.

(** ** Reasoning about the monad *)

Lemma bind_ok {S A B} (m : M S A) (k : A -> M S B) s b s' :
  bind m k s = (Ok b, s') ->
  exists a s1, m s = (Ok a, s1) /\ k a s1 = (Ok b, s').
Proof.
  unfold bind. destruct (m s) as [[a | e] s1]; intros H.
  - exists a, s1. split; [reflexivity | exact H].
  - discriminate H.
Qed.

Lemma bind_not_ok_l {S A B} (m : M S A) (k : A -> M S B) s :
  is_ok (fst (m s)) = false -> is_ok (fst (bind m k s)) = false.
Proof.
  unfold bind. destruct (m s) as [[a | e] s1]; simpl; intros H;
    [discriminate H | reflexivity].
Qed.

Lemma bind_not_ok_r {S A B} (m : M S A) (k : A -> M S B) s :
  (forall a s1, is_ok (fst (k a s1)) = false) ->
  is_ok (fst (bind m k s)) = false.
Proof.
  intros H. unfold bind. destruct (m s) as [[a | e] s1]; simpl;
    [apply H | reflexivity].
Qed.

(** ** The retention pass and the saves that end with it *)

Section Retention.

Context {C : Collaborators}.

(** The retention pass raises in every state and changes nothing: either the
    discovery raises, or the dictionary it returns does not unpack into two
    names, or the first of its two keys has no [keys] method. *)
Lemma remove_excess_checkpoints_raises c (s : State) :
  exists e, remove_excess_checkpoints c s = (Raise e, s).
Proof.
  unfold remove_excess_checkpoints, bind, gets, lift.
  destruct (get_checkpoints_by_step c (files s)) as [d | e] eqn:Hd.
  - unfold unpack2.
    destruct (Dict.keys d) as [| k1 [| k2 [| k3 ks]]]; simpl; eauto.
  - eauto.
Qed.

Lemma remove_excess_checkpoints_not_ok c (s : State) :
  is_ok (fst (remove_excess_checkpoints c s)) = false.
Proof.
  destruct (remove_excess_checkpoints_raises c s) as [e He].
  rewrite He. reflexivity.
Qed.

(** No call of [_save_checkpoint] returns. *)
Lemma _save_checkpoint_not_ok steps tokens name aliases (s : State) :
  is_ok (fst (_save_checkpoint steps tokens name aliases s)) = false.
Proof.
  unfold _save_checkpoint.
  repeat first
    [ apply bind_not_ok_l; apply remove_excess_checkpoints_not_ok
    | apply bind_not_ok_r; intros; cbv beta ].
Qed.

End Retention.

Section Discovery.

Context {C : Collaborators}.

Lemma get_base_path_ok c nm l :
  get_name c = Ok nm ->
  get_base_path c l = Ok (checkpoint_path c ++ "/" ++ str_of_label l ++ "_" ++ nm).
Proof.
  intros H. unfold get_base_path. rewrite H. reflexivity.
Qed.

Lemma leading_label_raises_ValueError name e :
  leading_label name = Raise e -> e = ValueError.
Proof.
  unfold leading_label, Py.item0, Py.int_, rbind.
  destruct name as [| a name]; simpl.
  - intros H. inversion H. reflexivity.
  - destruct (Ascii.eqb a "_"); simpl.
    + intros H. inversion H. reflexivity.
    + destruct (Py.split "_" name); simpl;
        match goal with |- context [Py.parse_int ?x] => destruct (Py.parse_int x) end;
        intros H; inversion H; reflexivity.
Qed.

Lemma map_to_steps_bad_label c nm name :
  get_name c = Ok nm ->
  leading_label name = Raise ValueError ->
  forall checkpoints acc,
    In name checkpoints ->
    map_to_steps c checkpoints acc = Raise ValueError.
Proof.
  intros Hnm Hbad checkpoints.
  induction checkpoints as [| f rest IH]; intros acc Hin.
  - destruct Hin.
  - simpl.
    destruct Hin as [-> | Hin].
    + rewrite Hbad. reflexivity.
    + destruct (leading_label f) as [steps | e] eqn:Hf; simpl.
      * rewrite (get_base_path_ok c nm (LInt steps) Hnm). simpl.
        apply IH. exact Hin.
      * rewrite (leading_label_raises_ValueError f e Hf). reflexivity.
Qed.

End Discovery.

(** ** What a save writes before its retention pass *)

Lemma lookup_write {X} p (x : X) fs : Fs.lookup p (Fs.write p x fs) = Some x.
Proof.
  induction fs as [| [q y] fs IH]; simpl.
  - rewrite String.eqb_refl. reflexivity.
  - destruct (String.eqb q p) eqn:E; simpl; rewrite E; [reflexivity | exact IH].
Qed.

Lemma entries_write {X} dir name p (x : X) fs :
  In name (Fs.entries dir fs) -> In name (Fs.entries dir (Fs.write p x fs)).
Proof.
  induction fs as [| [q y] fs IH]; simpl; intros H.
  - destruct H.
  - destruct (String.eqb q p); simpl.
    + exact H.
    + destruct (Fs.entry_under dir q); simpl in *; [| auto].
      destruct H as [H | H]; [left; exact H | right; auto].
Qed.

Lemma isfile_write {X} q p (x : X) fs :
  Fs.isfile q fs = true -> Fs.isfile q (Fs.write p x fs) = true.
Proof.
  unfold Fs.isfile.
  induction fs as [| [r y] fs IH]; simpl; intros H.
  - discriminate H.
  - destruct (String.eqb r p); simpl.
    + exact H.
    + destruct (String.eqb r q); simpl in *; [reflexivity | auto].
Qed.

Lemma dir_has_file_write {X} dir name p (x : X) fs :
  dir_has_file dir name fs -> dir_has_file dir name (Fs.write p x fs).
Proof.
  intros [H1 H2]. split; [apply entries_write | apply isfile_write]; assumption.
Qed.

Section Bundle.

Context {C : Collaborators}.

Lemma set_trace_same (s : State) : set_trace (trace s) s = s.
Proof. destruct s; reflexivity. Qed.

Lemma read_log_sparsities_spec ctxs (s : State) :
  read_log_sparsities ctxs s
  = (Ok (map (fun ctx => _log_feature_sparsity (feature_sparsity ctx)) ctxs),
     set_trace
       (trace s ++ map (fun ctx => EvReadSparsity (n_frac_active_tokens ctx)) ctxs)
       s).
Proof.
  revert s. induction ctxs as [| ctx rest IH]; intros s; simpl.
  - rewrite app_nil_r, set_trace_same. reflexivity.
  - unfold bind, read_feature_sparsity, bind, emit, modify, ret. simpl.
    rewrite IH. simpl. rewrite <- app_assoc. reflexivity.
Qed.

Lemma sparsity_reads_app (t u : list event) :
  sparsity_reads (t ++ u) = (sparsity_reads t ++ sparsity_reads u)%list.
Proof.
  induction t as [| e t IH]; simpl; [reflexivity |].
  destruct e; simpl; rewrite ?IH; reflexivity.
Qed.

Lemma sparsity_reads_map (ctxs : list SAETrainContext) :
  sparsity_reads (map (fun ctx => EvReadSparsity (n_frac_active_tokens ctx)) ctxs)
  = map n_frac_active_tokens ctxs.
Proof.
  induction ctxs as [| ctx rest IH]; simpl; [reflexivity | rewrite IH; reflexivity].
Qed.

Lemma printed_app (t u : list event) :
  printed (t ++ u) = (printed t ++ printed u)%list.
Proof.
  induction t as [| e t IH]; simpl; [reflexivity |].
  destruct e; simpl; rewrite ?IH; reflexivity.
Qed.

Lemma printed_reads (ctxs : list SAETrainContext) :
  printed (map (fun ctx => EvReadSparsity (n_frac_active_tokens ctx)) ctxs) = [].
Proof.
  induction ctxs as [| ctx rest IH]; simpl; [reflexivity | exact IH].
Qed.

(** Once the base path is computed, the bundle is written in full: nothing
    raises, the generators are left as they were, files already present stay,
    and the run-state file holds the generators of the moment. *)
Lemma write_bundle_spec steps tokens name aliases (s : State) bp :
  get_base_path (sae_group_cfg s) name = Ok bp ->
  exists out s1,
    write_bundle steps tokens name aliases s = (Ok out, s1)
    /\ path out = bp ++ ".pt"
    /\ sae_group_cfg s1 = sae_group_cfg s
    /\ rng s1 = rng s
    /\ Fs.lookup (bp ++ SAVE_POSTFIX_TRAINING_STATE ++ ".pt") (files s1)
       = Some (FState (captured steps tokens s))
    /\ (forall dir n, dir_has_file dir n (files s) -> dir_has_file dir n (files s1))
    /\ sparsity_reads (trace s1)
       = (sparsity_reads (trace s)
          ++ map n_frac_active_tokens (train_contexts s))%list
    /\ printed (trace s1) = printed (trace s).
Proof.
  intros Hbp.
  unfold write_bundle, bind at 1, gets at 1. 
  unfold bind at 1, lift at 1. rewrite Hbp.
  unfold bind, modify, gets, write_file, bind, modify, emit, modify, ret. simpl.
  rewrite read_log_sparsities_spec. simpl.
  unfold new_run_state, run_state_post_init, bind, gets, ret. simpl.
  destruct (log_to_wandb (sae_group_cfg s));
    [destruct (Py.startswith (str_of_label name) "final") |]; simpl;
    (eexists; eexists; split; [reflexivity |];
     split; [reflexivity |];
     split; [reflexivity |];
     split; [reflexivity |];
     split; [simpl; apply lookup_write |];
     split; [intros dir n H; simpl; repeat apply dir_has_file_write; exact H |];
     split;
     [ simpl; rewrite !sparsity_reads_app, sparsity_reads_map; simpl;
       rewrite ?app_nil_r; reflexivity
     | simpl; rewrite !printed_app, printed_reads; simpl;
       rewrite ?app_nil_r; reflexivity ]).
Qed.

(** When the base path cannot be computed nothing is written. *)
Lemma write_bundle_raises steps tokens name aliases (s : State) e :
  get_base_path (sae_group_cfg s) name = Raise e ->
  write_bundle steps tokens name aliases s = (Raise e, s).
Proof.
  intros Hbp.
  unfold write_bundle, bind at 1, gets at 1.
  unfold bind at 1, lift at 1. rewrite Hbp. reflexivity.
Qed.

End Bundle.

(** ** Files without an integer label *)

Section Unlabelled.

Context {C : Collaborators}.

Lemma get_checkpoints_by_step_bad_label c (fs : list (string * FileContent))
    nm name :
  get_name c = Ok nm ->
  dir_has_file (checkpoint_path c) name fs ->
  leading_label name = Raise ValueError ->
  get_checkpoints_by_step c fs = Raise ValueError.
Proof.
  intros Hnm [Hin Hfile] Hbad.
  unfold get_checkpoints_by_step, Fs.listdir.
  assert (Hnd : In name (nodup string_dec (Fs.entries (checkpoint_path c) fs)))
    by (apply nodup_In; exact Hin).
  destruct (nodup string_dec (Fs.entries (checkpoint_path c) fs)) as [| n ns] eqn:E.
  - destruct Hnd.
  - cbn [rbind].
    apply (map_to_steps_bad_label c nm name Hnm Hbad).
    apply filter_In. split; [exact Hnd | exact Hfile].
Qed.

Lemma remove_excess_checkpoints_bad_label c (s : State) nm name :
  get_name c = Ok nm ->
  dir_has_file (checkpoint_path c) name (files s) ->
  leading_label name = Raise ValueError ->
  remove_excess_checkpoints c s = (Raise ValueError, s).
Proof.
  intros Hnm Hfile Hbad.
  unfold remove_excess_checkpoints, bind, gets, lift.
  rewrite (get_checkpoints_by_step_bad_label c (files s) nm name Hnm Hfile Hbad).
  reflexivity.
Qed.

(** C10: when the checkpoint directory holds a regular file whose leading
    piece [int] rejects, [get_checkpoints_by_step] raises [ValueError]; so do
    the retention pass and the resume discovery, leaving the state as it is,
    and so does every save made over such a directory. *)
Theorem unlabelled_file_breaks_discovery
    (c : LanguageModelSAERunnerConfig) (fs : list (string * FileContent))
    (nm name : string)
    (Hname : get_name c = Ok nm)
    (Hfile : dir_has_file (checkpoint_path c) name fs)
    (Hlabel : leading_label name = Raise ValueError) :
  get_checkpoints_by_step c fs = Raise ValueError
  /\ (forall s : State, files s = fs ->
        remove_excess_checkpoints c s = (Raise ValueError, s)
        /\ get_resume_base_path c s = (Raise ValueError, s))
  /\ (forall (s : State) steps tokens l aliases,
        files s = fs -> sae_group_cfg s = c ->
        fst (_save_checkpoint steps tokens l aliases s) = Raise ValueError).
Proof.
  split; [| split].
  - exact (get_checkpoints_by_step_bad_label c fs nm name Hname Hfile Hlabel).
  - intros s Hs. subst fs. split.
    + exact (remove_excess_checkpoints_bad_label c s nm name Hname Hfile Hlabel).
    + unfold get_resume_base_path, bind, gets, lift.
      rewrite (get_checkpoints_by_step_bad_label c (files s) nm name
                 Hname Hfile Hlabel).
      reflexivity.
  - intros s steps tokens l aliases Hs Hc. subst fs c.
    destruct (write_bundle_spec steps tokens l aliases s _
                (get_base_path_ok _ nm l Hname))
      as (out & s1 & Hw & _ & Hcfg & _ & _ & Hkeep & _).
    unfold _save_checkpoint, bind at 1. rewrite Hw.
    unfold bind at 1, gets at 1. rewrite Hcfg.
    unfold bind.
    rewrite (remove_excess_checkpoints_bad_label (sae_group_cfg s) s1 nm name
               Hname (Hkeep _ _ Hfile) Hlabel).
    reflexivity.
Qed.

Lemma final_prefix_has_no_label rest :
  leading_label ("final_" ++ rest) = Raise ValueError.
Proof. reflexivity. Qed.

End Unlabelled.

(** The terminal save of the run whose budget is exhausted at the start
    leaves its four [final_0_..] files in the directory: discovery, retention
    and resume all raise on them. *)
Lemma unlabelled_file_breaks_discovery_witness :
  dir_has_file "checkpoints/run"
    "final_0_sae_group_gelu-2l_blocks.0.hook_mlp_out_4.pt"
    (files (snd Toy.run_exhausted))
  /\ @get_checkpoints_by_step Toy.collaborators (Toy.config 0 100 5 1000)
       (files (snd Toy.run_exhausted)) = Raise ValueError
  /\ @remove_excess_checkpoints Toy.collaborators (Toy.config 0 100 5 1000)
       (snd Toy.run_exhausted) = (Raise ValueError, snd Toy.run_exhausted)
  /\ @get_resume_base_path Toy.collaborators (Toy.config 0 100 5 1000)
       (snd Toy.run_exhausted) = (Raise ValueError, snd Toy.run_exhausted).
Proof.
  assert (Hfile : dir_has_file "checkpoints/run"
                    "final_0_sae_group_gelu-2l_blocks.0.hook_mlp_out_4.pt"
                    (files (snd Toy.run_exhausted))).
  { split; [vm_compute; tauto | reflexivity]. }
  split; [exact Hfile |].
  assert (Hname : get_name (Toy.config 0 100 5 1000)
                  = Ok "sae_group_gelu-2l_blocks.0.hook_mlp_out_4")
    by (vm_compute; reflexivity).
  assert (Hlabel : leading_label
                     "final_0_sae_group_gelu-2l_blocks.0.hook_mlp_out_4.pt"
                   = Raise ValueError)
    by (vm_compute; reflexivity).
  destruct (@unlabelled_file_breaks_discovery Toy.collaborators
              (Toy.config 0 100 5 1000) (files (snd Toy.run_exhausted))
              "sae_group_gelu-2l_blocks.0.hook_mlp_out_4"
              "final_0_sae_group_gelu-2l_blocks.0.hook_mlp_out_4.pt"
              Hname Hfile Hlabel) as (H1 & H2 & _).
  split; [exact H1 |].
  exact (H2 (snd Toy.run_exhausted) eq_refl).
Defined.

(** ** Generator states across a save and a resume *)

Section RoundTrip.

Context {C : Collaborators}.

(** C1: the run state a save writes holds the four generator states of that
    moment, and the save itself leaves the generators alone; when the file
    is read back in any later state of the process and [set_random_state] is
    called, every generator continues with the draws it would have made had
    the run gone on from the save: the next [k] draws agree for every [k],
    three in particular. *)
Theorem set_random_state_restores_draws
    (steps tokens : Z) (name : label) (aliases : option (list string))
    (s later : State) (bp : string)
    (Hbp : get_base_path (sae_group_cfg s) name = Ok bp)
    (Hkept : Fs.lookup (bp ++ SAVE_POSTFIX_TRAINING_STATE ++ ".pt") (files later)
             = Fs.lookup (bp ++ SAVE_POSTFIX_TRAINING_STATE ++ ".pt")
                 (files (snd (_save_checkpoint steps tokens name aliases s)))) :
  rng (snd (_save_checkpoint steps tokens name aliases s)) = rng s
  /\ exists rs resumed,
       resume_training_run_state bp later = (Ok rs, later)
       /\ set_random_state rs later = (Ok tt, resumed)
       /\ (forall k, all_draws k (rng resumed) = all_draws k (rng s))
       /\ all_draws 3 (rng resumed) = all_draws 3 (rng s).
Proof.
  destruct (write_bundle_spec steps tokens name aliases s bp Hbp)
    as (out & s1 & Hw & _ & Hcfg & Hrng & Hfile & _ & _).
  assert (Hsave : snd (_save_checkpoint steps tokens name aliases s) = s1).
  { unfold _save_checkpoint, bind at 1. rewrite Hw.
    unfold bind at 1, gets at 1. unfold bind.
    destruct (remove_excess_checkpoints_raises (sae_group_cfg s1) s1) as [e He].
    rewrite He. reflexivity. }
  rewrite Hsave in *. split; [exact Hrng |].
  rewrite Hfile in Hkept.
  exists (captured steps tokens s).
  eexists. split; [| split; [| split]].
  - unfold resume_training_run_state, bind, gets. rewrite Hkept. reflexivity.
  - unfold set_random_state, captured, bind, modify. simpl. reflexivity.
  - intros k. reflexivity.
  - reflexivity.
Qed.

End RoundTrip.

Lemma set_random_state_restores_draws_witness :
  rng (snd (@_save_checkpoint Toy.collaborators 3 300 (LInt 300) None Toy.midway))
  = rng Toy.midway
  /\ exists rs resumed,
       resume_training_run_state (Toy.base "300") Toy.later = (Ok rs, Toy.later)
       /\ set_random_state rs Toy.later = (Ok tt, resumed)
       /\ (forall k, all_draws k (rng resumed) = all_draws k (rng Toy.midway))
       /\ all_draws 3 (rng resumed) = all_draws 3 (rng Toy.midway).
Proof.
  apply (@set_random_state_restores_draws Toy.collaborators 3 300 (LInt 300) None
           Toy.midway Toy.later (Toy.base "300")).
  - vm_compute. reflexivity.
  - vm_compute. reflexivity.
Defined.

(** ** Construction of the configuration *)




(** ** What the loop leaves untouched *)

Section Frame.

Context {C : Collaborators}.

Lemma keeps_ret {A} (a : A) : keeps (ret a).
Proof. intros s. split; reflexivity. Qed.

Lemma keeps_raise {A} e : keeps (@raise State A e).
Proof. intros s. split; reflexivity. Qed.

Lemma keeps_lift {A} (r : result A) : keeps (lift r).
Proof. intros s. split; reflexivity. Qed.

Lemma keeps_gets {A} (f : State -> A) : keeps (gets f).
Proof. intros s. split; reflexivity. Qed.

Lemma keeps_modify (f : State -> State) :
  (forall s, n_training_steps (f s) = n_training_steps s
             /\ sae_group_cfg (f s) = sae_group_cfg s) ->
  keeps (modify f).
Proof. intros H s. exact (H s). Qed.

Lemma keeps_bind {A B} (m : M State A) (k : A -> M State B) :
  keeps m -> (forall a, keeps (k a)) -> keeps (bind m k).
Proof.
  intros Hm Hk s. unfold bind.
  destruct (Hm s) as [H1 H2].
  destruct (m s) as [[a | e] s1]; simpl in *.
  - destruct (Hk a s1) as [H3 H4]. split; congruence.
  - split; assumption.
Qed.

Lemma bind_raise {S A B} (m : M S A) (k : A -> M S B) (s s1 : S) e :
  m s = (Raise e, s1) -> bind m k s = (Raise e, s1).
Proof. intros H. unfold bind. rewrite H. reflexivity. Qed.

Lemma keeps_signal_point : keeps signal_point.
Proof.
  intros s. unfold signal_point.
  destruct (signal_at s) as [t |]; [destruct (t =? clock s)%nat |];
    split; reflexivity.
Qed.

Lemma keeps_fetch_batch : keeps fetch_batch.
Proof. intros s. split; reflexivity. Qed.

Lemma keeps_for_each {A} (l : list A) (body : A -> M State unit) :
  (forall x, keeps (body x)) -> keeps (for_each l body).
Proof.
  intros H. induction l as [| x l IH]; simpl.
  - apply keeps_ret.
  - apply keeps_bind; [apply H | intros _; exact IH].
Qed.

Ltac keeps_step :=
  first
    [ apply keeps_ret | apply keeps_raise | apply keeps_lift | apply keeps_gets
    | apply keeps_signal_point | apply keeps_fetch_batch
    | apply keeps_modify; intros; split; reflexivity
    | apply keeps_bind; [| intros]
    | match goal with
      | |- keeps (if ?b then _ else _) => destruct b
      | |- keeps (match ?x with _ => _ end) => destruct x
      end ].

Ltac keeps_all := cbv zeta; repeat (keeps_step; cbv beta zeta).

Lemma keeps_emit e : keeps (emit e).
Proof. unfold emit. keeps_all. Qed.

Lemma keeps_get_sae k : keeps (get_sae k).
Proof. unfold get_sae. keeps_all. Qed.

Lemma keeps_get_ctx k : keeps (get_ctx k).
Proof. unfold get_ctx. keeps_all. Qed.

Lemma keeps__train_step k acts W uw n layers bs suf :
  keeps (_train_step k acts W uw n layers bs suf).
Proof.
  unfold _train_step, sparsity_window_reset, read_feature_sparsity, upd_sae,
    upd_ctx, get_sae, get_ctx, emit.
  keeps_all.
Qed.

Lemma keeps_step_one_model k acts bs W uw wlf layers :
  keeps (step_one_model k acts bs W uw wlf layers).
Proof.
  unfold step_one_model, get_sae, emit.
  cbv zeta.
  repeat first [apply keeps__train_step | keeps_step; cbv beta zeta].
Qed.

Lemma keeps_read_log_sparsities ctxs : keeps (read_log_sparsities ctxs).
Proof.
  induction ctxs as [| ctx rest IH]; simpl.
  - apply keeps_ret.
  - unfold read_feature_sparsity, emit.
    repeat first [exact IH | keeps_step; cbv beta zeta].
Qed.

Lemma keeps__save_checkpoint steps tokens name aliases :
  keeps (_save_checkpoint steps tokens name aliases).
Proof.
  unfold _save_checkpoint.
  apply keeps_bind.
  - unfold write_bundle, write_file, new_run_state, run_state_post_init, emit.
    cbv zeta.
    repeat first [apply keeps_read_log_sparsities | keeps_step; cbv beta zeta].
  - intros out. apply keeps_bind; [apply keeps_gets |]. intros c.
    apply keeps_bind; [| intros; apply keeps_ret].
    intros s. destruct (remove_excess_checkpoints_raises c s) as [e He].
    rewrite He. split; reflexivity.
Qed.

(** Running [m] and then [k] from a state that agrees with [s0] on the step
    counter and the configuration neither returns nor moves the counter,
    provided [m] keeps both and [k] is stuck from any such state. *)
Lemma stuck_bind {A B} (m : M State A) (k : A -> M State B) (s0 s : State) :
  keeps m ->
  n_training_steps s = n_training_steps s0 ->
  sae_group_cfg s = sae_group_cfg s0 ->
  (forall a s1,
      n_training_steps s1 = n_training_steps s0 ->
      sae_group_cfg s1 = sae_group_cfg s0 ->
      stuck s0 (k a s1)) ->
  stuck s0 (bind m k s).
Proof.
  intros Hm Hs Hc Hk. unfold bind. destruct (Hm s) as [H1 H2].
  destruct (m s) as [[a | e] s1]; simpl in *.
  - apply Hk; congruence.
  - split; [reflexivity | simpl; congruence].
Qed.

(** An iteration of the loop that starts on a step at which the checkpoint
    test is due, or cannot be evaluated, does not complete: the loop does not
    return and the step counter stays where it was. *)
Lemma training_loop_stops_at_checkpoint fuel total bs W uw wlf layers (s : State) :
  n_training_tokens s < total ->
  checkpoint_every (sae_group_cfg s) = 0
  \/ n_training_steps s mod checkpoint_every (sae_group_cfg s) = 0 ->
  stuck s (training_loop fuel total bs W uw wlf layers s).
Proof.
  intros Hlt Hdue.
  destruct fuel as [| fuel]; simpl.
  - unfold stuck, bind, gets. apply Z.ltb_lt in Hlt. rewrite Hlt.
    split; reflexivity.
  - unfold bind at 1, gets at 1. apply Z.ltb_lt in Hlt. rewrite Hlt.
    apply stuck_bind; [apply keeps_signal_point | reflexivity | reflexivity |].
    intros _ s1 Hs1 Hc1.
    apply stuck_bind; [apply keeps_fetch_batch | assumption | assumption |].
    intros acts s2 Hs2 Hc2.
    apply stuck_bind;
      [apply keeps_modify; intros; split; reflexivity | assumption | assumption |].
    intros _ s3 Hs3 Hc3.
    apply stuck_bind; [apply keeps_gets | assumption | assumption |].
    intros saes s4 Hs4 Hc4.
    apply stuck_bind; [apply keeps_gets | assumption | assumption |].
    intros ctxs s5 Hs5 Hc5.
    apply stuck_bind;
      [apply keeps_for_each; intros; apply keeps_step_one_model
      | assumption | assumption |].
    intros _ s6 Hs6 Hc6.
    apply stuck_bind; [apply keeps_signal_point | assumption | assumption |].
    intros _ s7 Hs Hc.
    unfold bind at 1, gets at 1. unfold bind at 1, gets at 1.
    unfold bind at 1, gets at 1. unfold bind at 1, lift at 1.
    rewrite Hs, Hc. unfold Py.mod_.
    destruct (checkpoint_every (sae_group_cfg s) =? 0) eqn:Hz.
    + split; [reflexivity | exact Hs].
    + destruct Hdue as [H0 | Hm]; [apply Z.eqb_neq in Hz; contradiction |].
      rewrite Hm. simpl (0 =? 0). cbv iota.
      rewrite <- Hs.
      destruct (keeps__save_checkpoint (n_training_steps s7)
                  (n_training_tokens s7) (LInt (n_training_tokens s7)) None s7)
        as [Hk _].
      pose proof (_save_checkpoint_not_ok (n_training_steps s7)
                    (n_training_tokens s7) (LInt (n_training_tokens s7)) None s7)
        as Hn.
      destruct (_save_checkpoint (n_training_steps s7) (n_training_tokens s7)
                  (LInt (n_training_tokens s7)) None s7) as [[o | e] s8] eqn:Hsave;
        simpl in Hn, Hk; [discriminate Hn |].
      rewrite (bind_raise _ _ _ _ _ (bind_raise _ _ _ _ _ Hsave)).
      split; [reflexivity | simpl; congruence].
Qed.

End Frame.

(** ** The training function never returns *)

(** C4: no call of [train_sae_group_on_language_model] returns an output,
    whatever the collaborators, the arguments and the fuel: the terminal save
    raises in its retention pass.  On a budget that is exhausted from the
    start the terminal bundle is written, the call raises [ValueError], and
    the list of checkpoint locations is still empty. *)
Theorem train_sae_group_never_returns :
  (forall (C : Collaborators) training_run_state batch_size
          feature_sampling_window use_wandb wandb_log_frequency fuel (s : State),
      is_ok (fst (train_sae_group_on_language_model training_run_state
                    batch_size feature_sampling_window use_wandb
                    wandb_log_frequency fuel s)) = false)
  /\ fst Toy.run_exhausted = Raise ValueError
  /\ written (trace (snd Toy.run_exhausted)) = Toy.bundle "final_0"
  /\ checkpoint_paths (snd Toy.run_exhausted) = [].
Proof.
  split.
  - intros. unfold train_sae_group_on_language_model.
    repeat first
      [ apply bind_not_ok_l; apply _save_checkpoint_not_ok
      | apply bind_not_ok_r; intros; cbv beta ].
  - repeat split; vm_compute; reflexivity.
Qed.

(** C2: the checkpoint test [n_training_steps % checkpoint_every] raises
    [ZeroDivisionError] for the default [checkpoint_every = 0], whatever the
    step; so, whatever the collaborators, a loop entered with
    [checkpoint_every = 0] does not return and completes no step.  In the
    run evaluated here the first iteration stops at the test: the first batch
    has been counted, no step has been completed, nothing was written or
    printed. *)
Theorem checkpoint_every_zero_faults :
  (forall steps,
      Py.mod_ steps (checkpoint_every default_config) = Raise ZeroDivisionError)
  /\ (forall (C : Collaborators) fuel total batch_size feature_sampling_window
             use_wandb wandb_log_frequency all_layers (s : State),
        checkpoint_every (sae_group_cfg s) = 0 ->
        n_training_tokens s < total ->
        is_ok (fst (training_loop fuel total batch_size feature_sampling_window
                      use_wandb wandb_log_frequency all_layers s)) = false
        /\ n_training_steps
             (snd (training_loop fuel total batch_size feature_sampling_window
                     use_wandb wandb_log_frequency all_layers s))
           = n_training_steps s)
  /\ fst Toy.run_every_0 = Raise ZeroDivisionError
  /\ n_training_tokens (snd Toy.run_every_0) = 100
  /\ n_training_steps (snd Toy.run_every_0) = 0
  /\ files (snd Toy.run_every_0) = []
  /\ trace (snd Toy.run_every_0) = [].
Proof.
  split; [intros steps; reflexivity |].
  split.
  - intros C fuel total bs W uw wlf layers s Hzero Hlt.
    exact (training_loop_stops_at_checkpoint fuel total bs W uw wlf layers s
             Hlt (or_introl Hzero)).
  - repeat split; vm_compute; reflexivity.
Qed.

(** *** What the interruption handler raises *)

Section Handler.

Context {C : Collaborators}.

Lemma get_name_not_interruption c e :
  get_name c = Raise e -> is_interruption e = false.
Proof.
  unfold get_name.
  destruct (match hook_point_layer c with One z => [z] | Many l => l end)
    as [| z [| z' l]].
  - simpl. intros H. inversion H. reflexivity.
  - simpl. discriminate.
  - destruct (1 <? Z.of_nat (List.length (z :: z' :: l))); simpl; discriminate.
Qed.

Lemma get_base_path_not_interruption c l e :
  get_base_path c l = Raise e -> is_interruption e = false.
Proof.
  unfold get_base_path. destruct (get_name c) as [nm | e'] eqn:Hn; simpl.
  - discriminate.
  - intros H. inversion H; subst e'. exact (get_name_not_interruption c e Hn).
Qed.

Lemma map_to_steps_not_interruption c checkpoints :
  forall acc e,
    map_to_steps c checkpoints acc = Raise e -> is_interruption e = false.
Proof.
  induction checkpoints as [| f rest IH]; intros acc e; simpl.
  - discriminate.
  - destruct (leading_label f) as [steps | e'] eqn:Hf; simpl.
    + destruct (get_base_path c (LInt steps)) as [b | e'] eqn:Hb; simpl.
      * apply IH.
      * intros H. inversion H; subst e'.
        exact (get_base_path_not_interruption c _ e Hb).
    + intros H. inversion H; subst e'.
      rewrite (leading_label_raises_ValueError f e Hf). reflexivity.
Qed.

Lemma get_checkpoints_by_step_not_interruption c
    (fs : list (string * FileContent)) e :
  get_checkpoints_by_step c fs = Raise e -> is_interruption e = false.
Proof.
  unfold get_checkpoints_by_step, Fs.listdir.
  destruct (nodup string_dec (Fs.entries (checkpoint_path c) fs)); cbn [rbind].
  - intros H. inversion H. reflexivity.
  - apply map_to_steps_not_interruption.
Qed.

Lemma remove_excess_checkpoints_not_interruption c (s : State) :
  exists e, remove_excess_checkpoints c s = (Raise e, s)
            /\ is_interruption e = false.
Proof.
  unfold remove_excess_checkpoints, bind, gets, lift.
  destruct (get_checkpoints_by_step c (files s)) as [d | e] eqn:Hd.
  - unfold unpack2.
    destruct (Dict.keys d) as [| k1 [| k2 [| k3 ks]]]; simpl; eauto.
  - exists e. split; [reflexivity |].
    exact (get_checkpoints_by_step_not_interruption c (files s) e Hd).
Qed.

(** In every state and for every interruption the handler prints its first
    message and nothing more, and what it raises is not an interruption. *)
Lemma on_interrupt_raises_something_else e (s : State) :
  exists e' s',
    on_interrupt e s = (Raise e', s')
    /\ is_interruption e' = false
    /\ printed (trace s')
       = (printed (trace s) ++ ["interrupted, saving progress"])%list.
Proof.
  unfold on_interrupt, bind at 1, print, emit, modify.
  unfold bind at 1, gets at 1. unfold bind at 1, gets at 1.
  remember (set_trace (trace s ++ [EvPrint "interrupted, saving progress"]) s)
    as s0 eqn:Hs0.
  assert (Hp0 : printed (trace s0)
                = (printed (trace s) ++ ["interrupted, saving progress"])%list).
  { subst s0. simpl. rewrite printed_app. reflexivity. }
  unfold bind at 1, _save_checkpoint, bind at 1.
  destruct (get_base_path (sae_group_cfg s0) (LInt (n_training_tokens s0)))
    as [bp | e'] eqn:Hbp.
  - destruct (write_bundle_spec (n_training_steps s0) (n_training_tokens s0)
                (LInt (n_training_tokens s0)) None s0 bp Hbp)
      as (o & s1 & Hw & _ & _ & _ & _ & _ & _ & Hp).
    rewrite Hw.
    unfold bind at 1, gets at 1. unfold bind at 1.
    destruct (remove_excess_checkpoints_not_interruption (sae_group_cfg s1) s1)
      as (e' & He & Hn).
    rewrite He. exists e', s1.
    repeat split; [exact Hn | rewrite Hp; exact Hp0].
  - rewrite (write_bundle_raises _ _ _ _ s0 e' Hbp).
    exists e', s0.
    repeat split;
      [exact (get_base_path_not_interruption _ _ e' Hbp) | exact Hp0].
Qed.

End Handler.

(** C3: whatever the collaborators, the state and the interruption, the
    handler prints its opening message and then raises something that is not
    an interruption, without printing the closing message.  In the run
    where a termination signal is delivered after the first step, the bundle
    labelled with the token count 100 is written, the save raises
    [ValueError] in its retention pass, and that [ValueError] is what reaches
    the caller. *)
Theorem interrupt_save_does_not_complete :
  (forall (C : Collaborators) e (s : State),
      exists e' s',
        on_interrupt e s = (Raise e', s')
        /\ is_interruption e' = false
        /\ printed (trace s')
           = (printed (trace s) ++ ["interrupted, saving progress"])%list)
  /\ fst Toy.run_interrupted = Raise ValueError
  /\ printed (trace (snd Toy.run_interrupted)) = ["interrupted, saving progress"]
  /\ written (trace (snd Toy.run_interrupted)) = Toy.bundle "100"
  /\ n_training_tokens (snd Toy.run_interrupted) = 100.
Proof.
  split.
  - intros C e s. apply on_interrupt_raises_something_else.
  - repeat split; vm_compute; reflexivity.
Qed.

(** C5: whatever the collaborators and the checkpoint cadence, a loop that
    starts at step 0 with budget left does not return and never completes
    its first iteration: the checkpoint test of step 0 is due (or faults)
    and the save it triggers raises.  With budget 1000, batches of 100 and
    [checkpoint_every = 5] the periodic save of the first iteration writes
    the bundle labelled 100 and raises [ValueError]: no step is completed,
    the token count stays at 100 and no terminal checkpoint is produced. *)
Theorem budget_1000_run_stops_in_first_iteration :
  (forall (C : Collaborators) fuel total batch_size feature_sampling_window
          use_wandb wandb_log_frequency all_layers (s : State),
      n_training_steps s = 0 ->
      n_training_tokens s < total ->
      is_ok (fst (training_loop fuel total batch_size feature_sampling_window
                    use_wandb wandb_log_frequency all_layers s)) = false
      /\ n_training_steps
           (snd (training_loop fuel total batch_size feature_sampling_window
                   use_wandb wandb_log_frequency all_layers s))
         = 0)
  /\ fst Toy.run_every_5 = Raise ValueError
  /\ n_training_steps (snd Toy.run_every_5) = 0
  /\ n_training_tokens (snd Toy.run_every_5) = 100
  /\ written (trace (snd Toy.run_every_5)) = Toy.bundle "100"
  /\ map fst (files (snd Toy.run_every_5)) = Toy.bundle "100".
Proof.
  split.
  - intros C fuel total bs W uw wlf layers s Hfresh Hlt.
    destruct (training_loop_stops_at_checkpoint fuel total bs W uw wlf layers s
                Hlt) as [Hraise Hsteps].
    { right. rewrite Hfresh. apply Zmod_0_l. }
    split; [exact Hraise | rewrite Hsteps; exact Hfresh].
  - repeat split; vm_compute; reflexivity.
Qed.

Lemma nth_error_update_nth {A} k (f : A -> A) (l : list A) :
  nth_error (update_nth k f l) k = option_map f (nth_error l k).
Proof.
  revert k. induction l as [| x l IH]; intros [| k]; simpl; auto.
Qed.

(** ** The step executor *)

Section Executor.
Context {C : Collaborators}.

Lemma ret_inv {S A} (a b : A) (s s1 : S) : ret a s = (Ok b, s1) -> b = a /\ s1 = s.
Proof. unfold ret. intros H. inversion H. auto. Qed.

Lemma lift_inv {S A} (r : result A) (a : A) (s s1 : S) :
  lift r s = (Ok a, s1) -> r = Ok a /\ s1 = s.
Proof. unfold lift. intros H. inversion H. auto. Qed.

Lemma modify_inv {S} (f : S -> S) u (s s1 : S) :
  modify f s = (Ok u, s1) -> s1 = f s.
Proof. unfold modify. intros H. inversion H. auto. Qed.

Lemma gets_inv {S A} (f : S -> A) a (s s1 : S) :
  gets f s = (Ok a, s1) -> a = f s /\ s1 = s.
Proof. unfold gets. intros H. inversion H. auto. Qed.

Lemma get_sae_inv k (s s1 : State) a :
  get_sae k s = (Ok a, s1) -> nth_error (autoencoders s) k = Some a /\ s1 = s.
Proof.
  unfold get_sae, bind, gets. destruct (nth_error (autoencoders s) k); intros H;
    inversion H; auto.
Qed.

Lemma get_ctx_inv k (s s1 : State) a :
  get_ctx k s = (Ok a, s1) -> nth_error (train_contexts s) k = Some a /\ s1 = s.
Proof.
  unfold get_ctx, bind, gets. destruct (nth_error (train_contexts s) k); intros H;
    inversion H; auto.
Qed.

Lemma signal_point_inv (s s1 : State) u :
  signal_point s = (Ok u, s1) -> s1 = set_clock (S (clock s)) s.
Proof.
  unfold signal_point. destruct (signal_at s) as [t |];
    [destruct (t =? clock s)%nat |]; intros H; inversion H; auto.
Qed.

Ltac minv H :=
  repeat match type of H with
  | bind _ _ _ = (Ok _, _) =>
      let a := fresh "a" in
      let st := fresh "st" in
      let Hm := fresh "Hm" in
      apply bind_ok in H; destruct H as (a & st & Hm & H); cbv beta in H;
      try first
        [ apply get_sae_inv in Hm; destruct Hm as [Hm ->]
        | apply get_ctx_inv in Hm; destruct Hm as [Hm ->]
        | apply lift_inv in Hm; destruct Hm as [Hm ->]
        | apply gets_inv in Hm; destruct Hm as [-> ->]
        | apply signal_point_inv in Hm; subst st
        | apply modify_inv in Hm; subst st ]
  end.


Lemma update_nth_compose {A} k (f g : A -> A) (l : list A) :
  update_nth k g (update_nth k f l) = update_nth k (fun x => g (f x)) l.
Proof.
  revert k. induction l as [| x l IH]; intros [| k]; simpl; f_equal; auto.
Qed.

(** The state a sparsity-window reset of context [k] leaves. *)
Lemma sparsity_window_reset_inv k sae uw n suf (s s1 : State) u :
  sparsity_window_reset k sae uw n suf s = (Ok u, s1) ->
  exists ctx d,
    nth_error (train_contexts s) k = Some ctx
    /\ d_sae (cfg sae) = Some d /\ 0 <= d
    /\ s1 = set_train_contexts
              (update_nth k
                 (fun c => mkContext (repeat 0 (Z.to_nat d))
                             (n_forward_passes_since_fired c) 0
                             (optimizer c) (scheduler c))
                 (train_contexts s))
              (set_trace
                 (trace s ++
                  EvReadSparsity (n_frac_active_tokens ctx)
                  :: (if uw
                      then [EvWandbLog
                              ("metrics/mean_log10_feature_sparsity" ++ suf)
                              (Some n)]
                      else []))%list
                 s).
Proof.
  intros H. unfold sparsity_window_reset in H. minv H.
  clear Hm0 Hm3.
  unfold torch_zeros in Hm2.
  destruct (d_sae (cfg sae)) as [d |] eqn:Hd; [| discriminate Hm2].
  destruct (d <? 0) eqn:Hneg; [discriminate Hm2 |].
  inversion Hm2; subst a2. clear Hm2.
  exists a, d. split; [exact Hm |]. split; [reflexivity |].
  split; [apply Z.ltb_ge; exact Hneg |].
  unfold upd_ctx in H. apply modify_inv in H. subst s1.
  destruct uw.
  - unfold emit in Hm1. apply modify_inv in Hm1. subst st.
    simpl. rewrite update_nth_compose, <- app_assoc. reflexivity.
  - apply ret_inv in Hm1. destruct Hm1 as [_ ->].
    simpl. rewrite update_nth_compose. reflexivity.
Qed.

Lemma _train_step_spec k acts W uw n layers bs suf (s s' : State) out ctx sae :
  _train_step k acts W uw n layers bs suf s = (Ok out, s') ->
  nth_error (train_contexts s) k = Some ctx ->
  nth_error (autoencoders s) k = Some sae ->
  W <> 0
  /\ ghost_grad_neuron_mask out
     = dead_mask (dead_feature_window (cfg sae)) (n_forward_passes_since_fired ctx)
  /\ (exists layer_id,
        index_of_layer (hook_point_layer (cfg sae)) layers = Ok layer_id
        /\ feature_acts out
           = snd (fst (fst (fst (fst
               (forward (cfg sae) (set_decoder_norm_to_unit_norm (weights sae))
                  (slice_layer acts layer_id) (ghost_grad_neuron_mask out)))))))
  /\ (exists ctx',
        nth_error (train_contexts s') k = Some ctx'
        /\ masked_zero (did_fire_of (feature_acts out))
             (map (Z.add 1) (n_forward_passes_since_fired ctx))
           = Ok (n_forward_passes_since_fired ctx')
        /\ n_frac_active_tokens ctx'
           = (if (n + 1) mod W =? 0 then 0 else n_frac_active_tokens ctx) + bs
        /\ exists base,
             (if (n + 1) mod W =? 0
              then torch_zeros (d_sae (cfg sae)) = Ok base
              else base = act_freq_scores ctx)
             /\ add_inplace base (fire_counts (feature_acts out))
                = Ok (act_freq_scores ctx'))
  /\ (exists w', nth_error (autoencoders s') k = Some (mkSAE (cfg sae) w'))
  /\ sparsity_reads (trace s')
     = (sparsity_reads (trace s)
        ++ (if (n + 1) mod W =? 0 then [n_frac_active_tokens ctx] else []))%list.
Proof.
  intros H Hctx Hsae.
  unfold _train_step in H.
  minv H.
  rewrite Hsae in Hm. inversion Hm; subst a. clear Hm.
  destruct (d_sae (cfg sae)) as [d |] eqn:Hd; [| discriminate Hm0].
  apply ret_inv in Hm0. destruct Hm0 as [_ ->].
  unfold Py.mod_ in Hm3.
  destruct (W =? 0) eqn:HW; [discriminate Hm3 |].
  inversion Hm3; subst a3. clear Hm3.
  apply ret_inv in H. destruct H as [-> ->].
  split; [apply Z.eqb_neq; exact HW |].
  assert (Hs1 : exists base,
             (if (n + 1) mod W =? 0
              then torch_zeros (d_sae (cfg sae)) = Ok base
              else base = act_freq_scores ctx)
             /\ nth_error (train_contexts st0) k
                = Some (mkContext base (n_forward_passes_since_fired ctx)
                          (if (n + 1) mod W =? 0 then 0
                           else n_frac_active_tokens ctx)
                          (optimizer ctx) (scheduler ctx))
             /\ autoencoders st0
                = update_nth k
                    (fun x => mkSAE (cfg x)
                                (set_decoder_norm_to_unit_norm (weights x)))
                    (autoencoders s)
             /\ sparsity_reads (trace st0)
                = (sparsity_reads (trace s)
                   ++ (if (n + 1) mod W =? 0
                       then [n_frac_active_tokens ctx] else []))%list).
  { destruct ((n + 1) mod W =? 0) eqn:Hb.
    - apply sparsity_window_reset_inv in Hm4.
      destruct Hm4 as (ctx0 & d0 & Hc0 & Hd0 & Hpos & ->).
      simpl in Hc0. rewrite Hctx in Hc0. inversion Hc0; subst ctx0. clear Hc0.
      exists (repeat 0 (Z.to_nat d0)). simpl.
      rewrite nth_error_update_nth, Hctx, Hd0. simpl.
      unfold torch_zeros.
      destruct (d0 <? 0) eqn:Hneg; [apply Z.ltb_lt in Hneg; lia |].
      repeat split.
      rewrite sparsity_reads_app. simpl. destruct uw; reflexivity.
    - apply ret_inv in Hm4. destruct Hm4 as [_ ->].
      exists (act_freq_scores ctx). simpl. rewrite Hctx, app_nil_r.
      destruct ctx; repeat split. }
  destruct Hs1 as (base & Hbase & Hc1 & Ha1 & Ht1).
  rewrite Hc1 in Hm5. inversion Hm5; subst a5. clear Hm5.
  simpl in Hm6, Hm8, Hm9, Hm11.
  rewrite Ha1, nth_error_update_nth, Hsae in Hm6. simpl in Hm6.
  inversion Hm6; subst a7. clear Hm6.
  rewrite nth_error_update_nth, Hc1 in Hm8. simpl in Hm8.
  inversion Hm8; subst a9. clear Hm8.
  simpl in *.
  split; [reflexivity |].
  split; [exists a1; split; [exact Hm1 | reflexivity] |].
  split.
  { rewrite !update_nth_compose, nth_error_update_nth, Hc1. simpl.
    eexists. split; [reflexivity |]. simpl.
    split; [exact Hm9 |]. split; [reflexivity |].
    exists base. split; [rewrite Hd in Hbase; exact Hbase | exact Hm11]. }
  split.
  { rewrite Ha1, !update_nth_compose, nth_error_update_nth, Hsae. simpl.
    eexists. reflexivity. }
  exact Ht1.
Qed.



Lemma run_steps_cons_inv k b rest W uw n layers bs suf (s s' : State) outs :
  run_steps k (b :: rest) W uw n layers bs suf s = (Ok outs, s') ->
  exists out s1 outs',
    _train_step k b W uw n layers bs suf s = (Ok out, s1)
    /\ run_steps k rest W uw (n + 1) layers bs suf s1 = (Ok outs', s')
    /\ outs = out :: outs'.
Proof.
  simpl. intros H.
  apply bind_ok in H. destruct H as (out & s1 & H1 & H).
  apply bind_ok in H. destruct H as (outs' & s2 & H2 & H).
  apply ret_inv in H. destruct H as [-> ->].
  exists out, s1, outs'. auto.
Qed.





End Executor.

(** ** The sparsity-window reset *)

Section Reset.

Context {C : Collaborators}.



(** ** The denominator of the sparsity *)



End Reset.


(** ** The properties at work on concrete steps *)


Lemma toy_three_steps :
  @run_steps Toy.collaborators 0 [Toy.batch; Toy.batch; Toy.batch] 1000 false 0
    [0] 100 EmptyString Toy.stepping
  = (Ok Toy.three_outs, Toy.after_three).
Proof. vm_compute. reflexivity. Qed.






(* ===================================================================== *)
(** * Further properties of the code *)
(* ===================================================================== *)

(** ** Strings: splitting, decimal numerals *)

Lemma list_ascii_of_string_app (a b : string) :
  list_ascii_of_string (a ++ b)
  = (list_ascii_of_string a ++ list_ascii_of_string b)%list.
Proof.
  induction a as [| c a IH]; simpl; [reflexivity | rewrite IH; reflexivity].
Qed.

Lemma string_forall_app p (a b : string) :
  string_forall p (a ++ b) = string_forall p a && string_forall p b.
Proof.
  unfold string_forall. rewrite list_ascii_of_string_app. apply forallb_app.
Qed.

Lemma split_app_sep sep (a b : string) :
  no_char sep a = true ->
  Py.split sep (a ++ String sep b) = a :: Py.split sep b.
Proof.
  unfold no_char, string_forall.
  induction a as [| c a IH]; simpl; intros H.
  - rewrite Ascii.eqb_refl. reflexivity.
  - apply andb_true_iff in H. destruct H as [Hc Ha].
    apply negb_true_iff in Hc. rewrite Hc, (IH Ha). reflexivity.
Qed.

Lemma digits_of_uint (u : Decimal.uint) :
  forall acc, Py.digits acc true (list_ascii_of_string (NilEmpty.string_of_uint u))
              = Some (uint_value acc u).
Proof.
  induction u; intros acc; simpl; try reflexivity; apply IHu.
Qed.

Lemma digits_of_uint_start (u : Decimal.uint) acc :
  u <> Decimal.Nil ->
  Py.digits acc false (list_ascii_of_string (NilEmpty.string_of_uint u))
  = Some (uint_value acc u).
Proof.
  destruct u; intros H; try (exfalso; apply H; reflexivity); simpl;
    apply digits_of_uint.
Qed.

Lemma of_uint_acc_value (u : Decimal.uint) :
  forall p, Z.pos (Pos.of_uint_acc u p) = uint_value (Z.pos p) u.
Proof.
  induction u; intros p; cbn [Pos.of_uint_acc uint_value]; try reflexivity;
    rewrite IHu; f_equal; lia.
Qed.

Lemma of_uint_value (u : Decimal.uint) :
  Z.of_N (Pos.of_uint u) = uint_value 0 u.
Proof.
  induction u; cbn [Pos.of_uint uint_value Z.of_N]; try reflexivity;
    try exact IHu; rewrite of_uint_acc_value; reflexivity.
Qed.

Lemma uint_chars_are_digits (u : Decimal.uint) :
  string_forall is_digit (NilEmpty.string_of_uint u) = true.
Proof.
  unfold string_forall. induction u; simpl; try reflexivity; exact IHu.
Qed.

Lemma string_forall_impl (p q : ascii -> bool) (s : string) :
  (forall c, p c = true -> q c = true) ->
  string_forall p s = true -> string_forall q s = true.
Proof.
  unfold string_forall. intros H.
  induction (list_ascii_of_string s) as [| c l IH]; simpl; [reflexivity |].
  intros Hp. apply andb_true_iff in Hp. destruct Hp as [Hc Hl].
  rewrite (H c Hc), (IH Hl). reflexivity.
Qed.

Lemma digit_is_plain (c : ascii) :
  is_digit c = true ->
  Py.is_space c = false /\ Ascii.eqb c "_" = false /\ Ascii.eqb c "/" = false
  /\ Ascii.eqb c "-" = false /\ Ascii.eqb c "+" = false.
Proof.
  destruct c as [[] [] [] [] [] [] [] []]; vm_compute; intros H;
    try discriminate H; repeat split.
Qed.

Lemma lstrip_unpadded (l : list ascii) :
  forallb (fun c => negb (Py.is_space c)) l = true -> Py.lstrip l = l.
Proof.
  destruct l as [| c l]; simpl; [reflexivity |].
  intros H. apply andb_true_iff in H. destruct H as [Hc _].
  apply negb_true_iff in Hc. rewrite Hc. reflexivity.
Qed.

Lemma strip_unpadded (l : list ascii) :
  forallb (fun c => negb (Py.is_space c)) l = true -> Py.strip l = l.
Proof.
  intros H. unfold Py.strip. rewrite (lstrip_unpadded l H).
  rewrite lstrip_unpadded; [apply rev_involutive |].
  rewrite forallb_forall in *. intros c Hc. apply H. apply in_rev. exact Hc.
Qed.

Lemma uint_chars_unpadded (u : Decimal.uint) :
  forallb (fun c => negb (Py.is_space c))
    (list_ascii_of_string (NilEmpty.string_of_uint u)) = true.
Proof.
  apply (string_forall_impl is_digit); [| apply uint_chars_are_digits].
  intros c Hc. destruct (digit_is_plain c Hc) as [-> _]. reflexivity.
Qed.

Lemma parse_int_of_uint (u : Decimal.uint) :
  u <> Decimal.Nil ->
  Py.parse_int (NilEmpty.string_of_uint u) = Some (uint_value 0 u).
Proof.
  intros Hu. unfold Py.parse_int.
  rewrite (strip_unpadded _ (uint_chars_unpadded u)).
  destruct u; try (exfalso; apply Hu; reflexivity); simpl; apply digits_of_uint.
Qed.

Lemma parse_int_of_negated_uint (u : Decimal.uint) :
  u <> Decimal.Nil ->
  Py.parse_int (String "-" (NilEmpty.string_of_uint u)) = Some (- uint_value 0 u).
Proof.
  intros Hu. unfold Py.parse_int.
  rewrite strip_unpadded.
  - simpl. rewrite (digits_of_uint_start u 0 Hu). reflexivity.
  - simpl. apply uint_chars_unpadded.
Qed.

Lemma nilzero_of_nonnil (u : Decimal.uint) :
  u <> Decimal.Nil -> NilZero.string_of_uint u = NilEmpty.string_of_uint u.
Proof.
  destruct u; intros H; try reflexivity. exfalso. apply H. reflexivity.
Qed.

Lemma value_of_to_uint (p : positive) : uint_value 0 (Pos.to_uint p) = Z.pos p.
Proof.
  rewrite <- of_uint_value, DecimalPos.Unsigned.of_to. reflexivity.
Qed.

(** [int(str(n))] is [n]. *)
Lemma parse_int_str_of_int (n : Z) : Py.parse_int (Py.str_of_int n) = Some n.
Proof.
  unfold Py.str_of_int. destruct n as [| p | p].
  - reflexivity.
  - change (Z.to_int (Z.pos p)) with (Decimal.Pos (Pos.to_uint p)).
    cbn [NilZero.string_of_int].
    rewrite (nilzero_of_nonnil _ (DecimalPos.Unsigned.to_uint_nonnil p)).
    rewrite (parse_int_of_uint _ (DecimalPos.Unsigned.to_uint_nonnil p)).
    rewrite value_of_to_uint. reflexivity.
  - change (Z.to_int (Z.neg p)) with (Decimal.Neg (Pos.to_uint p)).
    cbn [NilZero.string_of_int].
    rewrite (nilzero_of_nonnil _ (DecimalPos.Unsigned.to_uint_nonnil p)).
    rewrite (parse_int_of_negated_uint _ (DecimalPos.Unsigned.to_uint_nonnil p)).
    rewrite value_of_to_uint. reflexivity.
Qed.

(** The characters of [str(n)] are digits and, for a negative [n], a leading
    minus sign. *)
Lemma str_of_int_chars (n : Z) :
  string_forall (fun c => is_digit c || Ascii.eqb c "-") (Py.str_of_int n) = true.
Proof.
  assert (Hu : forall u,
             string_forall (fun c => is_digit c || Ascii.eqb c "-")
               (NilZero.string_of_uint u) = true).
  { intros u. destruct (Decimal.uint_eq_dec u Decimal.Nil) as [-> | Hu];
      [reflexivity |].
    rewrite (nilzero_of_nonnil u Hu).
    apply (string_forall_impl is_digit); [| apply uint_chars_are_digits].
    intros c Hc. rewrite Hc. reflexivity. }
  unfold Py.str_of_int. destruct (Z.to_int n) as [u | u]; simpl.
  - apply Hu.
  - exact (Hu u).
Qed.

Lemma str_of_int_no_underscore (n : Z) : no_char "_" (Py.str_of_int n) = true.
Proof.
  apply (string_forall_impl (fun c => is_digit c || Ascii.eqb c "-"));
    [| apply str_of_int_chars].
  intros c Hc. apply orb_true_iff in Hc. destruct Hc as [Hc | Hc].
  - destruct (digit_is_plain c Hc) as (_ & -> & _). reflexivity.
  - apply Ascii.eqb_eq in Hc. subst c. reflexivity.
Qed.

Lemma str_of_int_no_slash (n : Z) : no_char "/" (Py.str_of_int n) = true.
Proof.
  apply (string_forall_impl (fun c => is_digit c || Ascii.eqb c "-"));
    [| apply str_of_int_chars].
  intros c Hc. apply orb_true_iff in Hc. destruct Hc as [Hc | Hc].
  - destruct (digit_is_plain c Hc) as (_ & _ & -> & _). reflexivity.
  - apply Ascii.eqb_eq in Hc. subst c. reflexivity.
Qed.

(** ** Names and labels *)

Lemma leading_label_of_integer_name (n : Z) (rest : string) :
  leading_label (Py.str_of_int n ++ "_" ++ rest) = Ok n.
Proof.
  unfold leading_label.
  change ("_" ++ rest) with (String "_" rest).
  rewrite (split_app_sep "_" _ rest (str_of_int_no_underscore n)).
  simpl. unfold Py.int_. rewrite parse_int_str_of_int. reflexivity.
Qed.

(** X1: an integer label survives the trip through a file name: [int(str(n))]
    is [n], and the leading label of any name that starts with [str(n)] and
    an underscore, as every name built by [get_base_path] from an integer
    does, reads back as [n]. *)
Theorem integer_label_round_trip (n : Z) (rest : string) :
  Py.int_ (Py.str_of_int n) = Ok n
  /\ leading_label (str_of_label (LInt n) ++ "_" ++ rest) = Ok n.
Proof.
  split.
  - unfold Py.int_. rewrite parse_int_str_of_int. reflexivity.
  - apply leading_label_of_integer_name.
Qed.

Lemma fold_left_min_shift (k : Z) (l : list Z) :
  forall x, fold_left Z.min (map (fun z => z + k) l) (x + k)
            = fold_left Z.min l x + k.
Proof.
  induction l as [| y l IH]; intros x; simpl; [reflexivity |].
  rewrite <- IH. f_equal. lia.
Qed.

Lemma fold_left_max_shift (k : Z) (l : list Z) :
  forall x, fold_left Z.max (map (fun z => z + k) l) (x + k)
            = fold_left Z.max l x + k.
Proof.
  induction l as [| y l IH]; intros x; simpl; [reflexivity |].
  rewrite <- IH. f_equal. lia.
Qed.

(** X2: for a group over several layers the name depends on the layers only
    through [min - max]: moving every layer by the same amount gives the
    same name, hence the same checkpoint files. *)
Theorem get_name_ignores_where_the_layers_are
    (c : LanguageModelSAERunnerConfig) (l : list Z) (k : Z)
    (Hlen : (2 <= List.length l)%nat) :
  get_name (set_hook_point_layer (Many (map (fun z => z + k) l)) c)
  = get_name (set_hook_point_layer (Many l) c).
Proof.
  destruct l as [| x [| y l]]; simpl in Hlen; try lia.
  unfold get_name. cbn [hook_point_layer set_hook_point_layer model_name
                        hook_point d_sae].
  rewrite length_map.
  destruct (1 <? Z.of_nat (List.length (x :: y :: l))) eqn:E;
    [| apply Z.ltb_ge in E; simpl List.length in E; lia].
  change (map (fun z => z + k) (x :: y :: l))
    with ((x + k) :: map (fun z => z + k) (y :: l)).
  unfold Py.min_, Py.max_. cbn [rbind].
  rewrite (fold_left_min_shift k (y :: l) x),
          (fold_left_max_shift k (y :: l) x).
  replace (fold_left Z.min (y :: l) x + k - (fold_left Z.max (y :: l) x + k))
    with (fold_left Z.min (y :: l) x - fold_left Z.max (y :: l) x) by lia.
  reflexivity.
Qed.

Lemma get_name_ignores_where_the_layers_are_witness :
  get_name (set_hook_point_layer (Many (map (fun z => z + 5) [0; 1])) default_config)
  = get_name (set_hook_point_layer (Many [0; 1]) default_config).
Proof.
  apply (get_name_ignores_where_the_layers_are default_config [0; 1] 5).
  simpl. lia.
Defined.


(** ** Discovery of the checkpoints on disk *)

Lemma paths_at_append_same k v (d : Dict.t) :
  paths_at k (Dict.append k v d) = (paths_at k d ++ [v])%list.
Proof.
  unfold paths_at. induction d as [| [k' vs] d IH]; simpl.
  - rewrite Z.eqb_refl. reflexivity.
  - destruct (k' =? k) eqn:E; simpl; rewrite E; [reflexivity | exact IH].
Qed.

Lemma paths_at_append_other k k' v (d : Dict.t) :
  k <> k' -> paths_at k' (Dict.append k v d) = paths_at k' d.
Proof.
  intros Hk. unfold paths_at. induction d as [| [k0 vs] d IH]; simpl.
  - destruct (k =? k') eqn:E; [apply Z.eqb_eq in E; contradiction | reflexivity].
  - destruct (k0 =? k) eqn:E; simpl.
    + apply Z.eqb_eq in E. subst k0.
      destruct (k =? k') eqn:E'; [apply Z.eqb_eq in E'; contradiction | reflexivity].
    + destruct (k0 =? k'); [reflexivity | exact IH].
Qed.

Lemma keys_append k v (d : Dict.t) k' :
  In k' (Dict.keys (Dict.append k v d)) <-> k' = k \/ In k' (Dict.keys d).
Proof.
  unfold Dict.keys. induction d as [| [k0 vs] d IH]; simpl.
  - intuition.
  - destruct (k0 =? k) eqn:E; simpl.
    + apply Z.eqb_eq in E. subst k0. intuition.
    + rewrite IH. intuition.
Qed.

Lemma NoDup_keys_append k v (d : Dict.t) :
  NoDup (Dict.keys d) -> NoDup (Dict.keys (Dict.append k v d)).
Proof.
  induction d as [| [k0 vs] d IH]; simpl; intros H.
  - constructor; [intros [] | constructor].
  - inversion H as [| x l Hx Hl]; subst.
    destruct (k0 =? k) eqn:E; simpl.
    + constructor; assumption.
    + constructor; [| apply IH; exact Hl].
      intros Hin. apply keys_append in Hin. destruct Hin as [-> | Hin].
      * rewrite Z.eqb_refl in E. discriminate E.
      * apply Hx. exact Hin.
Qed.

Lemma map_to_steps_spec c checkpoints :
  forall acc d,
    map_to_steps c checkpoints acc = Ok d ->
    (NoDup (Dict.keys acc) -> NoDup (Dict.keys d))
    /\ ((forall k, In k (Dict.keys acc) <-> paths_at k acc <> []) ->
        forall k, In k (Dict.keys d) <-> paths_at k d <> [])
    /\ forall k,
         paths_at k d
         = (paths_at k acc
            ++ map (Py.path_join (checkpoint_path c))
                 (filter (filed_under c k) checkpoints))%list.
Proof.
  induction checkpoints as [| f rest IH]; intros acc d H; simpl in H.
  - inversion H; subst d. repeat split; auto.
    + apply H0.
    + apply H0.
    + intros k. simpl. rewrite app_nil_r. reflexivity.
  - destruct (leading_label f) as [steps |] eqn:Hl; simpl in H; [| discriminate H].
    destruct (get_base_path c (LInt steps)) as [base |] eqn:Hb; simpl in H;
      [| discriminate H].
    apply IH in H. destruct H as (H1 & H2 & H3).
    split; [| split].
    + intros Hnd. apply H1.
      destruct (Py.startswith (Py.path_join (checkpoint_path c) f) base);
        [apply NoDup_keys_append |]; exact Hnd.
    + intros Hinv. apply H2.
      destruct (Py.startswith (Py.path_join (checkpoint_path c) f) base);
        [| exact Hinv].
      intros k. rewrite keys_append.
      destruct (Z.eq_dec k steps) as [-> | Hne].
      * rewrite paths_at_append_same. split; [| auto].
        intros _ Habs. apply app_eq_nil in Habs. destruct Habs as [_ Habs].
        discriminate Habs.
      * rewrite paths_at_append_other by congruence.
        rewrite <- Hinv. intuition.
    + intros k.
      assert (Hfu : filed_under c k f
                    = if steps =? k
                      then Py.startswith (Py.path_join (checkpoint_path c) f) base
                      else false).
      { unfold filed_under. rewrite Hl. destruct (steps =? k) eqn:E.
        - apply Z.eqb_eq in E. subst k. rewrite Hb. reflexivity.
        - destruct (get_base_path c (LInt k)); reflexivity. }
      rewrite H3. cbn [filter]. rewrite Hfu.
      destruct (steps =? k) eqn:E.
      * apply Z.eqb_eq in E. subst k.
        destruct (Py.startswith (Py.path_join (checkpoint_path c) f) base).
        -- rewrite paths_at_append_same. simpl map. rewrite <- app_assoc.
           reflexivity.
        -- reflexivity.
      * assert (Hk : steps <> k) by (apply Z.eqb_neq; exact E).
        destruct (Py.startswith (Py.path_join (checkpoint_path c) f) base);
          [rewrite paths_at_append_other by exact Hk |]; reflexivity.
Qed.

Lemma map_to_steps_total c nm checkpoints :
  get_name c = Ok nm ->
  (forall f, In f checkpoints -> is_ok (leading_label f) = true) ->
  forall acc, is_ok (map_to_steps c checkpoints acc) = true.
Proof.
  intros Hnm. induction checkpoints as [| f rest IH]; intros Hall acc; simpl.
  - reflexivity.
  - pose proof (Hall f (or_introl eq_refl)) as Hf.
    destruct (leading_label f) as [steps |]; [| discriminate Hf]. simpl.
    rewrite (get_base_path_ok c nm (LInt steps) Hnm). simpl.
    apply IH. intros g Hg. apply Hall. right. exact Hg.
Qed.

Lemma regular_files_spec {X} dir name (fs : list (string * X)) :
  In name (regular_files dir fs) <-> dir_has_file dir name fs.
Proof.
  unfold regular_files, dir_has_file. rewrite filter_In, nodup_In. reflexivity.
Qed.

Section Grouping.

Context {C : Collaborators}.

Lemma get_checkpoints_by_step_unfold c (fs : list (string * FileContent)) names :
  Fs.listdir (checkpoint_path c) fs = Ok names ->
  get_checkpoints_by_step c fs
  = map_to_steps c (regular_files (checkpoint_path c) fs) [].
Proof.
  intros H. unfold get_checkpoints_by_step. rewrite H. simpl.
  unfold regular_files, Fs.listdir in *.
  destruct (nodup string_dec (Fs.entries (checkpoint_path c) fs));
    [discriminate H |].
  inversion H. reflexivity.
Qed.

Lemma get_checkpoints_by_step_regular c (fs : list (string * FileContent)) d :
  get_checkpoints_by_step c fs = Ok d ->
  map_to_steps c (regular_files (checkpoint_path c) fs) [] = Ok d.
Proof.
  intros H.
  destruct (Fs.listdir (checkpoint_path c) fs) as [names | e] eqn:Hls.
  - rewrite <- (get_checkpoints_by_step_unfold c fs names Hls). exact H.
  - unfold get_checkpoints_by_step in H. rewrite Hls in H. discriminate H.
Qed.

(** X4: what discovery returns.  The dictionary has no key twice; under each
    integer [k] it holds, in listing order, the full paths of exactly those
    regular files of the checkpoint directory whose leading label reads as
    [k] and whose path starts with the base path of [k] for this group; and
    [k] is a key only if there is such a file. *)
Theorem discovery_files_each_checkpoint_under_its_label
    (c : LanguageModelSAERunnerConfig) (fs : list (string * FileContent))
    (d : Dict.t)
    (Hd : get_checkpoints_by_step c fs = Ok d) :
  NoDup (Dict.keys d)
  /\ forall k,
       py_getitem (PDict d) k
       = Ok (map (Py.path_join (checkpoint_path c))
               (filter (filed_under c k) (regular_files (checkpoint_path c) fs)))
       /\ (In k (Dict.keys d) <->
           exists name, dir_has_file (checkpoint_path c) name fs
                        /\ filed_under c k name = true).
Proof.
  apply get_checkpoints_by_step_regular in Hd.
  destruct (map_to_steps_spec c _ [] d Hd) as (H1 & H2 & H3).
  split; [apply H1; constructor |].
  intros k.
  assert (Hp : paths_at k d
               = map (Py.path_join (checkpoint_path c))
                   (filter (filed_under c k)
                      (regular_files (checkpoint_path c) fs)))
    by (rewrite H3; reflexivity).
  split.
  - unfold py_getitem. unfold paths_at in Hp.
    destruct (Dict.get k d); rewrite Hp; reflexivity.
  - rewrite H2 by (intros k0; simpl; intuition).
    rewrite Hp. split.
    + intros Hne.
      destruct (filter (filed_under c k) (regular_files (checkpoint_path c) fs))
        as [| name l] eqn:Hf; [exfalso; apply Hne; reflexivity |].
      assert (Hin : In name (filter (filed_under c k)
                               (regular_files (checkpoint_path c) fs)))
        by (rewrite Hf; left; reflexivity).
      apply filter_In in Hin. destruct Hin as [Hin Hfu].
      exists name. split; [apply regular_files_spec; exact Hin | exact Hfu].
    + intros (name & Hin & Hfu) Habs.
      apply regular_files_spec in Hin.
      assert (Hin' : In name (filter (filed_under c k)
                                (regular_files (checkpoint_path c) fs)))
        by (apply filter_In; split; assumption).
      destruct (filter (filed_under c k) (regular_files (checkpoint_path c) fs));
        [destruct Hin' | discriminate Habs].
Qed.

(** X5: when the checkpoint directory exists and the name of the group can
    be computed, discovery succeeds exactly when every regular file of the
    directory has a leading label that [int()] accepts. *)
Theorem discovery_succeeds_iff_every_file_is_labelled
    (c : LanguageModelSAERunnerConfig) (fs : list (string * FileContent))
    (nm : string) (names : list string)
    (Hnm : get_name c = Ok nm)
    (Hdir : Fs.listdir (checkpoint_path c) fs = Ok names) :
  is_ok (get_checkpoints_by_step c fs) = true
  <-> forall name, dir_has_file (checkpoint_path c) name fs ->
                   is_ok (leading_label name) = true.
Proof.
  split.
  - intros Hok name Hin.
    destruct (leading_label name) as [k | e] eqn:Hl; [reflexivity |].
    rewrite (leading_label_raises_ValueError name e Hl) in Hl.
    rewrite (get_checkpoints_by_step_bad_label c fs nm name Hnm Hin Hl) in Hok.
    discriminate Hok.
  - intros Hall. rewrite (get_checkpoints_by_step_unfold c fs names Hdir).
    apply (map_to_steps_total c nm); [exact Hnm |].
    intros f Hf. apply Hall. apply regular_files_spec. exact Hf.
Qed.

Lemma fold_left_max_spec (l : list Z) :
  forall x, (fold_left Z.max l x = x \/ In (fold_left Z.max l x) l)
            /\ x <= fold_left Z.max l x
            /\ forall y, In y l -> y <= fold_left Z.max l x.
Proof.
  induction l as [| y l IH]; intros x; simpl.
  - repeat split; [left; reflexivity | lia | intros y []].
  - destruct (IH (Z.max x y)) as (H1 & H2 & H3).
    split; [| split].
    + destruct H1 as [H1 | H1]; [| right; right; exact H1].
      rewrite H1. destruct (Z.max_spec x y) as [[_ ->] | [_ ->]]; auto.
    + lia.
    + intros z [<- | Hz]; [lia | apply H3; exact Hz].
Qed.

Lemma discovered_keys_have_a_name c checkpoints d :
  map_to_steps c checkpoints [] = Ok d -> d <> [] ->
  exists nm, get_name c = Ok nm.
Proof.
  intros H Hne. destruct (get_name c) as [nm | e] eqn:Hnm; [eauto |].
  exfalso. destruct checkpoints as [| f rest]; simpl in H.
  - inversion H. subst d. apply Hne. reflexivity.
  - destruct (leading_label f); simpl in H; [| discriminate H].
    unfold get_base_path in H. rewrite Hnm in H. discriminate H.
Qed.

Lemma get_resume_base_path_found
    (c : LanguageModelSAERunnerConfig) (s : State) (d : Dict.t) :
  get_checkpoints_by_step c (files s) = Ok d -> d <> [] ->
  exists m base,
    In m (Dict.keys d)
    /\ (forall k, In k (Dict.keys d) -> k <= m)
    /\ get_base_path c (LInt m) = Ok base
    /\ get_resume_base_path c s
       = (Ok base,
          set_trace
            (trace s ++ [EvPrint ("resuming from step " ++ Py.str_of_int m)])
            s).
Proof.
  unfold get_resume_base_path, bind, gets, lift.
  intros Hd Hne. rewrite Hd.
  destruct (discovered_keys_have_a_name c _ d
              (get_checkpoints_by_step_regular c _ d Hd) Hne) as [nm Hnm].
  destruct d as [| [k0 vs] d]; [exfalso; apply Hne; reflexivity |].
  simpl List.length. simpl Nat.eqb. cbv iota.
  simpl Dict.keys. unfold Py.max_.
  destruct (fold_left_max_spec (map fst d) k0) as (H1 & H2 & H3).
  exists (fold_left Z.max (map fst d) k0),
         (checkpoint_path c ++ "/"
          ++ Py.str_of_int (fold_left Z.max (map fst d) k0) ++ "_" ++ nm).
  split; [destruct H1 as [-> | H1]; [left; reflexivity | right; exact H1] |].
  split; [intros k [<- | Hk]; [exact H2 | apply H3; exact Hk] |].
  split; [apply (get_base_path_ok c nm (LInt _) Hnm) |].
  unfold print, emit, modify. simpl.
  rewrite (get_base_path_ok c nm (LInt _) Hnm). reflexivity.
Qed.

(** X6: [get_resume_base_path] passes on whatever discovery raises; raises
    [FileNotFoundError] when discovery finds no file of this group, even in
    a directory that holds other files; and otherwise announces and returns
    the base path of the largest label found. *)
Theorem resume_base_path_is_that_of_the_largest_label
    (c : LanguageModelSAERunnerConfig) (s : State) :
  (forall e, get_checkpoints_by_step c (files s) = Raise e ->
             get_resume_base_path c s = (Raise e, s))
  /\ (get_checkpoints_by_step c (files s) = Ok [] ->
      get_resume_base_path c s = (Raise FileNotFoundError, s))
  /\ (forall d, get_checkpoints_by_step c (files s) = Ok d -> d <> [] ->
      exists m base,
        In m (Dict.keys d)
        /\ (forall k, In k (Dict.keys d) -> k <= m)
        /\ get_base_path c (LInt m) = Ok base
        /\ get_resume_base_path c s
           = (Ok base,
              set_trace
                (trace s ++ [EvPrint ("resuming from step " ++ Py.str_of_int m)])
                s)).
Proof.
  split; [| split].
  - intros e He. unfold get_resume_base_path, bind, gets, lift. rewrite He.
    reflexivity.
  - intros He. unfold get_resume_base_path, bind, gets, lift. rewrite He.
    reflexivity.
  - apply get_resume_base_path_found.
Qed.

End Grouping.

(** ** What a save leaves on disk and in memory *)

Lemma lookup_write_eq {X} q p (x : X) fs :
  Fs.lookup q (Fs.write p x fs)
  = if String.eqb p q then Some x else Fs.lookup q fs.
Proof.
  induction fs as [| [r y] fs IH]; simpl.
  - destruct (String.eqb p q); reflexivity.
  - destruct (String.eqb r p) eqn:E; simpl.
    + apply String.eqb_eq in E. subst r.
      destruct (String.eqb p q); reflexivity.
    + destruct (String.eqb r q) eqn:E'; [| exact IH].
      apply String.eqb_eq in E'. subst r.
      rewrite String.eqb_sym, E. reflexivity.
Qed.

Lemma string_app_inv_head (a x y : string) : a ++ x = a ++ y -> x = y.
Proof.
  induction a as [| c a IH]; simpl; intros H; [exact H |].
  inversion H. auto.
Qed.

Lemma removed_app {C : Collaborators} (t u : list event) :
  removed (t ++ u) = (removed t ++ removed u)%list.
Proof.
  induction t as [| e t IH]; simpl; [reflexivity |].
  destruct e; simpl; rewrite ?IH; reflexivity.
Qed.

Lemma removed_reads {C : Collaborators} (ctxs : list SAETrainContext) :
  removed (map (fun ctx => EvReadSparsity (n_frac_active_tokens ctx)) ctxs) = [].
Proof.
  induction ctxs as [| ctx rest IH]; simpl; [reflexivity | exact IH].
Qed.

Section Snapshot.

Context {C : Collaborators}.

(** The state in which [write_bundle] ends when the base path can be
    computed. *)
Lemma write_bundle_state steps tokens name aliases (s : State) bp :
  get_base_path (sae_group_cfg s) name = Ok bp ->
  let s1 := snd (write_bundle steps tokens name aliases s) in
  autoencoders s1
  = map (fun sae => mkSAE (cfg sae) (set_decoder_norm_to_unit_norm (weights sae)))
      (autoencoders s)
  /\ train_contexts s1 = train_contexts s
  /\ activation_store s1 = activation_store s
  /\ n_training_steps s1 = n_training_steps s
  /\ n_training_tokens s1 = n_training_tokens s
  /\ checkpoint_paths s1 = checkpoint_paths s
  /\ rng s1 = rng s
  /\ removed (trace s1) = removed (trace s)
  /\ files s1
     = Fs.write (bp ++ "_trainining_state.pt") (FState (captured steps tokens s))
         (Fs.write (bp ++ "_activation_store.pt") (FStore (activation_store s))
            (Fs.write (bp ++ "_log_feature_sparsity.pt")
               (FSparsity
                  (map (fun ctx => _log_feature_sparsity (feature_sparsity ctx))
                     (train_contexts s)))
               (Fs.write (bp ++ ".pt")
                  (FGroup
                     (map (fun sae =>
                             mkSAE (cfg sae)
                               (set_decoder_norm_to_unit_norm (weights sae)))
                        (autoencoders s)))
                  (files s)))).
Proof.
  intros Hbp. cbv zeta.
  destruct (write_bundle steps tokens name aliases s) as [r s1] eqn:Hw.
  cbn [snd].
  unfold write_bundle, bind at 1, gets at 1 in Hw.
  unfold bind at 1, lift at 1 in Hw. rewrite Hbp in Hw.
  unfold bind, modify, gets, write_file, bind, modify, emit, modify, ret in Hw.
  simpl in Hw.
  rewrite read_log_sparsities_spec in Hw. simpl in Hw.
  unfold new_run_state, run_state_post_init, bind, gets, ret in Hw. simpl in Hw.
  destruct (log_to_wandb (sae_group_cfg s));
    [destruct (Py.startswith (str_of_label name) "final") |]; simpl in Hw;
    inversion Hw; subst r s1; clear Hw; simpl;
    repeat (split; [reflexivity |]);
    (split; [| reflexivity]);
    rewrite !removed_app, removed_reads; simpl; rewrite ?app_nil_r; reflexivity.
Qed.

Lemma _save_checkpoint_state steps tokens name aliases (s : State) :
  snd (_save_checkpoint steps tokens name aliases s)
  = snd (write_bundle steps tokens name aliases s).
Proof.
  unfold _save_checkpoint, bind at 1.
  destruct (write_bundle steps tokens name aliases s) as [[out | e] s1];
    [| reflexivity].
  unfold bind at 1, gets at 1. unfold bind.
  destruct (remove_excess_checkpoints_raises (sae_group_cfg s1) s1) as [e He].
  rewrite He. reflexivity.
Qed.

(** X7: a save never removes a file, whatever [max_checkpoints] says: no
    removal is attempted, every file that existed still exists, and the only
    files whose content can differ afterwards are the four files of the
    bundle just written. *)
Theorem a_save_never_removes_a_file
    (steps tokens : Z) (name : label) (aliases : option (list string))
    (s : State) :
  let s' := snd (_save_checkpoint steps tokens name aliases s) in
  removed (trace s') = removed (trace s)
  /\ (forall p, Fs.isfile p (files s) = true -> Fs.isfile p (files s') = true)
  /\ (forall p,
        Fs.lookup p (files s') = Fs.lookup p (files s)
        \/ exists bp,
             get_base_path (sae_group_cfg s) name = Ok bp
             /\ In p [bp ++ ".pt"; bp ++ "_log_feature_sparsity.pt";
                      bp ++ "_activation_store.pt";
                      bp ++ "_trainining_state.pt"]).
Proof.
  cbv zeta. rewrite _save_checkpoint_state.
  destruct (get_base_path (sae_group_cfg s) name) as [bp | e] eqn:Hbp.
  - destruct (write_bundle_state steps tokens name aliases s bp Hbp)
      as (_ & _ & _ & _ & _ & _ & _ & Hrm & Hfiles).
    split; [exact Hrm |]. rewrite Hfiles.
    split.
    + intros p Hp. repeat apply isfile_write. exact Hp.
    + intros p. rewrite !lookup_write_eq.
      destruct (String.eqb_spec (bp ++ "_trainining_state.pt") p) as [<- | _];
        [right; exists bp; split; [reflexivity | simpl; tauto] |].
      destruct (String.eqb_spec (bp ++ "_activation_store.pt") p) as [<- | _];
        [right; exists bp; split; [reflexivity | simpl; tauto] |].
      destruct (String.eqb_spec (bp ++ "_log_feature_sparsity.pt") p) as [<- | _];
        [right; exists bp; split; [reflexivity | simpl; tauto] |].
      destruct (String.eqb_spec (bp ++ ".pt") p) as [<- | _];
        [right; exists bp; split; [reflexivity | simpl; tauto] |].
      left. reflexivity.
  - rewrite (write_bundle_raises steps tokens name aliases s e Hbp). simpl.
    split; [reflexivity |]. split; [auto |]. intros p. left. reflexivity.
Qed.

(** X8: the bundle is a snapshot of the run at the save.  The autoencoders
    in memory have their decoder normalised and the group file holds exactly
    them; the other three files hold the log-sparsities of the contexts, the
    activation store and the run state of that moment; the contexts, the
    store, the counters and the generators are left as they were. *)
Theorem a_save_writes_what_is_in_memory
    (steps tokens : Z) (name : label) (aliases : option (list string))
    (s : State) (bp : string)
    (Hbp : get_base_path (sae_group_cfg s) name = Ok bp) :
  let s' := snd (_save_checkpoint steps tokens name aliases s) in
  autoencoders s'
  = map (fun sae => mkSAE (cfg sae) (set_decoder_norm_to_unit_norm (weights sae)))
      (autoencoders s)
  /\ Fs.lookup (bp ++ SAVE_POSTFIX_SAE_GROUP ++ ".pt") (files s')
     = Some (FGroup (autoencoders s'))
  /\ Fs.lookup (bp ++ SAVE_POSTFIX_LOG_FEATURE_SPARSITY ++ ".pt") (files s')
     = Some (FSparsity
               (map (fun ctx => _log_feature_sparsity (feature_sparsity ctx))
                  (train_contexts s)))
  /\ Fs.lookup (bp ++ SAVE_POSTFIX_ACTIVATION_STORE ++ ".pt") (files s')
     = Some (FStore (activation_store s))
  /\ Fs.lookup (bp ++ SAVE_POSTFIX_TRAINING_STATE ++ ".pt") (files s')
     = Some (FState (captured steps tokens s))
  /\ train_contexts s' = train_contexts s
  /\ activation_store s' = activation_store s
  /\ n_training_steps s' = n_training_steps s
  /\ n_training_tokens s' = n_training_tokens s
  /\ rng s' = rng s.
Proof.
  cbv zeta. rewrite _save_checkpoint_state.
  destruct (write_bundle_state steps tokens name aliases s bp Hbp)
    as (Hsaes & Hctxs & Hstore & Hsteps & Htokens & _ & Hrng & _ & Hfiles).
  assert (Hne : forall x y, x <> y -> String.eqb (bp ++ x) (bp ++ y) = false).
  { intros x y Hxy. apply String.eqb_neq. intros H. apply Hxy.
    exact (string_app_inv_head bp x y H). }
  split; [exact Hsaes |].
  rewrite Hfiles, Hsaes. simpl.
  rewrite !lookup_write_eq.
  rewrite !String.eqb_refl.
  rewrite !Hne by discriminate.
  repeat (split; [reflexivity |]).
  repeat split; assumption.
Qed.

End Snapshot.

(** ** What a training step touches *)



Section StepFrame.

Context {C : Collaborators}.

















End StepFrame.

(** ** The accumulators over consecutive steps *)

Lemma tokens_in_window_step (bs W n : Z) :
  0 < W -> 0 <= n ->
  (if (n + 1) mod W =? 0 then 0 else tokens_in_window bs W n) + bs
  = tokens_in_window bs W (n + 1).
Proof.
  intros HW Hn. unfold tokens_in_window.
  destruct ((n + 1) mod W =? 0) eqn:Hb.
  - apply Z.eqb_eq in Hb.
    destruct (n + 1 <? W) eqn:Hlt.
    + apply Z.ltb_lt in Hlt. rewrite Z.mod_small in Hb by lia. lia.
    + rewrite Hb. lia.
  - apply Z.eqb_neq in Hb.
    destruct (n <? W) eqn:Hlt, (n + 1 <? W) eqn:Hlt'.
    + lia.
    + apply Z.ltb_lt in Hlt. apply Z.ltb_ge in Hlt'.
      assert (n + 1 = W) by lia.
      exfalso. apply Hb. replace (n + 1) with W by lia. apply Z.mod_same. lia.
    + apply Z.ltb_ge in Hlt. apply Z.ltb_lt in Hlt'. lia.
    + assert (Hm : (n + 1) mod W = n mod W + 1).
      { pose proof (Z.mod_pos_bound n W HW) as Hr.
        assert (H1 : 1 < W).
        { destruct (Z.eq_dec W 1) as [-> | ]; [| lia].
          exfalso. apply Hb. apply Z.mod_1_r. }
        destruct (Z.eq_dec (n mod W + 1) W) as [He | He].
        - exfalso. apply Hb.
          rewrite Zplus_mod. rewrite (Z.mod_small 1 W) by lia.
          rewrite He. apply Z.mod_same. lia.
        - rewrite Zplus_mod. rewrite (Z.mod_small 1 W) by lia.
          apply Z.mod_small. lia. }
      rewrite Hm. lia.
Qed.

Section Windows.

Context {C : Collaborators}.

Lemma _train_step_ok_has_sae k acts W uw n layers bs suf (s s' : State) out :
  _train_step k acts W uw n layers bs suf s = (Ok out, s') ->
  exists sae, nth_error (autoencoders s) k = Some sae.
Proof.
  intros H. unfold _train_step in H.
  apply bind_ok in H. destruct H as (sae & s1 & Hm & _).
  apply get_sae_inv in Hm. destruct Hm as [Hm _]. eauto.
Qed.

Lemma run_steps_denominator k W uw layers bs suf batches :
  0 < W ->
  forall n (s s' : State) outs ctx,
    0 <= n ->
    run_steps k batches W uw n layers bs suf s = (Ok outs, s') ->
    nth_error (train_contexts s) k = Some ctx ->
    n_frac_active_tokens ctx = tokens_in_window bs W n ->
    exists ctx',
      nth_error (train_contexts s') k = Some ctx'
      /\ n_frac_active_tokens ctx'
         = tokens_in_window bs W (n + Z.of_nat (List.length batches)).
Proof.
  intros HW.
  induction batches as [| b rest IH]; intros n s s' outs ctx Hn H Hctx Hinv.
  - simpl in H. apply ret_inv in H. destruct H as [_ ->].
    exists ctx. simpl. rewrite Z.add_0_r. auto.
  - apply run_steps_cons_inv in H.
    destruct H as (out1 & s1 & outs' & Hstep & Hrest & ->).
    destruct (_train_step_ok_has_sae _ _ _ _ _ _ _ _ _ _ _ Hstep) as [sae Hsae].
    destruct (_train_step_spec _ _ _ _ _ _ _ _ _ _ _ _ _ Hstep Hctx Hsae)
      as (_ & _ & _ & (ctx1 & Hctx1 & _ & Hfrac & _) & _).
    rewrite Hinv, (tokens_in_window_step bs W n HW Hn) in Hfrac.
    destruct (IH (n + 1) s1 s' outs' ctx1 ltac:(lia) Hrest Hctx1 Hfrac)
      as (ctx' & Hctx' & Hfrac').
    exists ctx'. split; [exact Hctx' |].
    rewrite Hfrac'. f_equal. simpl List.length. lia.
Qed.

(** X10: the sparsity denominator in closed form.  In a run that starts at
    step 0 with a zero denominator, after [m] steps with batches of
    [batch_size] rows and a sparsity window of [W > 0] steps the denominator
    is [batch_size * m] as long as [m < W] and [batch_size * (m mod W + 1)]
    from then on: the reset happens at the start of the step whose index is
    one short of a multiple of [W], so the first window holds [W - 1]
    batches and every later one [W]. *)
Theorem sparsity_denominator_in_closed_form
    (k : nat) (W : Z) (uw : bool) (layers : list Z) (bs : Z) (suf : string)
    (batches : list Acts) (s s' : State) (outs : list TrainStepOutput)
    (ctx : SAETrainContext)
    (HW : 0 < W)
    (Hrun : run_steps k batches W uw 0 layers bs suf s = (Ok outs, s'))
    (Hctx : nth_error (train_contexts s) k = Some ctx)
    (Hzero : n_frac_active_tokens ctx = 0) :
  exists ctx',
    nth_error (train_contexts s') k = Some ctx'
    /\ n_frac_active_tokens ctx'
       = tokens_in_window bs W (Z.of_nat (List.length batches))
    /\ tokens_in_window bs W (W - 1) = bs * (W - 1)
    /\ tokens_in_window bs W (2 * W - 1) = bs * W.
Proof.
  destruct (run_steps_denominator k W uw layers bs suf batches HW 0 s s' outs ctx
              ltac:(lia) Hrun Hctx) as (ctx' & Hctx' & Hfrac).
  { rewrite Hzero. unfold tokens_in_window.
    destruct (0 <? W) eqn:E; [lia | apply Z.ltb_ge in E; lia]. }
  exists ctx'. split; [exact Hctx' |]. split; [exact Hfrac |].
  unfold tokens_in_window. split.
  - destruct (W - 1 <? W) eqn:E; [reflexivity | apply Z.ltb_ge in E; lia].
  - destruct (2 * W - 1 <? W) eqn:E; [apply Z.ltb_lt in E; lia |].
    replace (2 * W - 1) with ((W - 1) + 1 * W) by lia.
    rewrite Z.mod_add by lia. rewrite Z.mod_small by lia. f_equal. lia.
Qed.






Lemma masked_zero_bound (B : Z) :
  forall m v r,
    masked_zero m v = Ok r ->
    0 <= B ->
    Forall (fun c => c <= B) v -> Forall (fun c => c <= B) r.
Proof.
  induction m as [| b m IH]; intros [| x v] r H HB Hv; simpl in H;
    try discriminate H.
  - inversion H. constructor.
  - destruct (masked_zero m v) as [r' |] eqn:Hr; simpl in H; [| discriminate H].
    inversion H; subst r. inversion Hv; subst.
    constructor; [destruct b; lia | eapply IH; eauto].
Qed.

Lemma dead_mask_of_small_counters (dfw : Z) (v : list Z) (j : nat) :
  Forall (fun c => c <= dfw) v -> nth j (dead_mask dfw v) false = false.
Proof.
  intros Hv. revert j. induction Hv as [| x v Hx Hv IH]; intros [| j]; simpl;
    try reflexivity.
  - apply Z.ltb_ge. exact Hx.
  - apply IH.
Qed.

Lemma run_steps_young_counters k W uw layers bs suf batches :
  forall n (s s' : State) outs ctx sae B,
    run_steps k batches W uw n layers bs suf s = (Ok outs, s') ->
    nth_error (train_contexts s) k = Some ctx ->
    nth_error (autoencoders s) k = Some sae ->
    0 <= B ->
    Forall (fun c => c <= B) (n_forward_passes_since_fired ctx) ->
    B + Z.of_nat (List.length batches) <= dead_feature_window (cfg sae) + 1 ->
    forall out j, In out outs -> masked j out = false.
Proof.
  induction batches as [| b rest IH];
    intros n s s' outs ctx sae B H Hctx Hsae HB Hinv Hlen.
  - simpl in H. apply ret_inv in H. destruct H as [-> _]. intros out j [].
  - apply run_steps_cons_inv in H.
    destruct H as (out1 & s1 & outs' & Hstep & Hrest & ->).
    destruct (_train_step_spec _ _ _ _ _ _ _ _ _ _ _ _ _ Hstep Hctx Hsae)
      as (_ & Hmask & _ & (ctx1 & Hctx1 & Hzero & _) & (w' & Hsae1) & _).
    simpl List.length in Hlen.
    intros out j [<- | Hin].
    + unfold masked. rewrite Hmask. apply dead_mask_of_small_counters.
      eapply Forall_impl; [| exact Hinv]. simpl. intros c Hc. lia.
    + apply (IH (n + 1) s1 s' outs' ctx1 (mkSAE (cfg sae) w') (B + 1)
               Hrest Hctx1 Hsae1 ltac:(lia)); [| simpl; lia | exact Hin].
      apply (masked_zero_bound (B + 1) _ _ _ Hzero ltac:(lia)).
      apply Forall_forall. intros c Hc.
      apply in_map_iff in Hc. destruct Hc as (c0 & <- & Hc0).
      rewrite Forall_forall in Hinv. pose proof (Hinv c0 Hc0). lia.
Qed.

(** X12: no unit is declared dead early.  If every steps-since-fired counter
    is at most [B] when a run of consecutive steps starts (0 for a fresh
    context), then during the first [dead_feature_window + 1 - B] steps the
    dead-unit mask is empty, whatever the units do. *)
Theorem no_unit_is_dead_before_the_window_has_passed
    (k : nat) (W : Z) (uw : bool) (n : Z) (layers : list Z) (bs : Z)
    (suf : string) (batches : list Acts) (s s' : State)
    (outs : list TrainStepOutput) (ctx : SAETrainContext)
    (sae : SparseAutoencoder) (B : Z)
    (Hrun : run_steps k batches W uw n layers bs suf s = (Ok outs, s'))
    (Hctx : nth_error (train_contexts s) k = Some ctx)
    (Hsae : nth_error (autoencoders s) k = Some sae)
    (HB : 0 <= B)
    (Hyoung : Forall (fun c => c <= B) (n_forward_passes_since_fired ctx))
    (Hlen : B + Z.of_nat (List.length batches)
            <= dead_feature_window (cfg sae) + 1) :
  forall out j, In out outs -> masked j out = false.
Proof.
  exact (run_steps_young_counters k W uw layers bs suf batches n s s' outs ctx
           sae B Hrun Hctx Hsae HB Hyoung Hlen).
Qed.

End Windows.

(** ** Construction of the configuration, in full *)


(** ** Run states, generators and the entry of the training function *)

Section Entry.

Context {C : Collaborators}.

(** X14: a run state built by the constructor can always be restored.
    [__post_init__] keeps every generator state it was given and captures
    the missing ones from the process, so [set_random_state] on the result
    never raises: it sets each generator to the given state, or to the one
    of the moment of construction, and changes nothing else.  A run state in
    which the numpy state has been cleared afterwards is restored in part:
    the call raises [TypeError] with the torch and CUDA generators already
    overwritten. *)
Theorem a_constructed_run_state_is_restorable
    (rs : SAETrainingRunState) (s0 s : State) :
  (exists rs',
      run_state_post_init rs s0 = (Ok rs', s0)
      /\ set_random_state rs' s
         = (Ok tt,
            set_rng
              (match torch_state rs with Some t => t | None => rng_torch (rng s0) end,
               match torch_cuda_state rs with
               | Some c => c | None => rng_cuda (rng s0) end,
               match numpy_state rs with Some n => n | None => rng_numpy (rng s0) end,
               match random_state rs with
               | Some r => r | None => rng_random (rng s0) end)
              s))
  /\ (forall t c,
        torch_state rs = Some t -> torch_cuda_state rs = Some c ->
        numpy_state rs = None ->
        set_random_state rs s
        = (Raise TypeError,
           set_rng (t, c, rng_numpy (rng s), rng_random (rng s)) s)).
Proof.
  split.
  - eexists. split; [reflexivity |].
    unfold set_random_state, bind, modify, raise. simpl.
    destruct (torch_state rs), (torch_cuda_state rs), (numpy_state rs),
      (random_state rs); reflexivity.
  - intros t c Ht Hc Hn.
    unfold set_random_state, bind, modify, raise. rewrite Ht, Hc, Hn.
    reflexivity.
Qed.

(** X15: how the training function fails at its entry.  With a zero batch
    size it raises [ZeroDivisionError] before touching anything.  With
    [resume] set in the group configuration and no run state passed, it
    builds the contexts and then raises [AttributeError]: no decoder bias is
    initialised, no batch is fetched, nothing is written or printed. *)
Theorem training_fails_at_entry
    (fsw : Z) (uw : bool) (wlf : Z) (fuel : nat) (s : State) :
  (forall training_run_state,
      train_sae_group_on_language_model training_run_state 0 fsw uw wlf fuel s
      = (Raise ZeroDivisionError, s))
  /\ (forall batch_size ctxs,
        batch_size <> 0 ->
        resume (sae_group_cfg s) = true ->
        build_all (autoencoders s)
          (total_training_tokens (sae_group_cfg s) / batch_size) = Ok ctxs ->
        train_sae_group_on_language_model None batch_size fsw uw wlf fuel s
        = (Raise AttributeError,
           set_train_contexts ctxs
             (set_n_training_tokens 0 (set_n_training_steps 0 s)))).
Proof.
  split.
  - intros rs. reflexivity.
  - intros bs ctxs Hbs Hres Hbuild.
    unfold train_sae_group_on_language_model.
    unfold bind at 1, gets at 1. unfold bind at 1, lift at 1.
    unfold Py.floordiv.
    destruct (bs =? 0) eqn:E; [apply Z.eqb_eq in E; contradiction |].
    unfold bind at 1, modify at 1. unfold bind at 1, modify at 1.
    unfold bind at 1. unfold bind at 1, gets at 1. cbn [autoencoders
      set_n_training_tokens set_n_training_steps].
    unfold bind at 1, lift at 1.
    cbn [sae_group_cfg set_n_training_tokens set_n_training_steps].
    rewrite Hbuild. unfold modify at 1.
    unfold bind at 1. cbn [sae_group_cfg set_train_contexts
      set_n_training_tokens set_n_training_steps].
    rewrite Hres. reflexivity.
Qed.

End Entry.

(** ** Initialisation of the decoder biases *)

Section BiasInit.

Context {C : Collaborators}.






End BiasInit.

(** ** The configuration shared by all runners *)

Lemma string_app_assoc (a b c : string) : (a ++ b) ++ c = a ++ (b ++ c).
Proof.
  induction a as [| x a IH]; simpl; [reflexivity | rewrite IH; reflexivity].
Qed.

Lemma replace_char_no_char (a b : ascii) (s : string) :
  Ascii.eqb b a = false -> no_char a (Py.replace_char a b s) = true.
Proof.
  intros Hab. unfold no_char, string_forall.
  induction s as [| c s IH]; simpl; [reflexivity |].
  rewrite IH, andb_true_r.
  destruct (Ascii.eqb c a) eqn:E; [rewrite Hab | rewrite E]; reflexivity.
Qed.

(** X17: the autofilled path of the cached activations.  A path given by the
    user is kept as it is and filling is idempotent; a filled path has the
    components [activations], the dataset and the model, in which every
    slash of the dataset and model names has been replaced, followed by the
    components of the hook point, which is used as written, with the head
    index appended when there is one.  The caching runner's configuration is
    accepted exactly when [use_cached_activations] is off. *)
Theorem cached_activations_path_is_filled_once (c : RunnerConfig) :
  (forall p, rc_cached_activations_path c = Some p ->
             RunnerConfig_post_init c = c)
  /\ RunnerConfig_post_init (RunnerConfig_post_init c)
     = RunnerConfig_post_init c
  /\ (rc_cached_activations_path c = None ->
      exists p,
        rc_cached_activations_path (RunnerConfig_post_init c)
        = Some p
        /\ Py.split "/" p
           = "activations"
             :: Py.replace_char "/" "_" (rc_dataset_path c)
             :: Py.replace_char "/" "_" (rc_model_name c)
             :: Py.split "/"
                  (rc_hook_point c
                   ++ match rc_hook_point_head_index c with
                      | Some i => "_" ++ Py.str_of_int i
                      | None => EmptyString
                      end))
  /\ is_ok (CacheActivationsRunnerConfig_post_init c)
     = negb (rc_use_cached_activations c).
Proof.
  destruct c as [mn hp hi dp uc cp].
  unfold CacheActivationsRunnerConfig_post_init, RunnerConfig_post_init.
  cbn [rc_cached_activations_path rc_dataset_path
       rc_model_name rc_hook_point
       rc_hook_point_head_index rc_use_cached_activations].
  split; [intros p ->; reflexivity |].
  split; [destruct cp; reflexivity |].
  split; [| destruct cp, uc; reflexivity].
  intros ->. eexists. split; [reflexivity |].
  assert (Hp : forall tail,
             Py.split "/"
               ("activations/" ++ Py.replace_char "/" "_" dp ++ "/"
                ++ Py.replace_char "/" "_" mn ++ "/" ++ tail)
             = "activations" :: Py.replace_char "/" "_" dp
               :: Py.replace_char "/" "_" mn :: Py.split "/" tail).
  { intros tail.
    change ("activations/" ++ Py.replace_char "/" "_" dp ++ "/"
            ++ Py.replace_char "/" "_" mn ++ "/" ++ tail)
      with ("activations"
            ++ String "/" (Py.replace_char "/" "_" dp
                           ++ String "/" (Py.replace_char "/" "_" mn
                                          ++ String "/" tail))).
    rewrite (split_app_sep "/" "activations") by reflexivity.
    rewrite (split_app_sep "/" (Py.replace_char "/" "_" dp))
      by (apply replace_char_no_char; reflexivity).
    rewrite (split_app_sep "/" (Py.replace_char "/" "_" mn))
      by (apply replace_char_no_char; reflexivity).
    reflexivity. }
  destruct hi as [i |].
  - rewrite <- Hp. f_equal. rewrite !string_app_assoc. reflexivity.
  - rewrite <- Hp. f_equal.
    assert (Hnil : forall x : string, x ++ EmptyString = x)
      by (induction x as [| a x IH]; simpl; [| rewrite IH]; reflexivity).
    rewrite Hnil. reflexivity.
Qed.

(** ** The callers of the training function *)

Section CallersFacts.

Context {C : Collaborators} {Sn : Session}.

(** X18: the deprecated [train_sae_on_language_model] never trains.  Its
    positional call puts [batch_size] where the run state is expected, so
    the call raises before any context is built: [ZeroDivisionError] when
    [feature_sampling_window] is 0 (it lands in [batch_size]), and
    [AttributeError] otherwise.  The group, the store, the generators, the
    files and the output are untouched. *)
Theorem deprecated_trainer_never_trains
    (batch_size fsw : Z) (uw : bool) (wlf : Z) (fuel : nat) (s : State) :
  exists s',
    train_sae_on_language_model batch_size fsw uw wlf fuel s
    = (Raise (if fsw =? 0 then ZeroDivisionError else AttributeError), s')
    /\ autoencoders s' = autoencoders s
    /\ train_contexts s' = train_contexts s
    /\ activation_store s' = activation_store s
    /\ rng s' = rng s
    /\ files s' = files s
    /\ trace s' = trace s.
Proof.
  unfold train_sae_on_language_model, train_sae_group_called, bind, gets, lift,
    modify, raise, Py.floordiv.
  destruct (fsw =? 0); simpl; eexists; repeat split; reflexivity.
Qed.

Lemma read_file_inv p (s s1 : State) x :
  read_file p s = (Ok x, s1) -> Fs.lookup p (files s) = Some x /\ s1 = s.
Proof.
  unfold read_file, bind, gets.
  destruct (Fs.lookup p (files s)); intros H; inversion H; auto.
Qed.

Lemma reattach_spec total ctxs :
  forall saes ctxs',
    reattach total ctxs saes = Ok ctxs' ->
    List.length ctxs' = List.length ctxs
    /\ map act_freq_scores ctxs' = map act_freq_scores ctxs
    /\ map n_forward_passes_since_fired ctxs'
       = map n_forward_passes_since_fired ctxs
    /\ map n_frac_active_tokens ctxs' = map n_frac_active_tokens ctxs
    /\ forall i, (List.length saes <= i)%nat ->
                 nth_error ctxs' i = nth_error ctxs i.
Proof.
  induction ctxs as [| ctx ctxs IH]; intros saes ctxs' H.
  - destruct saes; simpl in H; inversion H; repeat split; reflexivity.
  - destruct saes as [| sae saes]; simpl in H.
    + inversion H. repeat split; reflexivity.
    + destruct (_build_train_context sae total) as [attached |]; simpl in H;
        [| discriminate H].
      destruct (reattach total ctxs saes) as [rest |] eqn:Hr; simpl in H;
        [| discriminate H].
      inversion H; subst ctxs'. clear H.
      destruct (IH saes rest Hr) as (H1 & H2 & H3 & H4 & H5).
      simpl. rewrite H1, H2, H3, H4.
      repeat split; try reflexivity.
      intros [| i] Hi; simpl in Hi; [lia |].
      simpl. apply H5. lia.
Qed.

(** X19: what [resume_checkpoint] returns.  It reads three files and leaves
    the state of the process alone.  The returned group carries the
    configuration it was handed while its autoencoders are the loaded ones,
    with whatever configuration each was saved with; the returned run state
    has the saved step and token counters and generator states, and its
    contexts are the saved ones with only optimizer and scheduler replaced:
    activation counts, steps-since-fired counters and sparsity denominators
    are the saved ones, and a context for which no autoencoder was loaded is
    returned as saved.  The batch size cannot have been 0. *)
Theorem resume_checkpoint_keeps_the_saved_accumulators
    (base_path : string) (c : LanguageModelSAERunnerConfig) (batch_size : Z)
    (s s' : State) (group_cfg : LanguageModelSAERunnerConfig)
    (saes : list SparseAutoencoder) (store : Store) (rs' : SAETrainingRunState)
    (Hres : resume_checkpoint base_path c batch_size s
            = (Ok (group_cfg, saes, store, rs'), s')) :
  s' = s /\ group_cfg = c /\ batch_size <> 0
  /\ (exists group_file saved_cfg,
        Fs.lookup (base_path ++ SAVE_POSTFIX_SAE_GROUP ++ ".pt") (files s)
        = Some group_file
        /\ SAEGroup_load_from_pretrained group_file = Ok (saved_cfg, saes))
  /\ exists rs,
       Fs.lookup (base_path ++ SAVE_POSTFIX_TRAINING_STATE ++ ".pt") (files s)
       = Some (FState rs)
       /\ rs_n_training_steps rs' = rs_n_training_steps rs
       /\ rs_n_training_tokens rs' = rs_n_training_tokens rs
       /\ torch_state rs' = torch_state rs
       /\ torch_cuda_state rs' = torch_cuda_state rs
       /\ numpy_state rs' = numpy_state rs
       /\ random_state rs' = random_state rs
       /\ List.length (rs_train_contexts rs') = List.length (rs_train_contexts rs)
       /\ map act_freq_scores (rs_train_contexts rs')
          = map act_freq_scores (rs_train_contexts rs)
       /\ map n_forward_passes_since_fired (rs_train_contexts rs')
          = map n_forward_passes_since_fired (rs_train_contexts rs)
       /\ map n_frac_active_tokens (rs_train_contexts rs')
          = map n_frac_active_tokens (rs_train_contexts rs)
       /\ forall i, (List.length saes <= i)%nat ->
                    nth_error (rs_train_contexts rs') i
                    = nth_error (rs_train_contexts rs) i.
Proof.
  unfold resume_checkpoint in Hres.
  apply bind_ok in Hres. destruct Hres as (gf & s1 & Hgf & H).
  apply read_file_inv in Hgf. destruct Hgf as [Hgf ->].
  apply bind_ok in H. destruct H as (grp & s1 & Hgrp & H).
  apply lift_inv in Hgrp. destruct Hgrp as [Hgrp ->].
  apply bind_ok in H. destruct H as (sf & s1 & Hsf & H).
  apply read_file_inv in Hsf. destruct Hsf as [Hsf ->].
  apply bind_ok in H. destruct H as (st & s1 & Hst & H).
  apply lift_inv in Hst. destruct Hst as [Hst ->].
  apply bind_ok in H. destruct H as (rs & s1 & Hrs & H).
  assert (Hfile : Fs.lookup (base_path ++ SAVE_POSTFIX_TRAINING_STATE ++ ".pt")
                    (files s) = Some (FState rs) /\ s1 = s).
  { unfold resume_training_run_state, bind, gets in Hrs.
    destruct (Fs.lookup (base_path ++ SAVE_POSTFIX_TRAINING_STATE ++ ".pt")
                (files s)) as [[| | | rs0] |]; inversion Hrs; auto. }
  destruct Hfile as [Hfile ->].
  apply bind_ok in H. destruct H as (total & s1 & Htot & H).
  apply lift_inv in Htot. destruct Htot as [Htot ->].
  apply bind_ok in H. destruct H as (ctxs & s1 & Hctxs & H).
  apply lift_inv in Hctxs. destruct Hctxs as [Hctxs ->].
  apply ret_inv in H. destruct H as [H ->].
  inversion H; subst group_cfg saes store rs'. clear H.
  split; [reflexivity |]. split; [reflexivity |].
  split.
  { unfold Py.floordiv in Htot. intros ->. discriminate Htot. }
  split.
  { exists gf, (fst grp). split; [exact Hgf |]. rewrite Hgrp.
    destruct grp; reflexivity. }
  exists rs. split; [exact Hfile |]. cbn [rs_n_training_steps
    rs_n_training_tokens torch_state torch_cuda_state numpy_state random_state
    rs_train_contexts].
  repeat (split; [reflexivity |]).
  exact (reattach_spec total _ _ _ Hctxs).
Qed.

Lemma train_sae_group_not_ok rs bs fsw uw wlf fuel (s : State) :
  is_ok (fst (train_sae_group_on_language_model rs bs fsw uw wlf fuel s)) = false.
Proof.
  unfold train_sae_group_on_language_model.
  repeat first
    [ apply bind_not_ok_l; apply _save_checkpoint_not_ok
    | apply bind_not_ok_r; intros; cbv beta ].
Qed.

(** X20: the runner never resumes and never returns.  When [resume] is set
    and a checkpoint is found, the call of [resume_checkpoint] lacks its
    required [batch_size] and raises [TypeError]: nothing is loaded or
    trained.  When discovery raises anything but [FileNotFoundError], a
    [ValueError] for an unlabelled file say, the runner raises it.  When
    discovery raises [FileNotFoundError], the runner prints the traceback
    and a notice and goes on exactly as a runner whose configuration has
    [resume] off.  And in no case does the runner return a result. *)
Theorem the_runner_never_resumes
    (c : LanguageModelSAERunnerConfig) (from_pretrained_path : option string)
    (fuel : nat) (s : State) :
  (resume c = true ->
   (forall base_path s1,
       get_resume_base_path c s = (Ok base_path, s1) ->
       model_from_pretrained (model_name c) = Ok tt ->
       language_model_sae_runner c from_pretrained_path fuel s
       = (Raise TypeError, s1))
   /\ (forall e s1,
         get_resume_base_path c s = (Raise e, s1) ->
         e <> FileNotFoundError ->
         language_model_sae_runner c from_pretrained_path fuel s
         = (Raise e, s1))
   /\ (forall s1,
         get_resume_base_path c s = (Raise FileNotFoundError, s1) ->
         language_model_sae_runner c from_pretrained_path fuel s
         = language_model_sae_runner (set_resume false c) from_pretrained_path
             fuel
             (snd ((print (format_exc FileNotFoundError) ;;;
                    print "failed to find checkpoint to resume from, setting resume to False")
                     s1))))
  /\ is_ok (fst (language_model_sae_runner c from_pretrained_path fuel s))
     = false.
Proof.
  split.
  - intros Hres. split; [| split].
    + intros bp s1 Hget Hmodel.
      unfold language_model_sae_runner. rewrite Hres.
      unfold bind at 1, try_except. unfold bind at 1. rewrite Hget.
      unfold bind at 1, lift at 1. rewrite Hmodel.
      reflexivity.
    + intros e s1 Hget Hne.
      unfold language_model_sae_runner. rewrite Hres.
      unfold bind at 1, try_except. unfold bind at 1. rewrite Hget.
      destruct e; try reflexivity. exfalso. apply Hne. reflexivity.
    + intros s1 Hget.
      unfold language_model_sae_runner. rewrite Hres.
      unfold bind at 1, try_except. unfold bind at 1. rewrite Hget.
      reflexivity.
  - unfold language_model_sae_runner.
    apply bind_not_ok_r. intros resumed s1. cbv beta zeta.
    apply bind_not_ok_r. intros session s2. cbv beta.
    apply bind_not_ok_r. intros u s3. cbv beta.
    apply train_sae_group_not_ok.
Qed.

End CallersFacts.

(** ** From a save to the next resume *)

Lemma strip_prefix_app (a b : string) : Fs.strip_prefix a (a ++ b) = Some b.
Proof.
  induction a as [| c a IH]; simpl; [destruct b; reflexivity |].
  rewrite Ascii.eqb_refl. exact IH.
Qed.

Lemma split_no_sep sep (a : string) :
  no_char sep a = true -> Py.split sep a = [a].
Proof.
  unfold no_char, string_forall.
  induction a as [| c a IH]; simpl; intros H; [reflexivity |].
  apply andb_true_iff in H. destruct H as [Hc Ha].
  apply negb_true_iff in Hc. rewrite Hc, (IH Ha). reflexivity.
Qed.

Lemma startswith_app (a b : string) : Py.startswith (a ++ b) a = true.
Proof.
  induction a as [| c a IH]; simpl; [destruct b; reflexivity |].
  rewrite Ascii.eqb_refl. exact IH.
Qed.

Lemma path_join_plain (dir name : string) :
  (String.length dir =? 0)%nat = false -> Py.ends_with_slash dir = false ->
  Py.path_join dir name = dir ++ "/" ++ name.
Proof. intros H1 H2. unfold Py.path_join. rewrite H1, H2. reflexivity. Qed.

Lemma entry_under_plain (dir name : string) :
  no_char "/" name = true -> (String.length name =? 0)%nat = false ->
  Fs.entry_under dir (dir ++ "/" ++ name) = Some name.
Proof.
  intros Hplain Hlen. unfold Fs.entry_under.
  rewrite <- string_app_assoc, strip_prefix_app.
  rewrite (split_no_sep "/" name Hplain), Hlen. reflexivity.
Qed.

Lemma entries_write_inv {X} dir name p (x : X) fs :
  In name (Fs.entries dir (Fs.write p x fs)) ->
  In name (Fs.entries dir fs) \/ Fs.entry_under dir p = Some name.
Proof.
  induction fs as [| [q y] fs IH]; simpl.
  - destruct (Fs.entry_under dir p) as [n |]; simpl; [| tauto].
    intros [<- | []]. right. reflexivity.
  - destruct (String.eqb q p) eqn:E; simpl.
    + auto.
    + destruct (Fs.entry_under dir q); simpl; [| exact IH].
      intros [H | H]; [left; left; exact H |].
      destruct (IH H) as [H' | H']; auto.
Qed.

Lemma entries_write_new {X} dir name p (x : X) fs :
  Fs.entry_under dir p = Some name ->
  In name (Fs.entries dir (Fs.write p x fs)).
Proof.
  intros Hp. induction fs as [| [q y] fs IH]; simpl.
  - rewrite Hp. left. reflexivity.
  - destruct (String.eqb q p) eqn:E; simpl.
    + apply String.eqb_eq in E. subst q. rewrite Hp. left. reflexivity.
    + destruct (Fs.entry_under dir q); [right |]; exact IH.
Qed.

Lemma isfile_write_inv {X} q p (x : X) fs :
  Fs.isfile q (Fs.write p x fs) = true -> Fs.isfile q fs = true \/ p = q.
Proof.
  unfold Fs.isfile. induction fs as [| [r y] fs IH]; simpl.
  - rewrite orb_false_r. intros H. right. apply String.eqb_eq. exact H.
  - destruct (String.eqb r p) eqn:E; simpl.
    + auto.
    + destruct (String.eqb r q); simpl; auto.
Qed.

Lemma isfile_write_new {X} p (x : X) fs : Fs.isfile p (Fs.write p x fs) = true.
Proof.
  unfold Fs.isfile. induction fs as [| [r y] fs IH]; simpl.
  - rewrite String.eqb_refl. reflexivity.
  - destruct (String.eqb r p) eqn:E; simpl; rewrite E; [reflexivity | exact IH].
Qed.

Lemma dir_has_file_write_inv {X} dir name pname (x : X) fs :
  Fs.entry_under dir (dir ++ "/" ++ pname) = Some pname ->
  Py.path_join dir name = dir ++ "/" ++ name ->
  dir_has_file dir name (Fs.write (dir ++ "/" ++ pname) x fs) ->
  name = pname \/ dir_has_file dir name fs.
Proof.
  intros Hentry Hjoin [Hin Hfile].
  apply entries_write_inv in Hin. destruct Hin as [Hin | Hin].
  - apply isfile_write_inv in Hfile. destruct Hfile as [Hfile | Heq].
    + right. split; assumption.
    + left. rewrite Hjoin in Heq.
      apply string_app_inv_head in Heq. inversion Heq. reflexivity.
  - left. rewrite Hentry in Hin. inversion Hin. reflexivity.
Qed.

Lemma dir_has_file_write_new {X} dir pname (x : X) fs :
  Fs.entry_under dir (dir ++ "/" ++ pname) = Some pname ->
  Py.path_join dir pname = dir ++ "/" ++ pname ->
  dir_has_file dir pname (Fs.write (dir ++ "/" ++ pname) x fs).
Proof.
  intros Hentry Hjoin. split.
  - apply entries_write_new. exact Hentry.
  - rewrite Hjoin. apply isfile_write_new.
Qed.

Lemma listdir_of_inhabited {X} dir name (fs : list (string * X)) :
  In name (Fs.entries dir fs) -> exists names, Fs.listdir dir fs = Ok names.
Proof.
  intros Hin. unfold Fs.listdir.
  apply (nodup_In string_dec) in Hin.
  destruct (nodup string_dec (Fs.entries dir fs)); [destruct Hin | eauto].
Qed.

Lemma length_app_cons_nonzero (a b : string) c :
  (String.length (a ++ String c b) =? 0)%nat = false.
Proof. destruct a; reflexivity. Qed.

Lemma four_writes {X} dir (fs : list (string * X)) n1 n2 n3 n4 x1 x2 x3 x4 :
  (forall name, In name [n1; n2; n3; n4] ->
                Fs.entry_under dir (dir ++ "/" ++ name) = Some name) ->
  (forall name, Py.path_join dir name = dir ++ "/" ++ name) ->
  let fs' := Fs.write (dir ++ "/" ++ n4) x4
               (Fs.write (dir ++ "/" ++ n3) x3
                  (Fs.write (dir ++ "/" ++ n2) x2
                     (Fs.write (dir ++ "/" ++ n1) x1 fs))) in
  (forall name, dir_has_file dir name fs' ->
                In name [n1; n2; n3; n4] \/ dir_has_file dir name fs)
  /\ (forall name, In name [n1; n2; n3; n4] -> dir_has_file dir name fs').
Proof.
  intros Hentry Hjoin fs'. subst fs'. split.
  - intros name H.
    apply dir_has_file_write_inv in H;
      [| apply Hentry; simpl; tauto | apply Hjoin].
    destruct H as [-> | H]; [left; simpl; tauto |].
    apply dir_has_file_write_inv in H;
      [| apply Hentry; simpl; tauto | apply Hjoin].
    destruct H as [-> | H]; [left; simpl; tauto |].
    apply dir_has_file_write_inv in H;
      [| apply Hentry; simpl; tauto | apply Hjoin].
    destruct H as [-> | H]; [left; simpl; tauto |].
    apply dir_has_file_write_inv in H;
      [| apply Hentry; simpl; tauto | apply Hjoin].
    destruct H as [-> | H]; [left; simpl; tauto |].
    right. exact H.
  - intros name [<- | [<- | [<- | [<- | []]]]].
    + do 3 apply dir_has_file_write.
      apply dir_has_file_write_new; [apply Hentry; simpl; tauto | apply Hjoin].
    + do 2 apply dir_has_file_write.
      apply dir_has_file_write_new; [apply Hentry; simpl; tauto | apply Hjoin].
    + apply dir_has_file_write.
      apply dir_has_file_write_new; [apply Hentry; simpl; tauto | apply Hjoin].
    + apply dir_has_file_write_new; [apply Hentry; simpl; tauto | apply Hjoin].
Qed.

Lemma bundle_path_split (cp label nm sfx : string) :
  (cp ++ "/" ++ label ++ "_" ++ nm) ++ sfx
  = cp ++ "/" ++ (label ++ "_" ++ nm ++ sfx).
Proof. rewrite !string_app_assoc. reflexivity. Qed.

Section SaveThenResume.

Context {C : Collaborators}.

(** X21: a checkpoint that has been saved is found again.  Take a group
    whose name holds no slash and whose checkpoint directory is a plain
    non-empty path, and a directory in which every regular file already has
    an integer label.  After a save under the integer label [n], discovery
    succeeds, files the four files of the bundle under [n], and, when no
    larger label is on disk, [get_resume_base_path] returns the base path of
    this save and the run state read back from it is the one captured at the
    save. *)
Theorem a_saved_checkpoint_is_found_again
    (steps tokens n : Z) (aliases : option (list string)) (s : State)
    (nm : string)
    (Hnm : get_name (sae_group_cfg s) = Ok nm)
    (Hplain : no_char "/" nm = true)
    (Hdir1 : (String.length (checkpoint_path (sae_group_cfg s)) =? 0)%nat = false)
    (Hdir2 : Py.ends_with_slash (checkpoint_path (sae_group_cfg s)) = false)
    (Hold : forall name,
        dir_has_file (checkpoint_path (sae_group_cfg s)) name (files s) ->
        is_ok (leading_label name) = true) :
  let c := sae_group_cfg s in
  let s' := snd (_save_checkpoint steps tokens (LInt n) aliases s) in
  exists bp d,
    get_base_path c (LInt n) = Ok bp
    /\ get_checkpoints_by_step c (files s') = Ok d
    /\ In n (Dict.keys d)
    /\ (forall p,
          In p [bp ++ ".pt"; bp ++ "_log_feature_sparsity.pt";
                bp ++ "_activation_store.pt"; bp ++ "_trainining_state.pt"] ->
          In p (paths_at n d))
    /\ ((forall k, In k (Dict.keys d) -> k <= n) ->
        exists s'',
          get_resume_base_path c s' = (Ok bp, s'')
          /\ resume_training_run_state bp s''
             = (Ok (captured steps tokens s), s'')).
Proof.
  cbv zeta. rewrite _save_checkpoint_state.
  set (c := sae_group_cfg s) in *.
  set (cp := checkpoint_path c) in *.
  pose proof (get_base_path_ok c nm (LInt n) Hnm) as Hbp.
  cbn [str_of_label] in Hbp. fold cp in Hbp.
  set (bp := cp ++ "/" ++ Py.str_of_int n ++ "_" ++ nm) in *.
  destruct (write_bundle_state steps tokens (LInt n) aliases s bp Hbp)
    as (_ & _ & _ & _ & _ & _ & _ & _ & Hfiles).
  set (s1 := snd (write_bundle steps tokens (LInt n) aliases s)) in *.
  set (name := fun sfx => Py.str_of_int n ++ "_" ++ nm ++ sfx).
  assert (Hpath : forall sfx, bp ++ sfx = cp ++ "/" ++ name sfx)
    by (intros sfx; apply bundle_path_split).
  assert (Hjoin : forall x, Py.path_join cp x = cp ++ "/" ++ x)
    by (intros x; apply path_join_plain; assumption).
  assert (Hname : forall sfx, no_char "/" sfx = true ->
             Fs.entry_under cp (cp ++ "/" ++ name sfx) = Some (name sfx)
             /\ filed_under c n (name sfx) = true).
  { intros sfx Hsfx. split.
    - apply entry_under_plain.
      + unfold name, no_char in *.
        rewrite !string_forall_app.
        fold (no_char "/" (Py.str_of_int n)). rewrite str_of_int_no_slash.
        rewrite Hplain, Hsfx. reflexivity.
      + unfold name. change ("_" ++ nm ++ sfx) with (String "_" (nm ++ sfx)).
        apply length_app_cons_nonzero.
    - unfold filed_under, name.
      rewrite leading_label_of_integer_name, Hbp, Z.eqb_refl.
      fold (name sfx). fold cp. rewrite Hjoin, <- Hpath.
      apply startswith_app. }
  rewrite !Hpath in Hfiles.
  destruct (four_writes cp (files s)
              (name ".pt") (name "_log_feature_sparsity.pt")
              (name "_activation_store.pt") (name "_trainining_state.pt")
              (FGroup
                 (map (fun sae => mkSAE (cfg sae)
                                    (set_decoder_norm_to_unit_norm (weights sae)))
                    (autoencoders s)))
              (FSparsity
                 (map (fun ctx => _log_feature_sparsity (feature_sparsity ctx))
                    (train_contexts s)))
              (FStore (activation_store s))
              (FState (captured steps tokens s)))
    as [Hinv Hnew].
  { intros x [<- | [<- | [<- | [<- | []]]]]; apply Hname; reflexivity. }
  { exact Hjoin. }
  cbv zeta in Hinv, Hnew. rewrite <- Hfiles in Hinv, Hnew.
  assert (Hall : forall x, In x (regular_files cp (files s1)) ->
                           is_ok (leading_label x) = true).
  { intros x Hx. apply regular_files_spec in Hx.
    destruct (Hinv x Hx) as [Hin | Hin]; [| apply Hold; exact Hin].
    destruct Hin as [<- | [<- | [<- | [<- | []]]]]; unfold name;
      rewrite leading_label_of_integer_name; reflexivity. }
  assert (Hls : exists names, Fs.listdir cp (files s1) = Ok names).
  { destruct (Hnew (name ".pt")) as [Hin _]; [simpl; tauto |].
    exact (listdir_of_inhabited cp _ _ Hin). }
  destruct Hls as [names Hls].
  pose proof (get_checkpoints_by_step_unfold c (files s1) names Hls) as Hunf.
  pose proof (map_to_steps_total c nm (regular_files cp (files s1)) Hnm Hall [])
    as Hok.
  fold cp in Hunf.
  destruct (map_to_steps c (regular_files cp (files s1)) []) as [d |] eqn:Hd;
    [| discriminate Hok].
  destruct (map_to_steps_spec c _ [] d Hd) as (_ & Hkeys & Hpaths).
  assert (Hfound : forall sfx,
             In (name sfx) [name ".pt"; name "_log_feature_sparsity.pt";
                            name "_activation_store.pt";
                            name "_trainining_state.pt"] ->
             no_char "/" sfx = true ->
             In (bp ++ sfx) (paths_at n d)).
  { intros sfx Hin Hsfx. rewrite Hpaths. simpl app.
    apply in_map_iff. exists (name sfx). fold cp.
    split; [rewrite Hjoin, Hpath; reflexivity |].
    apply filter_In. split.
    - apply regular_files_spec. apply Hnew. exact Hin.
    - apply Hname. exact Hsfx. }
  assert (Hn : In n (Dict.keys d)).
  { apply Hkeys; [intros k; simpl; intuition |].
    intros Habs.
    pose proof (Hfound ".pt" ltac:(simpl; tauto) eq_refl) as Hin.
    rewrite Habs in Hin. destruct Hin. }
  exists bp, d.
  split; [exact Hbp |]. split; [exact Hunf |]. split; [exact Hn |].
  split.
  - intros p [<- | [<- | [<- | [<- | []]]]]; apply Hfound;
      try reflexivity; simpl; tauto.
  - intros Hmax.
    assert (Hne : d <> []) by (intros ->; destruct Hn).
    destruct (get_resume_base_path_found c s1 d Hunf Hne)
      as (m & base & Hm & Hle & Hbase & Hres).
    assert (m = n) by (pose proof (Hmax m Hm); pose proof (Hle n Hn); lia).
    subst m. rewrite Hbp in Hbase. inversion Hbase; subst base.
    eexists. split; [exact Hres |].
    unfold resume_training_run_state, bind, gets.
    cbn [files set_trace]. rewrite Hfiles, <- Hpath.
    change (bp ++ SAVE_POSTFIX_TRAINING_STATE ++ ".pt")
      with (bp ++ "_trainining_state.pt").
    rewrite lookup_write. reflexivity.
Qed.

End SaveThenResume.

(** ** The properties at work on the concrete runs *)

Lemma discovery_files_each_checkpoint_under_its_label_witness :
  NoDup (Dict.keys [(300, Toy.bundle "300")])
  /\ forall k,
       py_getitem (PDict [(300, Toy.bundle "300")]) k
       = Ok (map (Py.path_join (checkpoint_path ToySession.run_config))
               (filter (filed_under ToySession.run_config k)
                  (regular_files (checkpoint_path ToySession.run_config)
                     (files Toy.later))))
       /\ (In k (Dict.keys [(300, Toy.bundle "300")]) <->
           exists name,
             dir_has_file (checkpoint_path ToySession.run_config) name
               (files Toy.later)
             /\ filed_under ToySession.run_config k name = true).
Proof.
  apply (@discovery_files_each_checkpoint_under_its_label Toy.collaborators
           ToySession.run_config (files Toy.later) [(300, Toy.bundle "300")]).
  vm_compute. reflexivity.
Defined.

Lemma discovery_succeeds_iff_every_file_is_labelled_witness :
  is_ok (@get_checkpoints_by_step Toy.collaborators ToySession.run_config
           (files Toy.later)) = true
  <-> forall name,
        dir_has_file (checkpoint_path ToySession.run_config) name (files Toy.later) ->
        is_ok (leading_label name) = true.
Proof.
  apply (@discovery_succeeds_iff_every_file_is_labelled Toy.collaborators
           ToySession.run_config (files Toy.later) ToySession.group_name
           ToySession.names_300).
  - vm_compute. reflexivity.
  - vm_compute. reflexivity.
Defined.

Lemma a_save_writes_what_is_in_memory_witness :
  let s' := snd (@_save_checkpoint Toy.collaborators 3 300 (LInt 300) None
                   Toy.midway) in
  autoencoders s'
  = map (fun sae => mkSAE (cfg sae) (set_decoder_norm_to_unit_norm (weights sae)))
      (autoencoders Toy.midway)
  /\ Fs.lookup (Toy.base "300" ++ SAVE_POSTFIX_SAE_GROUP ++ ".pt") (files s')
     = Some (FGroup (autoencoders s'))
  /\ Fs.lookup (Toy.base "300" ++ SAVE_POSTFIX_LOG_FEATURE_SPARSITY ++ ".pt")
       (files s')
     = Some (FSparsity
               (map (fun ctx => _log_feature_sparsity (feature_sparsity ctx))
                  (train_contexts Toy.midway)))
  /\ Fs.lookup (Toy.base "300" ++ SAVE_POSTFIX_ACTIVATION_STORE ++ ".pt")
       (files s')
     = Some (FStore (activation_store Toy.midway))
  /\ Fs.lookup (Toy.base "300" ++ SAVE_POSTFIX_TRAINING_STATE ++ ".pt")
       (files s')
     = Some (FState (captured 3 300 Toy.midway))
  /\ train_contexts s' = train_contexts Toy.midway
  /\ activation_store s' = activation_store Toy.midway
  /\ n_training_steps s' = n_training_steps Toy.midway
  /\ n_training_tokens s' = n_training_tokens Toy.midway
  /\ rng s' = rng Toy.midway.
Proof.
  apply (@a_save_writes_what_is_in_memory Toy.collaborators 3 300 (LInt 300)
           None Toy.midway (Toy.base "300")).
  vm_compute. reflexivity.
Defined.

Lemma sparsity_denominator_in_closed_form_witness :
  exists ctx',
    nth_error (train_contexts Toy.after_three) 0 = Some ctx'
    /\ n_frac_active_tokens ctx' = tokens_in_window 100 1000 3
    /\ tokens_in_window 100 1000 (1000 - 1) = 100 * (1000 - 1)
    /\ tokens_in_window 100 1000 (2 * 1000 - 1) = 100 * 1000.
Proof.
  apply (@sparsity_denominator_in_closed_form Toy.collaborators 0%nat 1000 false
           [0] 100 EmptyString [Toy.batch; Toy.batch; Toy.batch] Toy.stepping
           Toy.after_three Toy.three_outs Toy.fresh_context).
  - lia.
  - exact toy_three_steps.
  - reflexivity.
  - reflexivity.
Defined.


Lemma no_unit_is_dead_before_the_window_has_passed_witness :
  Forall (fun out => masked 0 out = false /\ masked 2 out = false)
    Toy.three_outs.
Proof.
  assert (Hyoung : Forall (fun c => c <= 0)
                     (n_forward_passes_since_fired Toy.fresh_context))
    by (repeat constructor; simpl; lia).
  assert (Hlen : 0 + Z.of_nat (List.length [Toy.batch; Toy.batch; Toy.batch])
                 <= dead_feature_window
                      (cfg (@mkSAE Toy.collaborators (Toy.config 1000 100 5 1000)
                              tt)) + 1)
    by (simpl; lia).
  pose proof
    (@no_unit_is_dead_before_the_window_has_passed Toy.collaborators 0%nat
       1000 false 0 [0] 100 EmptyString [Toy.batch; Toy.batch; Toy.batch]
       Toy.stepping Toy.after_three Toy.three_outs Toy.fresh_context
       (@mkSAE Toy.collaborators (Toy.config 1000 100 5 1000) tt) 0
       toy_three_steps eq_refl eq_refl (Z.le_refl 0) Hyoung Hlen) as H.
  apply Forall_forall. intros out Hin. split; apply H; exact Hin.
Defined.


Lemma toy_resume_checkpoint :
  @resume_checkpoint Toy.collaborators ToySession.session (Toy.base "300")
    ToySession.run_config 100 Toy.later
  = (Ok (ToySession.run_config, autoencoders Toy.later, activation_store Toy.later,
         ToySession.resumed_run_state),
     Toy.later).
Proof. vm_compute. reflexivity. Qed.

Lemma resume_checkpoint_keeps_the_saved_accumulators_witness :
  exists rs,
    Fs.lookup (Toy.base "300" ++ SAVE_POSTFIX_TRAINING_STATE ++ ".pt")
      (files Toy.later) = Some (FState rs)
    /\ rs_n_training_steps ToySession.resumed_run_state = rs_n_training_steps rs
    /\ rs_n_training_tokens ToySession.resumed_run_state = rs_n_training_tokens rs
    /\ map act_freq_scores (rs_train_contexts ToySession.resumed_run_state)
       = map act_freq_scores (rs_train_contexts rs).
Proof.
  destruct (@resume_checkpoint_keeps_the_saved_accumulators Toy.collaborators
              ToySession.session (Toy.base "300") ToySession.run_config 100
              Toy.later Toy.later ToySession.run_config (autoencoders Toy.later)
              (activation_store Toy.later) ToySession.resumed_run_state
              toy_resume_checkpoint)
    as (_ & _ & _ & _ & rs & Hfile & Hsteps & Htokens & _ & _ & _ & _ & _
        & Hfreq & _).
  exists rs. repeat split; assumption.
Defined.

Lemma a_saved_checkpoint_is_found_again_witness :
  let c := sae_group_cfg Toy.midway in
  let s' := snd (@_save_checkpoint Toy.collaborators 3 300 (LInt 300) None
                   Toy.midway) in
  exists bp d,
    get_base_path c (LInt 300) = Ok bp
    /\ get_checkpoints_by_step c (files s') = Ok d
    /\ In 300 (Dict.keys d)
    /\ (forall p,
          In p [bp ++ ".pt"; bp ++ "_log_feature_sparsity.pt";
                bp ++ "_activation_store.pt"; bp ++ "_trainining_state.pt"] ->
          In p (paths_at 300 d))
    /\ ((forall k, In k (Dict.keys d) -> k <= 300) ->
        exists s'',
          get_resume_base_path c s' = (Ok bp, s'')
          /\ resume_training_run_state bp s''
             = (Ok (captured 3 300 Toy.midway), s'')).
Proof.
  apply (@a_saved_checkpoint_is_found_again Toy.collaborators 3 300 300 None
           Toy.midway ToySession.group_name).
  - vm_compute. reflexivity.
  - vm_compute. reflexivity.
  - vm_compute. reflexivity.
  - vm_compute. reflexivity.
  - intros name [Hin _]. destruct Hin.
Defined.
